(** * trust_vault: encrypted wallet store, lifecycle manager and request router

    A shallow embedding of the Go packages [storage], [service], [wallet] and
    [backend] of the Trust Vault plugin, together with the parts of the Go
    standard library they call (encoding/base64, encoding/hex, errors, the
    cipher.AEAD interface), and the properties of the wallet operations
    proved over it.

    Conventions.
    - A Go [string] is a Rocq [string] (a sequence of 8-bit characters); a Go
      [[]byte] is a [list byte]; [[]byte(s)] is [list_byte_of_string] and
      [string(b)] is [string_of_list_byte].
    - A Go [int] is a [Z] wrapped to 64 bits, a [uint32] a [Z] wrapped to 32.
    - A Go function returning [(T, error)] returns a [result T]; functions that
      touch the key-value backend, the heap, the random source or the native
      wallet library run in the monad [M] over a [World].
    - Logging calls have no influence on results and are left out. *)

From Stdlib Require Import NArith ZArith List Bool Lia.
From Stdlib Require Import Strings.String Strings.Ascii Strings.Byte DecimalString.
Import ListNotations.
Open Scope string_scope.

Set Implicit Arguments.

(** ** Go integers *)

Module goint.

(** Two's-complement wrap-around of a 64-bit [int]. *)
Definition wrap (z : Z) : Z := ((z + 2 ^ 63) mod 2 ^ 64 - 2 ^ 63)%Z.

Definition add (a b : Z) : Z := wrap (a + b).

Definition MaxInt : Z := (2 ^ 63 - 1)%Z.
Definition MinInt : Z := (- 2 ^ 63)%Z.

(** [len(x)] as an [int]. *)
Definition len {A} (l : list A) : Z := Z.of_nat (List.length l).
Definition strlen (s : string) : Z := Z.of_nat (String.length s).

(** Conversion [uint32(x)] of an [int]. *)
Definition to_uint32 (z : Z) : Z := (z mod 2 ^ 32)%Z.

(** Conversion [byte(x)] of an unsigned value: the low eight bits. *)
Definition to_byte (n : N) : byte :=
  match Byte.of_N (n mod 256) with
  | Some b => b
  | None => x00
  end.

End goint.

(** ** Go errors: sentinels, wrapping and [errors.Is] *)

Module errors.

(** The package-level error variables of the repository. *)
Inductive sentinel : Type :=
| storage_ErrWalletNotFound
| storage_ErrWalletExists
| storage_ErrEncryptionFailed
| storage_ErrDecryptionFailed
| service_ErrWalletNotFound
| service_ErrWalletExists
| service_ErrInvalidCoinType
| service_ErrInvalidMnemonic
| service_ErrInvalidTxData
| service_ErrSigningFailed
| service_ErrInvalidWalletName
| wallet_ErrInvalidMnemonic
| wallet_ErrInvalidCoinType
| wallet_ErrKeyGenerationFailed
| wallet_ErrSigningFailed
| wallet_ErrAddressDerivation.

Definition sentinel_eqb (a b : sentinel) : bool :=
  match a, b with
  | storage_ErrWalletNotFound, storage_ErrWalletNotFound
  | storage_ErrWalletExists, storage_ErrWalletExists
  | storage_ErrEncryptionFailed, storage_ErrEncryptionFailed
  | storage_ErrDecryptionFailed, storage_ErrDecryptionFailed
  | service_ErrWalletNotFound, service_ErrWalletNotFound
  | service_ErrWalletExists, service_ErrWalletExists
  | service_ErrInvalidCoinType, service_ErrInvalidCoinType
  | service_ErrInvalidMnemonic, service_ErrInvalidMnemonic
  | service_ErrInvalidTxData, service_ErrInvalidTxData
  | service_ErrSigningFailed, service_ErrSigningFailed
  | service_ErrInvalidWalletName, service_ErrInvalidWalletName
  | wallet_ErrInvalidMnemonic, wallet_ErrInvalidMnemonic
  | wallet_ErrInvalidCoinType, wallet_ErrInvalidCoinType
  | wallet_ErrKeyGenerationFailed, wallet_ErrKeyGenerationFailed
  | wallet_ErrSigningFailed, wallet_ErrSigningFailed
  | wallet_ErrAddressDerivation, wallet_ErrAddressDerivation => true
  | _, _ => false
  end.

(** An error value.  [Sentinel s] is one of the package variables, [New m]
    an error made on the spot by [errors.New] (or by a library), and
    [Wrap pre e post] is [fmt.Errorf(pre + "%w" + post, e)]. *)
Inductive error : Type :=
| Sentinel (s : sentinel)
| New (msg : string)
| Wrap (pre : string) (inner : error) (post : string).

(** [errors.Is(err, target)] for a sentinel target: walk the wrap chain. *)
Fixpoint Is (err : error) (target : sentinel) : bool :=
  match err with
  | Sentinel s => sentinel_eqb s target
  | New _ => false
  | Wrap _ inner _ => Is inner target
  end.

Definition sentinel_text (s : sentinel) : string :=
  match s with
  | storage_ErrWalletNotFound | service_ErrWalletNotFound => "wallet not found"
  | storage_ErrWalletExists | service_ErrWalletExists => "wallet already exists"
  | storage_ErrEncryptionFailed => "encryption failed"
  | storage_ErrDecryptionFailed => "decryption failed"
  | service_ErrInvalidCoinType | wallet_ErrInvalidCoinType => "invalid coin type"
  | service_ErrInvalidMnemonic | wallet_ErrInvalidMnemonic => "invalid mnemonic phrase"
  | service_ErrInvalidTxData => "invalid transaction data"
  | service_ErrSigningFailed | wallet_ErrSigningFailed => "transaction signing failed"
  | service_ErrInvalidWalletName => "invalid wallet name"
  | wallet_ErrKeyGenerationFailed => "key generation failed"
  | wallet_ErrAddressDerivation => "address derivation failed"
  end.

(** [err.Error()]. *)
Fixpoint Error (err : error) : string :=
  match err with
  | Sentinel s => sentinel_text s
  | New m => m
  | Wrap pre inner post => pre ++ Error inner ++ post
  end.

End errors.
Export errors.

(** The outcome of a Go call: a value, an error, or a run-time panic. *)
Inductive result (A : Type) : Type :=
| Ok (a : A)
| Err (e : error)
| Panic (msg : string).
Arguments Ok {A} a.
Arguments Err {A} e.
Arguments Panic {A} msg.

(** ** encoding/base64, [StdEncoding] *)

Module base64.

Definition encodeStd : string :=
  "ABCDEFGHIJKLMNOPQRSTUVWXYZabcdefghijklmnopqrstuvwxyz0123456789+/".

Definition padChar : ascii := "="%char.

(** [enc.encode[i]] *)
Definition encode (i : N) : ascii :=
  match String.get (N.to_nat i) encodeStd with
  | Some c => c
  | None => "A"%char
  end.

Fixpoint index_from (c : ascii) (s : string) (i : N) : N :=
  match s with
  | EmptyString => 255
  | String c' s' => if Ascii.eqb c c' then i else index_from c s' (i + 1)
  end.

(** The indices of the alphabet. *)
Definition sextets : list N := map N.of_nat (seq 0 64).

(** [enc.decodeMap[c]]: the position of [c] in the alphabet, 0xff if none. *)
Definition decodeMap (c : ascii) : N := index_from c encodeStd 0.

Definition is_newline (c : ascii) : bool :=
  Ascii.eqb c "010"%char || Ascii.eqb c "013"%char.

(** [EncodeToString]: three bytes give four characters; a final group of
    one or two bytes is padded with [=]. *)
Fixpoint EncodeToString (src : list byte) : string :=
  match src with
  | [] => EmptyString
  | [b0] =>
      let val := N.shiftl (Byte.to_N b0) 16 in
      String (encode (N.land (N.shiftr val 18) 63))
        (String (encode (N.land (N.shiftr val 12) 63))
           (String padChar (String padChar EmptyString)))
  | [b0; b1] =>
      let val := N.lor (N.shiftl (Byte.to_N b0) 16) (N.shiftl (Byte.to_N b1) 8) in
      String (encode (N.land (N.shiftr val 18) 63))
        (String (encode (N.land (N.shiftr val 12) 63))
           (String (encode (N.land (N.shiftr val 6) 63))
              (String padChar EmptyString)))
  | b0 :: b1 :: b2 :: rest =>
      let val := N.lor (N.lor (N.shiftl (Byte.to_N b0) 16)
                              (N.shiftl (Byte.to_N b1) 8)) (Byte.to_N b2) in
      String (encode (N.land (N.shiftr val 18) 63))
        (String (encode (N.land (N.shiftr val 12) 63))
           (String (encode (N.land (N.shiftr val 6) 63))
              (String (encode (N.land val 63)) (EncodeToString rest))))
  end.

(** The loops "skip over newlines" of [decodeQuantum]. *)
Fixpoint skip_newlines (s : string) : string :=
  match s with
  | String c rest => if is_newline c then skip_newlines rest else s
  | EmptyString => EmptyString
  end.

Definition at_end (s : string) : bool :=
  match skip_newlines s with
  | EmptyString => true
  | String _ _ => false
  end.

(** The bytes a quantum of [dlen] characters yields:
    [val>>16], [val>>8], [val>>0], of which [dlen - 1] are kept. *)
Definition quantum_bytes (dlen : nat) (val : N) : list byte :=
  firstn (dlen - 1)
    [goint.to_byte (N.shiftr val 16); goint.to_byte (N.shiftr val 8); goint.to_byte val].

(** [DecodeString]'s loop over [decodeQuantum].  [j] is the number of
    characters of the current quantum already read and [val] the bits
    gathered from them ([dbuf[0]<<18 | dbuf[1]<<12 | dbuf[2]<<6 | dbuf[3]]).
    [None] is a [CorruptInputError]. *)
Fixpoint decode_from (src : string) (j : nat) (val : N) : option (list byte) :=
  match src with
  | EmptyString =>
      match j with
      | O => Some []
      | _ => None              (* j == 1, or padding is required *)
      end
  | String c rest =>
      let out := decodeMap c in
      if negb (N.eqb out 255) then
        let val' := N.lor val (N.shiftl out (N.of_nat (18 - 6 * j))) in
        match j with
        | 3 => option_map (app (quantum_bytes 4 val')) (decode_from rest 0 0)
        | _ => decode_from rest (S j) val'
        end
      else if is_newline c then decode_from rest j val
      else if negb (Ascii.eqb c padChar) then None
      else
        match j with
        | 0 | 1 => None        (* incorrect padding *)
        | 2 =>
            match skip_newlines rest with
            | EmptyString => None                      (* not enough padding *)
            | String c' rest' =>
                if negb (Ascii.eqb c' padChar) then None
                else if at_end rest' then Some (quantum_bytes 2 val)
                else None                              (* trailing garbage *)
            end
        | _ =>
            if at_end rest then Some (quantum_bytes 3 val)
            else None                                  (* trailing garbage *)
        end
  end.

Definition DecodeString (s : string) : result (list byte) :=
  match decode_from s 0 0 with
  | Some bs => Ok bs
  | None => Err (New "illegal base64 data")
  end.

End base64.

(** ** encoding/hex and package strings *)

Module hex.

Definition hextable : string := "0123456789abcdef".

Definition digit (n : N) : ascii :=
  match String.get (N.to_nat n) hextable with
  | Some c => c
  | None => "0"%char
  end.

(** [hex.EncodeToString]: two lower-case digits per byte. *)
Fixpoint EncodeToString (src : list byte) : string :=
  match src with
  | [] => EmptyString
  | b :: rest =>
      String (digit (N.shiftr (Byte.to_N b) 4))
        (String (digit (N.land (Byte.to_N b) 15)) (EncodeToString rest))
  end.

End hex.

Module strings.

Definition HasPrefix (s prefix : string) : bool := String.prefix prefix s.

(** [strings.Contains(s, substr)] *)
Fixpoint Contains (s substr : string) : bool :=
  String.prefix substr s ||
  match s with
  | EmptyString => false
  | String _ rest => Contains rest substr
  end.

(** [s[n:]] for [n <= len(s)]. *)
Fixpoint drop (n : nat) (s : string) : string :=
  match n, s with
  | O, _ => s
  | S n', String _ rest => drop n' rest
  | S _, EmptyString => EmptyString
  end.

(** A loop [for _, r := range s] that returns at the first character
    satisfying [p]. *)
Fixpoint find_char (p : ascii -> bool) (s : string) : option ascii :=
  match s with
  | EmptyString => None
  | String c rest => if p c then Some c else find_char p rest
  end.

(** [s[:n]] for [n <= len(s)]. *)
Fixpoint take (n : nat) (s : string) : string :=
  match n, s with
  | O, _ => EmptyString
  | S n', String c rest => String c (take n' rest)
  | S _, EmptyString => EmptyString
  end.

Definition HasSuffix (s suffix : string) : bool :=
  Nat.leb (String.length suffix) (String.length s)
  && String.eqb (drop (String.length s - String.length suffix) s) suffix.

(** [strings.TrimSuffix(s, suffix)] *)
Definition TrimSuffix (s suffix : string) : string :=
  if HasSuffix s suffix then take (String.length s - String.length suffix) s else s.

End strings.

(** [%d] of an integer. *)
Definition itoa (z : Z) : string := DecimalString.NilZero.string_of_int (Z.to_int z).

(** ** Data model *)

(** [time.Time], as an abstract instant. *)
Definition Time : Type := Z.

(** [storage.Wallet] *)
Record Wallet : Type := mkWallet {
  Name : string;
  CoinType : Z;
  Mnemonic : string;
  PrivateKey : list byte;
  PublicKey : string;
  Address : string;
  CreatedAt : Time
}.

(** [storage.encryptedWallet], the persisted form. *)
Record encryptedWallet : Type := mkEncryptedWallet {
  eName : string;
  eCoinType : Z;
  MnemonicEncrypted : string;
  PrivateKeyEncrypted : string;
  ePublicKey : string;
  eAddress : string;
  eCreatedAt : Time
}.

(** [wallet.WalletKeys] *)
Record WalletKeys : Type := mkWalletKeys {
  kMnemonic : string;
  kPrivateKey : list byte;
  kPublicKey : list byte;
  kAddress : string
}.

(** ** The world outside the repository *)

(** Calls on the persistent key-value backend ([logical.Storage]). *)
Inductive backend_op : Type :=
| OpGet (key : string)
| OpPut (key : string)
| OpDelete (key : string)
| OpList (prefix : string).

(** Calls that leave the three packages, as a call-counting fake records
    them. *)
Inductive event : Type :=
| EvBackend (op : backend_op)
| EvRand (n : nat)
| EvSeal
| EvOpen
| EvNow
| EvGenerate (coinType : Z)
| EvImport (coinType : Z)
| EvDerive (coinType : Z) (path : string)
| EvSign (coinType : Z) (txData : list byte).

(** What a library call outside the repository answers: a value, or an
    error of the library's own, known here by its text only. *)
Inductive lib (A : Type) : Type :=
| Done (a : A)
| Failed (msg : string).
Arguments Done {A} a.
Arguments Failed {A} msg.

Definition of_lib {A} (r : lib A) : result A :=
  match r with
  | Done a => Ok a
  | Failed msg => Err (New msg)
  end.

(** The places where the native wallet library can let a wrapper down: a
    call that returns nil, or a mnemonic it finds invalid. *)
Inductive address_failure : Type :=
| AnyAddressNil
| AddressDescriptionNil.

Inductive keys_failure : Type :=
| MnemonicInvalid
| HDWalletNil
| MnemonicNil
| KeyForCoinNil
| PrivateKeyDataNil
| PublicKeyNil
| PublicKeyDataNil
| NoAddress (f : address_failure).

Inductive derive_failure : Type :=
| DeriveMnemonicInvalid
| DeriveHDWalletNil
| DeriveKeyNil
| DerivePublicKeyNil
| DeriveNoAddress (f : address_failure).

Inductive sign_failure : Type :=
| PrivateKeyDataCreateNil
| PrivateKeyCreateNil
| TxDataCreateNil
| SignatureNil.

(** The external collaborators.  Every oracle that stands for a call whose
    answer may change from call to call takes the logical clock (the number of
    events so far) as its first argument. *)
Class Env : Type := {
  (** An I/O failure of the backend on this call, if any. *)
  backend_fault : nat -> backend_op -> option string;
  (** crypto/rand: a read failure, and the bytes read otherwise. *)
  rand_fault : nat -> option string;
  rand_byte : nat -> nat -> byte;
  (** AES-GCM behind the [cipher.AEAD] interface: [Seal] returns the
      ciphertext followed by the tag, [Open] fails when the tag does not
      verify. *)
  gcm_Seal : list byte -> list byte -> list byte -> list byte;
  gcm_Open : list byte -> list byte -> list byte -> option (list byte);
  (** encoding/json on an [encryptedWallet]. *)
  json_Marshal : encryptedWallet -> lib (list byte);
  json_Unmarshal : list byte -> lib encryptedWallet;
  (** [time.Now().UTC()] and [Time.Format] with the RFC 3339 layout. *)
  time_Now : nat -> Time;
  time_Format : Time -> string;
  (** The native Trust Wallet Core calls behind each wrapper function: what
      they produce, or the first of them to fail. *)
  tw_Generate : nat -> Z -> WalletKeys + keys_failure;
  tw_Import : nat -> string -> Z -> WalletKeys + keys_failure;
  tw_DeriveAddress : nat -> string -> Z -> string -> string + derive_failure;
  tw_Sign : nat -> list byte -> Z -> list byte -> list byte + sign_failure;
  (** [fmt.Sscanf(s, "%d", &u)] for a [uint32] target. *)
  scan_uint32 : string -> option Z
}.

(** The law of an AEAD, for AES-256-GCM: under a 32-byte key and a 12-byte
    nonce, opening what was sealed gives the plaintext back. *)
Definition AEAD_correct (env : Env) : Prop :=
  forall key nonce plaintext,
    List.length key = 32%nat -> List.length nonce = 12%nat ->
    gcm_Open key nonce (gcm_Seal key nonce plaintext) = Some plaintext.

(** The state a call runs in: the backend's contents in key order, the wallet
    objects the store has handed out by pointer, and the calls made so far
    (latest first). *)
Record World : Type := mkWorld {
  kv : list (string * list byte);
  heap : list Wallet;
  trace : list event
}.

Definition clock (w : World) : nat := List.length (trace w).

Definition log (e : event) (w : World) : World :=
  mkWorld (kv w) (heap w) (e :: trace w).

(** ** The monad of Go calls *)

Definition M (A : Type) : Type := World -> result A * World.

Definition ret {A} (a : A) : M A := fun w => (Ok a, w).

Definition fail {A} (e : error) : M A := fun w => (Err e, w).

Definition lift {A} (r : result A) : M A := fun w => (r, w).

(** [x, err := m; if err != nil { return h(err) }; k x]: a panic unwinds. *)
Definition bind {A B} (m : M A) (h : error -> error) (k : A -> M B) : M B :=
  fun w =>
    match m w with
    | (Ok a, w') => k a w'
    | (Err e, w') => (Err (h e), w')
    | (Panic msg, w') => (Panic msg, w')
    end.

(** [defer cleanup()] followed by the rest of the function body: the deferred
    call runs when the body returns, fails or panics. *)
Definition defer {A} (cleanup : World -> World) (body : M A) : M A :=
  fun w => let (r, w') := body w in (r, cleanup w').

Declare Scope go_scope.
Delimit Scope go_scope with go.
Notation "x <- m 'orelse' h ;; k" := (bind m h (fun x => k))
  (at level 61, m at next level, h at next level, right associativity) : go_scope.
Notation "x <- m ;; k" := (bind m (fun e => e) (fun x => k))
  (at level 61, m at next level, right associativity) : go_scope.
Open Scope go_scope.

(** [fmt.Errorf(pre + "%w", err)] *)
Definition wrapf (pre : string) : error -> error := fun e => Wrap pre e "".

(** ** The key-value backend

    The persistent backend is a collaborator outside the repository; its
    contents are kept as a list of entries ordered by key, with the contract
    get / put / delete / list-by-prefix (the keys under the prefix, in key
    order, without the prefix). *)

Module kvstore.

Fixpoint get (key : string) (l : list (string * list byte)) : option (list byte) :=
  match l with
  | [] => None
  | (k, v) :: rest => if String.eqb k key then Some v else get key rest
  end.

(** Writes replace the value of a key in place and keep the keys ordered. *)
Fixpoint put (key : string) (v : list byte) (l : list (string * list byte))
  : list (string * list byte) :=
  match l with
  | [] => [(key, v)]
  | (k, v') :: rest =>
      if String.eqb k key then (key, v) :: rest
      else if String.ltb key k then (key, v) :: (k, v') :: rest
      else (k, v') :: put key v rest
  end.

Definition delete (key : string) (l : list (string * list byte))
  : list (string * list byte) :=
  filter (fun kv => negb (String.eqb (fst kv) key)) l.

(** The keys under a prefix, with the prefix removed. *)
Definition list_prefix (prefix : string) (l : list (string * list byte)) : list string :=
  map (fun kv => strings.drop (String.length prefix) (fst kv))
      (filter (fun kv => strings.HasPrefix (fst kv) prefix) l).

End kvstore.

(** The backend as the store calls it: each call is logged and may fail. *)
Section Backend.
Context {env : Env}.

Definition backend_call {A} (op : backend_op) (run : World -> A * World) : M A :=
  fun w =>
    let w' := log (EvBackend op) w in
    match backend_fault (clock w) op with
    | Some msg => (Err (New msg), w')
    | None => let (a, w'') := run w' in (Ok a, w'')
    end.

Definition storage_Get (key : string) : M (option (list byte)) :=
  backend_call (OpGet key) (fun w => (kvstore.get key (kv w), w)).

Definition storage_Put (key : string) (v : list byte) : M unit :=
  backend_call (OpPut key)
    (fun w => (tt, mkWorld (kvstore.put key v (kv w)) (heap w) (trace w))).

Definition storage_Delete (key : string) : M unit :=
  backend_call (OpDelete key)
    (fun w => (tt, mkWorld (kvstore.delete key (kv w)) (heap w) (trace w))).

Definition storage_List (prefix : string) : M (list string) :=
  backend_call (OpList prefix) (fun w => (kvstore.list_prefix prefix (kv w), w)).

(** [io.ReadFull(rand.Reader, make([]byte, n))] *)
Definition rand_ReadFull (n : nat) : M (list byte) :=
  fun w =>
    let w' := log (EvRand n) w in
    match rand_fault (clock w) with
    | Some msg => (Err (New msg), w')
    | None => (Ok (map (rand_byte (clock w)) (seq 0 n)), w')
    end.

(** [time.Now().UTC()] *)
Definition Now : M Time :=
  fun w => (Ok (time_Now (clock w)), log EvNow w).

End Backend.

(** Pointers to wallet objects. *)
Module mem.

Definition alloc (wal : Wallet) : M nat :=
  fun w => (Ok (List.length (heap w)), mkWorld (kv w) (heap w ++ [wal]) (trace w)).

Definition load (p : nat) (w : World) : option Wallet := nth_error (heap w) p.

Fixpoint update_nth (p : nat) (f : Wallet -> Wallet) (h : list Wallet) : list Wallet :=
  match h, p with
  | [], _ => []
  | x :: rest, O => f x :: rest
  | x :: rest, S p' => x :: update_nth p' f rest
  end.

(** A write through the pointer [p]. *)
Definition modify (p : nat) (f : Wallet -> Wallet) (w : World) : World :=
  mkWorld (kv w) (update_nth p f (heap w)) (trace w).

End mem.

(** ** Package wallet: the wrapper around Trust Wallet Core *)

Module wallet.
Section Wallet.
Context {env : Env}.

Definition CoinTypeBitcoin : Z := 0.
Definition CoinTypeEthereum : Z := 60.
Definition CoinTypeSolana : Z := 501.

Definition isValidCoinType (coinType : Z) : bool :=
  Z.eqb coinType CoinTypeBitcoin || Z.eqb coinType CoinTypeEthereum
  || Z.eqb coinType CoinTypeSolana.

(** [fmt.Errorf("%w: ...", sentinel)] *)
Definition errorf (s : sentinel) (text : string) : error := Wrap "" (Sentinel s) text.

(** The native calls of a wrapper function: one logged call whose outcome
    the library decides. *)
Definition native {A} (ev : event) (oracle : nat -> A) : M A :=
  fun w => (Ok (oracle (clock w)), log ev w).

(** [getAddressForCoinType]'s failures. *)
Definition address_error (f : address_failure) (coinType : Z) : error :=
  match f with
  | AnyAddressNil =>
      errorf wallet_ErrAddressDerivation
        (": failed to create address for coin type " ++ itoa coinType)
  | AddressDescriptionNil =>
      errorf wallet_ErrAddressDerivation ": failed to get address description"
  end.

(** The nil checks on the way from an HD wallet to its keys and address,
    shared by [GenerateWallet] and [ImportWallet]. *)
Definition keys_error (f : keys_failure) (coinType : Z) : error :=
  match f with
  | MnemonicInvalid => errorf wallet_ErrInvalidMnemonic ": mnemonic validation failed"
  | HDWalletNil => errorf wallet_ErrKeyGenerationFailed ": failed to create HD wallet"
  | MnemonicNil => errorf wallet_ErrKeyGenerationFailed ": empty mnemonic generated"
  | KeyForCoinNil =>
      errorf wallet_ErrKeyGenerationFailed
        (": failed to derive key for coin type " ++ itoa coinType)
  | PrivateKeyDataNil =>
      errorf wallet_ErrKeyGenerationFailed ": failed to get private key data"
  | PublicKeyNil => errorf wallet_ErrKeyGenerationFailed ": failed to derive public key"
  | PublicKeyDataNil =>
      errorf wallet_ErrKeyGenerationFailed ": failed to get public key data"
  | NoAddress a => address_error a coinType
  end.

Definition GenerateWallet (coinType : Z) : M WalletKeys :=
  if negb (isValidCoinType coinType) then
    fail (errorf wallet_ErrInvalidCoinType (": " ++ itoa coinType))
  else
    r <- native (EvGenerate coinType) (fun c => tw_Generate c coinType) ;;
    match r with
    | inr f => fail (keys_error f coinType)
    | inl keys =>
        if String.eqb (kAddress keys) "" then
          fail (errorf wallet_ErrAddressDerivation ": empty address generated")
        else ret keys
    end.

Definition ImportWallet (mnemonic : string) (coinType : Z) : M WalletKeys :=
  if String.eqb mnemonic "" then
    fail (errorf wallet_ErrInvalidMnemonic ": empty mnemonic")
  else if negb (isValidCoinType coinType) then
    fail (errorf wallet_ErrInvalidCoinType (": " ++ itoa coinType))
  else
    r <- native (EvImport coinType) (fun c => tw_Import c mnemonic coinType) ;;
    match r with
    | inr HDWalletNil => fail (errorf wallet_ErrInvalidMnemonic ": failed to import wallet")
    | inr f => fail (keys_error f coinType)
    | inl keys =>
        if String.eqb (kAddress keys) "" then
          fail (errorf wallet_ErrAddressDerivation ": empty address generated")
        else
          ret (mkWalletKeys mnemonic (kPrivateKey keys) (kPublicKey keys) (kAddress keys))
    end.

Definition DeriveAddress (mnemonic : string) (coinType : Z) (derivationPath : string)
  : M string :=
  if String.eqb mnemonic "" then
    fail (errorf wallet_ErrInvalidMnemonic ": empty mnemonic")
  else if negb (isValidCoinType coinType) then
    fail (errorf wallet_ErrInvalidCoinType (": " ++ itoa coinType))
  else
    r <- native (EvDerive coinType derivationPath)
           (fun c => tw_DeriveAddress c mnemonic coinType derivationPath) ;;
    match r with
    | inr DeriveMnemonicInvalid =>
        fail (errorf wallet_ErrInvalidMnemonic ": mnemonic validation failed")
    | inr DeriveHDWalletNil =>
        fail (errorf wallet_ErrInvalidMnemonic ": failed to import wallet")
    | inr DeriveKeyNil =>
        if negb (String.eqb derivationPath "") then
          fail (errorf wallet_ErrAddressDerivation
                  (": failed to derive key for path " ++ derivationPath))
        else
          fail (errorf wallet_ErrAddressDerivation
                  (": failed to derive key for coin type " ++ itoa coinType))
    | inr DerivePublicKeyNil =>
        fail (errorf wallet_ErrAddressDerivation ": failed to derive public key")
    | inr (DeriveNoAddress a) => fail (address_error a coinType)
    | inl address =>
        if String.eqb address "" then
          fail (errorf wallet_ErrAddressDerivation ": empty address generated")
        else ret address
    end.

(** The private key is copied into native memory ([TWDataCreateWithBytes]);
    the caller's buffer is read, never written. *)
Definition SignTransaction (privateKey : list byte) (coinType : Z) (txData : list byte)
  : M (list byte) :=
  if Z.eqb (goint.len privateKey) 0 then
    fail (errorf wallet_ErrSigningFailed ": empty private key")
  else if Z.eqb (goint.len txData) 0 then
    fail (errorf wallet_ErrSigningFailed ": empty transaction data")
  else if negb (isValidCoinType coinType) then
    fail (errorf wallet_ErrInvalidCoinType (": " ++ itoa coinType))
  else
    r <- native (EvSign coinType txData)
           (fun c => tw_Sign c privateKey coinType txData) ;;
    match r with
    | inr PrivateKeyDataCreateNil =>
        fail (errorf wallet_ErrSigningFailed ": failed to create private key data")
    | inr PrivateKeyCreateNil =>
        fail (errorf wallet_ErrSigningFailed ": failed to create private key")
    | inr TxDataCreateNil =>
        fail (errorf wallet_ErrSigningFailed ": failed to create transaction data")
    | inr SignatureNil =>
        fail (errorf wallet_ErrSigningFailed ": signature generation failed")
    | inl signatureBytes =>
        if Z.eqb (goint.len signatureBytes) 0 then
          fail (errorf wallet_ErrSigningFailed ": empty signature generated")
        else ret signatureBytes
    end.

Definition GetPublicKeyHex (publicKey : list byte) : string :=
  hex.EncodeToString publicKey.

Definition GetPrivateKeyHex (privateKey : list byte) : string :=
  hex.EncodeToString privateKey.

End Wallet.
End wallet.

(** ** Package storage: the encrypted credential store *)

Module storage.
Section Storage.
Context {env : Env}.

(** The service's [storage] field is the backend of the world it runs in;
    its logger is left out. *)
Record StorageService : Type := mkStorageService {
  encryptionKey : list byte
}.

(** [aes.NewCipher]: the key must be 16, 24 or 32 bytes long. *)
Definition aes_NewCipher (key : list byte) : result unit :=
  match List.length key with
  | 16%nat | 24%nat | 32%nat => Ok tt
  | n => Err (New ("crypto/aes: invalid key size " ++ itoa (Z.of_nat n)))
  end.

(** [gcm.NonceSize()] *)
Definition NonceSize : nat := 12.

(** [gcm.Seal(nonce, nonce, plaintext, nil)]: the sealed text appended to
    the nonce. *)
Definition Seal (key nonce plaintext : list byte) : M (list byte) :=
  fun w => (Ok (nonce ++ gcm_Seal key nonce plaintext)%list, log EvSeal w).

(** [gcm.Open(nil, nonce, ciphertextBytes, nil)] *)
Definition Open (key nonce ciphertextBytes : list byte) : M (list byte) :=
  fun w =>
    (match gcm_Open key nonce ciphertextBytes with
     | Some plaintext => Ok plaintext
     | None => Err (New "cipher: message authentication failed")
     end, log EvOpen w).

Definition encrypt (ss : StorageService) (plaintext : list byte) : M string :=
  _ <- lift (aes_NewCipher (encryptionKey ss)) ;;
  nonce <- rand_ReadFull NonceSize ;;
  ciphertext <- Seal (encryptionKey ss) nonce plaintext ;;
  ret (base64.EncodeToString ciphertext).

Definition decrypt (ss : StorageService) (ciphertext : string) : M (list byte) :=
  data <- lift (base64.DecodeString ciphertext) ;;
  _ <- lift (aes_NewCipher (encryptionKey ss)) ;;
  let nonceSize := NonceSize in
  if Z.ltb (goint.len data) (Z.of_nat nonceSize) then
    fail (New "ciphertext too short")
  else
    let nonce := firstn nonceSize data in
    let ciphertextBytes := skipn nonceSize data in
    plaintext <- Open (encryptionKey ss) nonce ciphertextBytes ;;
    ret plaintext.

Definition encryptWallet (ss : StorageService) (wallet : Wallet) : M encryptedWallet :=
  mnemonicEncrypted <- encrypt ss (list_byte_of_string (Mnemonic wallet))
    orelse (fun _ => Wrap "" (Sentinel storage_ErrEncryptionFailed)
                       ": failed to encrypt mnemonic") ;;
  privateKeyEncrypted <- encrypt ss (PrivateKey wallet)
    orelse (fun _ => Wrap "" (Sentinel storage_ErrEncryptionFailed)
                       ": failed to encrypt private key") ;;
  ret (mkEncryptedWallet (Name wallet) (CoinType wallet) mnemonicEncrypted
         privateKeyEncrypted (PublicKey wallet) (Address wallet) (CreatedAt wallet)).

Definition decryptWallet (ss : StorageService) (encrypted : encryptedWallet) : M Wallet :=
  mnemonicBytes <- decrypt ss (MnemonicEncrypted encrypted)
    orelse (fun _ => Wrap "" (Sentinel storage_ErrDecryptionFailed)
                       ": failed to decrypt mnemonic") ;;
  privateKey <- decrypt ss (PrivateKeyEncrypted encrypted)
    orelse (fun _ => Wrap "" (Sentinel storage_ErrDecryptionFailed)
                       ": failed to decrypt private key") ;;
  ret (mkWallet (eName encrypted) (eCoinType encrypted)
         (string_of_list_byte mnemonicBytes) privateKey
         (ePublicKey encrypted) (eAddress encrypted) (eCreatedAt encrypted)).

(** [StoreWallet]; a nil [*Wallet] is [None]. *)
Definition StoreWallet (ss : StorageService) (wallet : option Wallet) : M unit :=
  match wallet with
  | None => fail (New "wallet cannot be nil")
  | Some wallet =>
      existing <- storage_Get ("wallets/" ++ Name wallet)
        orelse wrapf "failed to check wallet existence: " ;;
      match existing with
      | Some _ => fail (Sentinel storage_ErrWalletExists)
      | None =>
          encrypted <- encryptWallet ss wallet
            orelse wrapf "failed to encrypt wallet: " ;;
          entry <- lift (of_lib (json_Marshal encrypted))
            orelse wrapf "failed to create storage entry: " ;;
          _ <- storage_Put ("wallets/" ++ Name wallet) entry
            orelse wrapf "failed to store wallet: " ;;
          ret tt
      end
  end.

(** [GetWallet] returns a pointer to a freshly allocated wallet object that
    holds the decrypted secrets. *)
Definition GetWallet (ss : StorageService) (name : string) : M nat :=
  if String.eqb name "" then fail (New "wallet name cannot be empty")
  else
    entry <- storage_Get ("wallets/" ++ name)
      orelse wrapf "failed to retrieve wallet: " ;;
    match entry with
    | None => fail (Sentinel storage_ErrWalletNotFound)
    | Some value =>
        encrypted <- lift (of_lib (json_Unmarshal value))
          orelse wrapf "failed to decode wallet: " ;;
        wallet <- decryptWallet ss encrypted
          orelse wrapf "failed to decrypt wallet: " ;;
        mem.alloc wallet
    end.

Definition DeleteWallet (ss : StorageService) (name : string) : M unit :=
  if String.eqb name "" then fail (New "wallet name cannot be empty")
  else
    entry <- storage_Get ("wallets/" ++ name)
      orelse wrapf "failed to check wallet existence: " ;;
    match entry with
    | None => fail (Sentinel storage_ErrWalletNotFound)
    | Some _ =>
        _ <- storage_Delete ("wallets/" ++ name)
          orelse wrapf "failed to delete wallet: " ;;
        ret tt
    end.

(** The slice expression [keys[lo:hi]]; it panics unless
    [0 <= lo <= hi <= len(keys)] (the capacity of the list the backend
    returns is taken to be its length). *)
Definition slice {A} (keys : list A) (lo hi : Z) : result (list A) :=
  if Z.leb 0 lo && Z.leb lo hi && Z.leb hi (goint.len keys) then
    Ok (firstn (Z.to_nat (hi - lo)) (skipn (Z.to_nat lo) keys))
  else Panic "runtime error: slice bounds out of range".

Definition ListWallets (ss : StorageService) (offset limit : Z) : M (list string) :=
  keys <- storage_List "wallets/" orelse wrapf "failed to list wallets: " ;;
  let total := goint.len keys in
  if Z.geb offset total then ret []
  else
    let end_ := goint.add offset limit in
    let end_ := if Z.leb limit 0 || Z.gtb end_ total then total else end_ in
    lift (slice keys offset end_).

(** [GetWalletMetadata]: the plaintext fields only; [Mnemonic] and
    [PrivateKey] keep their zero values. *)
Definition GetWalletMetadata (ss : StorageService) (name : string) : M Wallet :=
  if String.eqb name "" then fail (New "wallet name cannot be empty")
  else
    entry <- storage_Get ("wallets/" ++ name)
      orelse wrapf "failed to retrieve wallet: " ;;
    match entry with
    | None => fail (Sentinel storage_ErrWalletNotFound)
    | Some value =>
        encrypted <- lift (of_lib (json_Unmarshal value))
          orelse wrapf "failed to decode wallet: " ;;
        ret (mkWallet (eName encrypted) (eCoinType encrypted) "" []
               (ePublicKey encrypted) (eAddress encrypted) (eCreatedAt encrypted))
    end.

(** The loop of [ListWalletsWithMetadata]: a name whose metadata cannot be
    read is skipped. *)
Fixpoint collect_metadata (ss : StorageService) (names : list string) : M (list Wallet) :=
  match names with
  | [] => ret []
  | name :: rest =>
      let name := strings.TrimSuffix name "/" in
      fun w =>
        match GetWalletMetadata ss name w with
        | (Ok wallet, w') =>
            match collect_metadata ss rest w' with
            | (Ok wallets, w'') => (Ok (wallet :: wallets), w'')
            | other => other
            end
        | (Err _, w') => collect_metadata ss rest w'
        | (Panic msg, w') => (Panic msg, w')
        end
  end.

Definition ListWalletsWithMetadata (ss : StorageService) (offset limit : Z)
  : M (list Wallet) :=
  names <- ListWallets ss offset limit ;;
  collect_metadata ss names.

(** [sanitizeName]: a name for the log, cut after 50 bytes. *)
Definition sanitizeName (name : string) : string :=
  if Z.gtb (goint.strlen name) 50 then strings.take 50 name ++ "..." else name.

End Storage.
End storage.

(** ** Package service: the wallet lifecycle manager *)

Module service.
Section Service.
Context {env : Env}.

Record WalletService : Type := mkWalletService {
  storage : storage.StorageService
}.

(** [walletObj.field] through the pointer. *)
Definition deref (p : nat) : M Wallet :=
  fun w =>
    match mem.load p w with
    | Some wal => (Ok wal, w)
    | None => (Panic "runtime error: invalid memory address or nil pointer dereference", w)
    end.

(** [for i := range walletObj.PrivateKey { walletObj.PrivateKey[i] = 0 }] *)
Definition zeroPrivateKey (wal : Wallet) : Wallet :=
  mkWallet (Name wal) (CoinType wal) (Mnemonic wal)
    (map (fun _ => x00) (PrivateKey wal))
    (PublicKey wal) (Address wal) (CreatedAt wal).

(** [walletObj.Mnemonic = ""] *)
Definition clearMnemonic (wal : Wallet) : Wallet :=
  mkWallet (Name wal) (CoinType wal) "" (PrivateKey wal)
    (PublicKey wal) (Address wal) (CreatedAt wal).

Definition CreateWallet (ws : WalletService) (name : string) (coinType : Z)
  (mnemonic : string) : M Wallet :=
  if String.eqb name "" then fail (Sentinel service_ErrInvalidWalletName)
  else
    keys <-
      (if negb (String.eqb mnemonic "") then
         k <- wallet.ImportWallet mnemonic coinType
           orelse (fun err =>
             if Is err wallet_ErrInvalidMnemonic then Sentinel service_ErrInvalidMnemonic
             else if Is err wallet_ErrInvalidCoinType then Sentinel service_ErrInvalidCoinType
             else wrapf "failed to import wallet: " err) ;;
         ret k
       else
         k <- wallet.GenerateWallet coinType
           orelse (fun err =>
             if Is err wallet_ErrInvalidCoinType then Sentinel service_ErrInvalidCoinType
             else wrapf "failed to generate wallet: " err) ;;
         ret k) ;;
    now <- Now ;;
    let walletObj :=
      mkWallet name coinType (kMnemonic keys) (kPrivateKey keys)
        (wallet.GetPublicKeyHex (kPublicKey keys)) (kAddress keys) now in
    _ <- storage.StoreWallet (storage ws) (Some walletObj)
      orelse (fun err =>
        if Is err storage_ErrWalletExists then Sentinel service_ErrWalletExists
        else wrapf "failed to store wallet: " err) ;;
    ret (mkWallet (Name walletObj) (CoinType walletObj) "" []
           (PublicKey walletObj) (Address walletObj) (CreatedAt walletObj)).

Definition GetWallet (ws : WalletService) (name : string) : M Wallet :=
  if String.eqb name "" then fail (Sentinel service_ErrInvalidWalletName)
  else
    walletObj <- storage.GetWalletMetadata (storage ws) name
      orelse (fun err =>
        if Is err storage_ErrWalletNotFound then Sentinel service_ErrWalletNotFound
        else wrapf "failed to retrieve wallet: " err) ;;
    ret walletObj.

Definition DeleteWallet (ws : WalletService) (name : string) : M unit :=
  if String.eqb name "" then fail (Sentinel service_ErrInvalidWalletName)
  else
    _ <- storage.DeleteWallet (storage ws) name
      orelse (fun err =>
        if Is err storage_ErrWalletNotFound then Sentinel service_ErrWalletNotFound
        else wrapf "failed to delete wallet: " err) ;;
    ret tt.

Definition ListWallets (ws : WalletService) (offset limit : Z) : M (list string) :=
  wallets <- storage.ListWallets (storage ws) offset limit
    orelse wrapf "failed to list wallets: " ;;
  ret wallets.

Definition SignTransaction (ws : WalletService) (name : string) (txData : list byte)
  : M (list byte) :=
  if String.eqb name "" then fail (Sentinel service_ErrInvalidWalletName)
  else if Z.eqb (goint.len txData) 0 then fail (Sentinel service_ErrInvalidTxData)
  else
    walletObj <- storage.GetWallet (storage ws) name
      orelse (fun err =>
        if Is err storage_ErrWalletNotFound then Sentinel service_ErrWalletNotFound
        else wrapf "failed to retrieve wallet: " err) ;;
    defer
      (fun w => mem.modify walletObj clearMnemonic (mem.modify walletObj zeroPrivateKey w))
      (obj <- deref walletObj ;;
       signature <- wallet.SignTransaction (PrivateKey obj) (CoinType obj) txData
         orelse (fun err =>
           if Is err wallet_ErrSigningFailed then Sentinel service_ErrSigningFailed
           else if Is err wallet_ErrInvalidCoinType then Sentinel service_ErrInvalidCoinType
           else wrapf "failed to sign transaction: " err) ;;
       ret signature).

Definition GetAddress (ws : WalletService) (name : string) (coinType : Z)
  (derivationPath : string) : M string :=
  if String.eqb name "" then fail (Sentinel service_ErrInvalidWalletName)
  else
    walletObj <- storage.GetWallet (storage ws) name
      orelse (fun err =>
        if Is err storage_ErrWalletNotFound then Sentinel service_ErrWalletNotFound
        else wrapf "failed to retrieve wallet: " err) ;;
    defer
      (fun w => mem.modify walletObj zeroPrivateKey (mem.modify walletObj clearMnemonic w))
      (obj <- deref walletObj ;;
       address <- wallet.DeriveAddress (Mnemonic obj) coinType derivationPath
         orelse (fun err =>
           if Is err wallet_ErrInvalidCoinType then Sentinel service_ErrInvalidCoinType
           else if Is err wallet_ErrAddressDerivation then
             wrapf "address derivation failed: " err
           else wrapf "failed to derive address: " err) ;;
       ret address).

Definition sanitizeName (name : string) : string :=
  if Z.gtb (goint.strlen name) 50 then strings.take 50 name ++ "..." else name.

(** [sanitizeError]; a nil error is [None]. *)
Definition sanitizeError (err : option error) : string :=
  match err with
  | None => ""
  | Some err =>
      let errStr := Error err in
      if Z.gtb (goint.strlen errStr) 200 then strings.take 200 errStr ++ "..."
      else errStr
  end.

End Service.
End service.

(** ** Package backend: the request router *)

Module backend.
Section Router.
Context {env : Env}.

(** A value of a response's [Data] map. *)
Inductive value : Type :=
| VString (s : string)
| VUint32 (n : Z)
| VInt (n : Z)
| VBool (b : bool)
| VStrings (l : list string).

(** [logical.Response]: the [Data] map, as its list of entries. *)
Record Response : Type := mkResponse {
  Data : list (string * value)
}.

Definition fields (resp : Response) : list string := map fst (Data resp).

(** [logical.ErrorResponse] *)
Definition ErrorResponse (text : string) : Response :=
  mkResponse [("error", VString text)].

(** [logical.ListResponse] *)
Definition ListResponse (keys : list string) : Response :=
  mkResponse (if Z.eqb (goint.len keys) 0 then [] else [("keys", VStrings keys)]).

(** [framework.FieldData] after the schema has typed the raw values. *)
Record FieldData : Type := mkFieldData {
  raw_string : string -> option string;
  raw_int : string -> option Z
}.

(** [data.Get(k).(string)] of a string field without default. *)
Definition get_string (data : FieldData) (k : string) : string :=
  match raw_string data k with
  | Some s => s
  | None => ""
  end.

(** [data.Get(k).(int)] of an int field with the schema's default. *)
Definition get_int (data : FieldData) (k : string) (default : Z) : Z :=
  match raw_int data k with
  | Some n => goint.wrap n
  | None => default
  end.

(** [data.GetOk(k)] of an int field. *)
Definition getok_int (data : FieldData) (k : string) : option Z :=
  option_map goint.wrap (raw_int data k).

Record TrustVaultBackend : Type := mkBackend {
  walletService : service.WalletService
}.

Definition set_status (resp : Response) (code : Z) : Response :=
  mkResponse (Data resp ++ [("http_status_code", VInt code)]).

Definition handleError (err : error) : M Response :=
  if Is err service_ErrWalletNotFound || Is err storage_ErrWalletNotFound then
    ret (set_status (ErrorResponse "wallet not found") 404)
  else if Is err service_ErrWalletExists || Is err storage_ErrWalletExists then
    ret (set_status (ErrorResponse "wallet already exists") 409)
  else if Is err service_ErrInvalidCoinType then ret (ErrorResponse "invalid coin type")
  else if Is err service_ErrInvalidMnemonic then
    ret (ErrorResponse "invalid mnemonic phrase")
  else if Is err service_ErrInvalidTxData then
    ret (ErrorResponse "invalid transaction data")
  else if Is err service_ErrSigningFailed then
    ret (ErrorResponse "transaction signing failed")
  else if Is err service_ErrInvalidWalletName then
    ret (ErrorResponse "invalid wallet name")
  else fail (Wrap "internal error: " err "").

(** A rune of a name is a control character exactly when one of its bytes
    is: bytes below 0x80 are runes of their own, and no other rune is below
    32 or equal to 127. *)
Definition is_control (c : ascii) : bool :=
  N.ltb (N_of_ascii c) 32 || N.eqb (N_of_ascii c) 127.

Definition validateWalletName (name : string) : option error :=
  if String.eqb name "" then Some (New "wallet name is required")
  else if Z.gtb (goint.strlen name) 255 then
    Some (New "wallet name exceeds maximum length of 255 characters")
  else if strings.Contains name ".." || strings.Contains name "/"
          || strings.Contains name "\" then
    Some (New "wallet name contains invalid characters")
  else
    match strings.find_char is_control name with
    | Some _ => Some (New "wallet name contains invalid control characters")
    | None => None
    end.

Definition validateCoinType (coinType : Z) : option error :=
  if negb (Z.eqb coinType 0 || Z.eqb coinType 60 || Z.eqb coinType 501) then
    Some (New ("unsupported coin type: " ++ itoa coinType
               ++ " (supported: 0=Bitcoin, 60=Ethereum, 501=Solana)"))
  else None.

(** The characters of a derivation path are tested byte by byte; a byte
    outside ASCII is never valid, as no rune above 0x7f is. *)
Definition is_path_char (r : ascii) : bool :=
  (Ascii.leb "0" r && Ascii.leb r "9") || Ascii.eqb r "/" || Ascii.eqb r "'"
  || Ascii.eqb r "m".

Definition validateDerivationPath (path : string) : option error :=
  if String.eqb path "" then None
  else if Z.gtb (goint.strlen path) 100 then
    Some (New "derivation path exceeds maximum length of 100 characters")
  else if negb (strings.HasPrefix path "m/") then
    Some (New "derivation path must start with 'm/'")
  else
    match strings.find_char (fun r => negb (is_path_char r)) path with
    | Some r =>
        Some (New ("derivation path contains invalid character: " ++ String r ""))
    | None => None
    end.

Definition RFC3339 (t : Time) : string := time_Format t.

Definition wallet_response (wal : Wallet) : Response :=
  mkResponse
    [("name", VString (Name wal));
     ("coin_type", VUint32 (CoinType wal));
     ("address", VString (Address wal));
     ("public_key", VString (PublicKey wal));
     ("created_at", VString (RFC3339 (CreatedAt wal)))].

Definition handleWalletCreate (b : TrustVaultBackend) (data : FieldData) : M Response :=
  let name := get_string data "name" in
  match validateWalletName name with
  | Some err => ret (ErrorResponse (Error err))
  | None =>
      match getok_int data "coin_type" with
      | None => ret (ErrorResponse "coin_type is required")
      | Some coinTypeRaw =>
          let coinType := goint.to_uint32 coinTypeRaw in
          match validateCoinType coinType with
          | Some err => ret (ErrorResponse (Error err))
          | None =>
              let mnemonic := get_string data "mnemonic" in
              fun w =>
                match service.CreateWallet (walletService b) name coinType mnemonic w with
                | (Ok wal, w') => (Ok (wallet_response wal), w')
                | (Err err, w') => handleError err w'
                | (Panic msg, w') => (Panic msg, w')
                end
          end
      end
  end.

Definition handleWalletRead (b : TrustVaultBackend) (data : FieldData) : M Response :=
  let name := get_string data "name" in
  match validateWalletName name with
  | Some err => ret (ErrorResponse (Error err))
  | None =>
      fun w =>
        match service.GetWallet (walletService b) name w with
        | (Ok wal, w') => (Ok (wallet_response wal), w')
        | (Err err, w') => handleError err w'
        | (Panic msg, w') => (Panic msg, w')
        end
  end.

Definition handleWalletDelete (b : TrustVaultBackend) (data : FieldData) : M Response :=
  let name := get_string data "name" in
  match validateWalletName name with
  | Some err => ret (ErrorResponse (Error err))
  | None =>
      fun w =>
        match service.DeleteWallet (walletService b) name w with
        | (Ok _, w') => (Ok (mkResponse [("deleted", VBool true)]), w')
        | (Err err, w') => handleError err w'
        | (Panic msg, w') => (Panic msg, w')
        end
  end.

Definition handleWalletList (b : TrustVaultBackend) (data : FieldData) : M Response :=
  let offset := get_int data "offset" 0 in
  let limit := get_int data "limit" 100 in
  if Z.ltb offset 0 then ret (ErrorResponse "offset must be non-negative")
  else if Z.ltb limit 0 then ret (ErrorResponse "limit must be non-negative")
  else
    fun w =>
      match service.ListWallets (walletService b) offset limit w with
      | (Ok wallets, w') => (Ok (ListResponse wallets), w')
      | (Err err, w') => handleError err w'
      | (Panic msg, w') => (Panic msg, w')
      end.

(** The checks of [handleWalletSign] up to the call of the lifecycle
    manager: the response that ends the request early, or the wallet name
    and the decoded transaction handed on. *)
Definition sign_request (data : FieldData) : Response + string * list byte :=
  let name := get_string data "name" in
  match validateWalletName name with
  | Some err => inl (ErrorResponse (Error err))
  | None =>
      let txDataEncoded := get_string data "tx_data" in
      if String.eqb txDataEncoded "" then inl (ErrorResponse "tx_data is required")
      else if Z.gtb (goint.strlen txDataEncoded) (1024 * 1024) then
        inl (ErrorResponse "transaction data exceeds maximum size of 1MB")
      else
        match base64.DecodeString txDataEncoded with
        | Ok txData =>
            if Z.eqb (goint.len txData) 0 then
              inl (ErrorResponse "transaction data cannot be empty")
            else inr (name, txData)
        | _ => inl (ErrorResponse "invalid tx_data: must be base64-encoded")
        end
  end.

Definition handleWalletSign (b : TrustVaultBackend) (data : FieldData) : M Response :=
  match sign_request data with
  | inl resp => ret resp
  | inr (name, txData) =>
      fun w =>
        match service.SignTransaction (walletService b) name txData w with
        | (Ok signature, w') =>
            (Ok (mkResponse [("signed_tx", VString (base64.EncodeToString signature))]), w')
        | (Err err, w') => handleError err w'
        | (Panic msg, w') => (Panic msg, w')
        end
  end.

Definition handleWalletAddress (b : TrustVaultBackend) (data : FieldData) : M Response :=
  let name := get_string data "name" in
  match validateWalletName name with
  | Some err => ret (ErrorResponse (Error err))
  | None =>
      let coinStr := get_string data "coin" in
      if String.eqb coinStr "" then ret (ErrorResponse "coin type is required")
      else
        match scan_uint32 coinStr with
        | None => ret (ErrorResponse "invalid coin type: must be a number")
        | Some coinType =>
            match validateCoinType coinType with
            | Some err => ret (ErrorResponse (Error err))
            | None =>
                let derivationPath := get_string data "derivation_path" in
                match (if negb (String.eqb derivationPath "")
                       then validateDerivationPath derivationPath else None) with
                | Some err => ret (ErrorResponse (Error err))
                | None =>
                    fun w =>
                      match service.GetAddress (walletService b) name coinType
                              derivationPath w with
                      | (Ok address, w') =>
                          (Ok (mkResponse [("address", VString address);
                                           ("coin_type", VUint32 coinType)]), w')
                      | (Err err, w') => handleError err w'
                      | (Panic msg, w') => (Panic msg, w')
                      end
                end
            end
        end
  end.

(** The six operations of the caller-facing interface. *)
Inductive operation : Type :=
| OpCreateImport | OpRead | OpDeleteWallet | OpListWallets | OpSignTx | OpAddress.

Definition handle (op : operation) : TrustVaultBackend -> FieldData -> M Response :=
  match op with
  | OpCreateImport => handleWalletCreate
  | OpRead => handleWalletRead
  | OpDeleteWallet => handleWalletDelete
  | OpListWallets => handleWalletList
  | OpSignTx => handleWalletSign
  | OpAddress => handleWalletAddress
  end.

Definition sanitizeWalletName (name : string) : string :=
  if Z.gtb (goint.strlen name) 50 then strings.take 50 name ++ "..." else name.

End Router.
End backend.

(** ** In-memory fakes of the collaborators

    A cooperative environment used to run the model on concrete requests:
    a backend and a random source that never fail, a toy AEAD (the plaintext
    followed by a 16-byte keyed checksum), a line-oriented codec in place of
    JSON and a signing provider with fixed answers. *)

Module fake.

Definition checksum (key nonce plaintext : list byte) : list byte :=
  repeat
    (goint.to_byte (fold_right (fun b acc => Byte.to_N b + acc)%N 0%N
                      (key ++ nonce ++ plaintext)))
    16.

Definition Seal (key nonce plaintext : list byte) : list byte :=
  plaintext ++ checksum key nonce plaintext.

Definition Open (key nonce sealed : list byte) : option (list byte) :=
  let n := (List.length sealed - 16)%nat in
  let plaintext := firstn n sealed in
  if Nat.ltb (List.length sealed) 16 then None
  else if list_eq_dec Byte.byte_eq_dec (skipn n sealed) (checksum key nonce plaintext)
       then Some plaintext
       else None.

Definition newline : string := String "010" EmptyString.

(** The fields of a record, one per line. *)
Definition Marshal (e : encryptedWallet) : lib (list byte) :=
  Done (list_byte_of_string
        (eName e ++ newline ++ itoa (eCoinType e) ++ newline
         ++ MnemonicEncrypted e ++ newline ++ PrivateKeyEncrypted e ++ newline
         ++ ePublicKey e ++ newline ++ eAddress e ++ newline ++ itoa (eCreatedAt e))).

Fixpoint lines (s : string) (cur : string) : list string :=
  match s with
  | EmptyString => [cur]
  | String c rest =>
      if Ascii.eqb c "010" then cur :: lines rest EmptyString
      else lines rest (cur ++ String c EmptyString)
  end.

Definition atoi (s : string) : option Z :=
  option_map Z.of_int (DecimalString.NilZero.int_of_string s).

Definition Unmarshal (bs : list byte) : lib encryptedWallet :=
  match lines (string_of_list_byte bs) EmptyString with
  | [name; coin; mn; pk; pub; addr; created] =>
      match atoi coin, atoi created with
      | Some c, Some t => Done (mkEncryptedWallet name c mn pk pub addr t)
      | _, _ => Failed "invalid record"
      end
  | _ => Failed "invalid record"
  end.

Definition keys : WalletKeys :=
  mkWalletKeys "legal winner thank year wave sausage worth useful legal winner thank yellow"
    (repeat x2a 32) (repeat x02 33) "bc1qfakeaddress".

Definition scan (s : string) : option Z :=
  match atoi s with
  | Some z => if Z.leb 0 z && Z.ltb z (2 ^ 32) then Some z else None
  | None => None
  end.

#[local] Instance env : Env := {|
  backend_fault := fun _ _ => None;
  rand_fault := fun _ => None;
  rand_byte := fun c i => goint.to_byte (N.of_nat (7 * c + i));
  gcm_Seal := Seal;
  gcm_Open := Open;
  json_Marshal := Marshal;
  json_Unmarshal := Unmarshal;
  time_Now := fun c => Z.of_nat c;
  time_Format := itoa;
  tw_Generate := fun _ _ => inl keys;
  tw_Import := fun _ _ _ => inl keys;
  tw_DeriveAddress := fun _ _ _ _ => inl "bc1qfakeaddress";
  tw_Sign := fun _ _ _ tx => inl (x30 :: tx);
  scan_uint32 := scan
|}.

Definition key32 : list byte := repeat x6b 32.

Definition ss : storage.StorageService := storage.mkStorageService key32.
Definition ws : service.WalletService := service.mkWalletService ss.
Definition b : backend.TrustVaultBackend := backend.mkBackend ws.

Definition empty : World := mkWorld [] [] [].

(** The world after wallets "w1" and "w2" have been created. *)
Definition two_wallets : World :=
  snd (service.CreateWallet ws "w2" 60 "" (snd (service.CreateWallet ws "w1" 0 "" empty))).

(** The same two wallets stored under another encryption key. *)
Definition other_ss : storage.StorageService := storage.mkStorageService (repeat x11 32).
Definition other_ws : service.WalletService := service.mkWalletService other_ss.

Definition two_wallets_rekeyed : World :=
  snd (service.CreateWallet other_ws "w2" 60 ""
         (snd (service.CreateWallet other_ws "w1" 0 "" empty))).

(** One byte of a stored value flipped: the byte at [i] becomes ["A"], or
    ["B"] if it was ["A"]. *)
Fixpoint flip (i : nat) (l : list byte) : list byte :=
  match l, i with
  | [], _ => []
  | b :: rest, O => (if Byte.eqb b "A" then "B"%byte else "A"%byte) :: rest
  | b :: rest, S i' => b :: flip i' rest
  end.

Definition tamper (key : string) (i : nat) (w : World) : World :=
  mkWorld
    (map (fun kv => if String.eqb (fst kv) key then (fst kv, flip i (snd kv)) else kv)
         (kv w))
    (heap w) (trace w).

(** A wallet record as the lifecycle manager assembles it. *)
Definition wallet_named (name : string) : Wallet :=
  mkWallet name 0 (kMnemonic keys) (kPrivateKey keys)
    (wallet.GetPublicKeyHex (kPublicKey keys)) (kAddress keys) 0%Z.

(** Request fields. *)
Definition request (strs : list (string * string)) (ints : list (string * Z))
  : backend.FieldData :=
  backend.mkFieldData
    (fun k => option_map snd (find (fun kv => String.eqb (fst kv) k) strs))
    (fun k => option_map snd (find (fun kv => String.eqb (fst kv) k) ints)).

(** The world after [wallet_named "w3"] has been stored in the empty one. *)
Definition one_wallet : World :=
  snd (storage.StoreWallet ss (Some (wallet_named "w3")) empty).

(** A world whose only record cannot be decoded. *)
Definition broken_record : World := mkWorld [("wallets/x", [])] [] [].

End fake.

(** ** Predicates used in the statements *)

(** The reasons for which [tx_data] is refused: it is not base64, its text
    is longer than the cap, it decodes to nothing, or it decodes to more than
    the cap. *)
Definition bad_tx_data (tx : string) : Prop :=
  (exists e, base64.DecodeString tx = Err e)
  \/ (goint.strlen tx > 1024 * 1024)%Z
  \/ base64.DecodeString tx = Ok []
  \/ (exists bs, base64.DecodeString tx = Ok bs /\ (goint.len bs > 1024 * 1024)%Z).

(** The wallet object behind [p], readable in [w1], is still there in [w2]
    with a private-key buffer of the same length, all zero, and an empty
    mnemonic. *)
Definition zeroed_after (p : nat) (w1 w2 : World) : Prop :=
  exists wal0 wal,
    mem.load p w1 = Some wal0
    /\ mem.load p w2 = Some wal
    /\ PrivateKey wal = repeat x00 (List.length (PrivateKey wal0))
    /\ Mnemonic wal = "".

Section Blobs.
Context {env : Env}.

(** The base64 text [blob] holds a nonce and a sealed text that open to
    [plaintext] under [key]. *)
Definition opens_to (key : list byte) (blob : string) (plaintext : list byte) : Prop :=
  exists data,
    base64.DecodeString blob = Ok data
    /\ (storage.NonceSize <= List.length data)%nat
    /\ gcm_Open key (firstn storage.NonceSize data) (skipn storage.NonceSize data)
       = Some plaintext.

(** The blob fails AES-GCM authentication. *)
Definition tag_rejected (key : list byte) (blob : string) : Prop :=
  exists data,
    base64.DecodeString blob = Ok data
    /\ (storage.NonceSize <= List.length data)%nat
    /\ gcm_Open key (firstn storage.NonceSize data) (skipn storage.NonceSize data)
       = None.

(** The blob is shorter than the nonce. *)
Definition shorter_than_nonce (blob : string) : Prop :=
  exists data,
    base64.DecodeString blob = Ok data /\ (List.length data < storage.NonceSize)%nat.

(** The blob is not base64 text at all. *)
Definition not_base64 (blob : string) : Prop :=
  exists e, base64.DecodeString blob = Err e.

Definition rejected (key : list byte) (blob : string) : Prop :=
  tag_rejected key blob \/ shorter_than_nonce blob \/ not_base64 blob.

End Blobs.

Section Cooperation.
Context {env : Env}.

(** From clock [c] on, the backend and the random source do not fail. *)
Definition reliable_from (c : nat) : Prop :=
  forall c', (c <= c')%nat ->
             (forall op, backend_fault c' op = None) /\ rand_fault c' = None.

(** Every record can be marshalled. *)
Definition marshal_total : Prop :=
  forall e : encryptedWallet, exists bs, json_Marshal e = Done bs.

(** The persisted form of [wal] sealed under the nonces [n1] and [n2]. *)
Definition sealed_record (ss : storage.StorageService) (wal : Wallet)
  (n1 n2 : list byte) : encryptedWallet :=
  mkEncryptedWallet (Name wal) (CoinType wal)
    (base64.EncodeToString
       (n1 ++ gcm_Seal (storage.encryptionKey ss) n1 (list_byte_of_string (Mnemonic wal))))
    (base64.EncodeToString
       (n2 ++ gcm_Seal (storage.encryptionKey ss) n2 (PrivateKey wal)))
    (PublicKey wal) (Address wal) (CreatedAt wal).

(** The provider call [CreateWallet] starts with. *)
Definition provider_keys (coinType : Z) (mnemonic : string) : M WalletKeys :=
  if negb (String.eqb mnemonic "") then wallet.ImportWallet mnemonic coinType
  else wallet.GenerateWallet coinType.

End Cooperation.

Section Projections.
Context {env : Env}.

(** The plaintext fields of a stored record. *)
Definition metadata_of (e : encryptedWallet) : string * Z * string * string * Time :=
  (eName e, eCoinType e, ePublicKey e, eAddress e, eCreatedAt e).

Definition entry_metadata (value : list byte)
  : lib (string * Z * string * string * Time) :=
  match json_Unmarshal value with
  | Done e => Done (metadata_of e)
  | Failed msg => Failed msg
  end.

(** Two stored states that agree on which names are present and on every
    record's plaintext fields, and so differ in the encrypted blobs at most. *)
Definition differ_only_in_secrets (kv1 kv2 : list (string * list byte)) : Prop :=
  forall key,
    option_map entry_metadata (kvstore.get key kv1)
    = option_map entry_metadata (kvstore.get key kv2).

(** The response has neither a [mnemonic] nor a [private_key] field. *)
Definition no_secret_fields (resp : backend.Response) : Prop :=
  ~ In "mnemonic" (backend.fields resp) /\ ~ In "private_key" (backend.fields resp).

(** If the handler's outcome has a response at all, the response has no
    secret field. *)
Definition clean (out : result backend.Response * World) : Prop :=
  match fst out with
  | Ok resp => no_secret_fields resp
  | Err _ | Panic _ => True
  end.

End Projections.

(** [sub] occurs somewhere in [s]. *)
Definition has_substring (s sub : string) : Prop :=
  exists pre post, s = pre ++ sub ++ post.

(** The bytes of a string, as characters. *)
Definition chars (s : string) : list ascii := list_ascii_of_string s.

Section Drawn.
Context {env : Env}.

(** The nonce read from the random source at clock [c]. *)
Definition drawn_nonce (c : nat) : list byte :=
  map (rand_byte c) (seq 0 storage.NonceSize).

(** The record [StoreWallet] writes for [wal] when it starts in [w]: the
    mnemonic is sealed under the nonce drawn after the existence read, the
    private key under the next one. *)
Definition record_written (ss : storage.StorageService) (wal : Wallet) (w : World)
  : encryptedWallet :=
  sealed_record ss wal (drawn_nonce (1 + clock w)) (drawn_nonce (3 + clock w)).

(** The codec gives back the record it has marshalled. *)
Definition codec_round_trips (e : encryptedWallet) : Prop :=
  exists entry, json_Marshal e = Done entry /\ json_Unmarshal entry = Done e.

(** The plaintext projection of a wallet. *)
Definition projection (wal : Wallet) : Wallet :=
  mkWallet (Name wal) (CoinType wal) "" [] (PublicKey wal) (Address wal) (CreatedAt wal).

End Drawn.

Section Stored.
Context {env : Env}.

(** [wal] is the metadata of the record stored under [name]: the record's
    plaintext fields, an empty mnemonic and no private key. *)
Definition stored_metadata (kvs : list (string * list byte)) (name : string)
  (wal : Wallet) : Prop :=
  exists value e,
    kvstore.get ("wallets/" ++ name) kvs = Some value
    /\ json_Unmarshal value = Done e
    /\ wal = mkWallet (eName e) (eCoinType e) "" [] (ePublicKey e) (eAddress e)
               (eCreatedAt e).

End Stored.

(** The call [m] leaves the backend's contents as they were, whatever it
    returns. *)
Definition keeps_kv {A} (m : M A) : Prop := forall w, kv (snd (m w)) = kv w.

(** The wallet object [CreateWallet] assembles from the provider's keys. *)
Definition assembled (name : string) (coinType : Z) (keys : WalletKeys) (now : Time)
  : Wallet :=
  mkWallet name coinType (kMnemonic keys) (kPrivateKey keys)
    (wallet.GetPublicKeyHex (kPublicKey keys)) (kAddress keys) now.

(** The sentinels [handleError] answers with a response. *)
Definition answered : list sentinel :=
  [service_ErrWalletNotFound; storage_ErrWalletNotFound; service_ErrWalletExists;
   storage_ErrWalletExists; service_ErrInvalidCoinType; service_ErrInvalidMnemonic;
   service_ErrInvalidTxData; service_ErrSigningFailed; service_ErrInvalidWalletName].

(** The response to a request for a wallet that is not stored. *)
Definition not_found_response : backend.Response :=
  backend.set_status (backend.ErrorResponse "wallet not found") 404.

(** * Properties *)

(** ** Facts about base64 *)

Module base64_facts.
Import base64.
Local Open Scope N_scope.

Ltac divmod := zify; Z.to_euclidean_division_equations; lia.

Lemma testbit_above (b k m : N) : b < 2 ^ k -> k <= m -> N.testbit b m = false.
Proof.
  intros Hb Hm. destruct (N.eq_dec b 0) as [->|Hnz].
  - apply N.bits_0.
  - apply N.bits_above_log2.
    apply N.lt_le_trans with k; [|assumption].
    apply N.log2_lt_pow2; lia.
Qed.

(** Or-ing into cleared low bits is an addition. *)
Lemma lor_add (a b k : N) : a mod 2 ^ k = 0 -> b < 2 ^ k -> N.lor a b = a + b.
Proof.
  intros Ha Hb.
  assert (Hdis : N.land a b = 0).
  { apply N.bits_inj_0. intro m. rewrite N.land_spec.
    destruct (N.lt_ge_cases m k) as [Hlt|Hge].
    - assert (Hsh : a = N.shiftl (a / 2 ^ k) k).
      { rewrite N.shiftl_mul_pow2.
        pose proof (N.div_mod a (2 ^ k)) as Hd.
        rewrite Ha, N.add_0_r, N.mul_comm in Hd.
        apply Hd. apply N.pow_nonzero. discriminate. }
      rewrite Hsh, N.shiftl_spec_low by assumption. reflexivity.
    - rewrite (testbit_above Hb Hge). apply andb_false_r. }
  rewrite <- N.lxor_lor by assumption.
  symmetry. apply N.add_nocarry_lxor. assumption.
Qed.

Lemma to_byte_to_N (b : byte) (n : N) : n mod 256 = Byte.to_N b -> goint.to_byte n = b.
Proof.
  intros H. unfold goint.to_byte. rewrite H, Byte.of_to_N. reflexivity.
Qed.

Lemma to_N_lt (b : byte) : Byte.to_N b < 256.
Proof. pose proof (Byte.to_N_bounded b). lia. Qed.

Lemma In_sextets (n : N) : n < 64 -> In n sextets.
Proof.
  intros H. unfold sextets. apply in_map_iff. exists (N.to_nat n). split.
  - apply N2Nat.id.
  - apply in_seq. lia.
Qed.

(** The alphabet is decoded back to the index it encodes. *)
Lemma decodeMap_encode (n : N) : n < 64 -> decodeMap (encode n) = n.
Proof.
  intros H.
  assert (Hall : forallb (fun i => decodeMap (encode i) =? i) sextets = true)
    by (vm_compute; reflexivity).
  rewrite forallb_forall in Hall.
  apply N.eqb_eq, Hall, In_sextets, H.
Qed.

Lemma decode_from_alpha (c : ascii) (rest : string) (j : nat) (val : N) :
  decodeMap c <> 255 ->
  decode_from (String c rest) j val =
    let val' := N.lor val (N.shiftl (decodeMap c) (N.of_nat (18 - 6 * j))) in
    match j with
    | 3%nat => option_map (app (quantum_bytes 4 val')) (decode_from rest 0 0)
    | _ => decode_from rest (S j) val'
    end.
Proof.
  intros H. cbn [decode_from].
  apply N.eqb_neq in H. rewrite H. reflexivity.
Qed.

Lemma decode_from_encode (n : N) (rest : string) (j : nat) (val : N) :
  n < 64 ->
  decode_from (String (encode n) rest) j val =
    let val' := N.lor val (N.shiftl n (N.of_nat (18 - 6 * j))) in
    match j with
    | 3%nat => option_map (app (quantum_bytes 4 val')) (decode_from rest 0 0)
    | _ => decode_from rest (S j) val'
    end.
Proof.
  intros H. rewrite decode_from_alpha; rewrite (decodeMap_encode H).
  - reflexivity.
  - lia.
Qed.

Lemma decode_from_pad2 (val : N) :
  decode_from (String padChar (String padChar EmptyString)) 2 val
  = Some (quantum_bytes 2 val).
Proof. reflexivity. Qed.

Lemma decode_from_pad3 (val : N) :
  decode_from (String padChar EmptyString) 3 val = Some (quantum_bytes 3 val).
Proof. reflexivity. Qed.

(** Induction on byte strings three bytes at a time. *)
Lemma list_ind3 (A : Type) (P : list A -> Prop) :
  P [] -> (forall a, P [a]) -> (forall a b, P [a; b]) ->
  (forall a b c l, P l -> P (a :: b :: c :: l)) ->
  forall l, P l.
Proof.
  intros H0 H1 H2 H3.
  fix IH 1.
  intros [|a [|b [|c l]]]; [apply H0 | apply H1 | apply H2 | apply H3, IH].
Qed.

(** The 24-bit value of a group of bytes, as arithmetic. *)
Lemma group3_val (b0 b1 b2 : N) :
  b0 < 256 -> b1 < 256 -> b2 < 256 ->
  N.lor (N.lor (N.shiftl b0 16) (N.shiftl b1 8)) b2 = b0 * 65536 + b1 * 256 + b2.
Proof.
  intros H0 H1 H2. rewrite !N.shiftl_mul_pow2.
  change (2 ^ 16) with 65536; change (2 ^ 8) with 256.
  rewrite (@lor_add (b0 * 65536) (b1 * 256) 16)
    by (change (2 ^ 16) with 65536; divmod).
  rewrite (@lor_add (b0 * 65536 + b1 * 256) b2 8)
    by (change (2 ^ 8) with 256; divmod).
  reflexivity.
Qed.

Lemma group2_val (b0 b1 : N) :
  b0 < 256 -> b1 < 256 ->
  N.lor (N.shiftl b0 16) (N.shiftl b1 8) = b0 * 65536 + b1 * 256.
Proof.
  intros H0 H1. rewrite !N.shiftl_mul_pow2.
  change (2 ^ 16) with 65536; change (2 ^ 8) with 256.
  rewrite (@lor_add (b0 * 65536) (b1 * 256) 16)
    by (change (2 ^ 16) with 65536; divmod).
  reflexivity.
Qed.

(** The value [decodeQuantum] gathers from two, three and four sextets. *)
Lemma gather2_val (s0 s1 : N) :
  s0 < 64 -> s1 < 64 ->
  N.lor (N.lor 0 (N.shiftl s0 18)) (N.shiftl s1 12) = s0 * 262144 + s1 * 4096.
Proof.
  intros H0 H1. rewrite N.lor_0_l, !N.shiftl_mul_pow2.
  change (2 ^ 18) with 262144; change (2 ^ 12) with 4096.
  rewrite (@lor_add (s0 * 262144) (s1 * 4096) 18)
    by (change (2 ^ 18) with 262144; divmod).
  reflexivity.
Qed.

Lemma gather3_val (s0 s1 s2 : N) :
  s0 < 64 -> s1 < 64 -> s2 < 64 ->
  N.lor (N.lor (N.lor 0 (N.shiftl s0 18)) (N.shiftl s1 12)) (N.shiftl s2 6)
  = s0 * 262144 + s1 * 4096 + s2 * 64.
Proof.
  intros H0 H1 H2. rewrite gather2_val by assumption.
  rewrite N.shiftl_mul_pow2. change (2 ^ 6) with 64.
  rewrite (@lor_add (s0 * 262144 + s1 * 4096) (s2 * 64) 12)
    by (change (2 ^ 12) with 4096; divmod).
  reflexivity.
Qed.

Lemma gather4_val (s0 s1 s2 s3 : N) :
  s0 < 64 -> s1 < 64 -> s2 < 64 -> s3 < 64 ->
  N.lor (N.lor (N.lor (N.lor 0 (N.shiftl s0 18)) (N.shiftl s1 12)) (N.shiftl s2 6))
        (N.shiftl s3 0)
  = s0 * 262144 + s1 * 4096 + s2 * 64 + s3.
Proof.
  intros H0 H1 H2 H3. rewrite gather3_val by assumption.
  rewrite N.shiftl_0_r.
  rewrite (@lor_add (s0 * 262144 + s1 * 4096 + s2 * 64) s3 6)
    by (change (2 ^ 6) with 64; divmod).
  reflexivity.
Qed.

(** The sextets of a 24-bit value put together again. *)
Lemma regroup4 (v : N) :
  v < 16777216 ->
  (v / 262144) mod 64 * 262144 + (v / 4096) mod 64 * 4096 + (v / 64) mod 64 * 64
  + v mod 64 = v.
Proof. intros H. divmod. Qed.

Lemma regroup3 (v : N) :
  v < 16777216 -> v mod 64 = 0 ->
  (v / 262144) mod 64 * 262144 + (v / 4096) mod 64 * 4096 + (v / 64) mod 64 * 64 = v.
Proof. intros H H0. rewrite <- (regroup4 H) at 4. rewrite H0. lia. Qed.

Lemma regroup2 (v : N) :
  v < 16777216 -> v mod 4096 = 0 ->
  (v / 262144) mod 64 * 262144 + (v / 4096) mod 64 * 4096 = v.
Proof. intros H H0. divmod. Qed.

Lemma bytes_of_val (b0 b1 b2 : N) :
  b0 < 256 -> b1 < 256 -> b2 < 256 ->
  ((b0 * 65536 + b1 * 256 + b2) / 65536) mod 256 = b0
  /\ ((b0 * 65536 + b1 * 256 + b2) / 256) mod 256 = b1
  /\ (b0 * 65536 + b1 * 256 + b2) mod 256 = b2.
Proof. intros H0 H1 H2. repeat split; divmod. Qed.

Ltac shifts_to_arith :=
  rewrite ?N.shiftr_div_pow2;
  change 63 with (N.ones 6); rewrite ?N.land_ones;
  change (2 ^ 18) with 262144; change (2 ^ 16) with 65536;
  change (2 ^ 12) with 4096; change (2 ^ 8) with 256; change (2 ^ 6) with 64.

Ltac sextet_lt := apply N.mod_lt; discriminate.

Ltac decode_steps :=
  rewrite !decode_from_encode by sextet_lt;
  cbn zeta; cbn match;
  cbn [Nat.mul Nat.add Nat.sub N.of_nat Pos.of_succ_nat Pos.succ].

(** [DecodeString] inverts [EncodeToString]. *)
Lemma decode_encode (bs : list byte) : decode_from (EncodeToString bs) 0 0 = Some bs.
Proof.
  induction bs as [|b0|b0 b1|b0 b1 b2 rest IH] using list_ind3.
  - reflexivity.
  - cbn [EncodeToString]. pose proof (to_N_lt b0) as H0.
    rewrite N.shiftl_mul_pow2. shifts_to_arith. decode_steps.
    rewrite gather2_val by sextet_lt.
    rewrite regroup2 by divmod.
    rewrite decode_from_pad2. unfold quantum_bytes; cbn [firstn Nat.sub].
    do 2 f_equal. apply to_byte_to_N. shifts_to_arith.
    destruct (@bytes_of_val (Byte.to_N b0) 0 0) as (E0 & _); try lia.
    rewrite !N.add_0_r in E0. exact E0.
  - cbn [EncodeToString].
    pose proof (to_N_lt b0) as H0; pose proof (to_N_lt b1) as H1.
    rewrite group2_val by assumption. shifts_to_arith. decode_steps.
    rewrite gather3_val by sextet_lt.
    rewrite regroup3 by divmod.
    rewrite decode_from_pad3. unfold quantum_bytes; cbn [firstn Nat.sub].
    destruct (@bytes_of_val (Byte.to_N b0) (Byte.to_N b1) 0) as (E0 & E1 & _);
      try lia.
    rewrite !N.add_0_r in E0, E1.
    do 2 f_equal; [|f_equal]; apply to_byte_to_N; shifts_to_arith; assumption.
  - cbn [EncodeToString].
    pose proof (to_N_lt b0) as H0; pose proof (to_N_lt b1) as H1;
      pose proof (to_N_lt b2) as H2.
    rewrite group3_val by assumption. shifts_to_arith. decode_steps.
    rewrite gather4_val by sextet_lt.
    rewrite regroup4 by lia.
    rewrite IH. unfold quantum_bytes; cbn [firstn Nat.sub option_map app].
    destruct (bytes_of_val H0 H1 H2) as (E0 & E1 & E2).
    do 2 f_equal; [|f_equal; [|f_equal]]; apply to_byte_to_N; shifts_to_arith;
      assumption.
Qed.

Lemma quantum_bytes_length (dlen : nat) (val : N) :
  List.length (quantum_bytes dlen val) = Nat.min (dlen - 1) 3.
Proof. unfold quantum_bytes. rewrite length_firstn. reflexivity. Qed.

(** Decoding yields at most three bytes for every four characters read;
    [j] characters of the current quantum have been read before [src]. *)
Lemma decode_from_length (src : string) :
  forall (j : nat) (val : N) (bs : list byte),
    decode_from src j val = Some bs ->
    (4 * List.length bs <= 3 * (String.length src + j))%nat.
Proof.
  induction src as [|c rest IH]; intros j val bs H; cbn [decode_from] in H.
  - destruct j; [|discriminate]. injection H as <-. cbn. lia.
  - cbn [String.length].
    destruct (negb (decodeMap c =? 255)).
    + destruct j as [|[|[|[|j]]]]; try (apply IH in H; lia).
      destruct (decode_from rest 0 0) as [tl|] eqn:E; [|discriminate].
      cbn [option_map] in H.
      pose proof (quantum_bytes_length 4
        (N.lor val (N.shiftl (decodeMap c) (N.of_nat (18 - 6 * 3))))) as Hq.
      set (q := quantum_bytes 4 _) in *. clearbody q.
      injection H as <-. apply IH in E. rewrite length_app, Hq. cbn. lia.
    + destruct (is_newline c); [apply IH in H; lia|].
      destruct (negb (Ascii.eqb c padChar)); [discriminate|].
      destruct j as [|[|[|j]]]; try discriminate.
      * destruct (skip_newlines rest) as [|c' rest']; [discriminate|].
        destruct (negb (Ascii.eqb c' padChar)); [discriminate|].
        destruct (at_end rest'); [|discriminate].
        injection H as <-. rewrite quantum_bytes_length. cbn. lia.
      * destruct (at_end rest); [|discriminate].
        injection H as <-. rewrite quantum_bytes_length. cbn. lia.
Qed.

Lemma DecodeString_EncodeToString (bs : list byte) :
  DecodeString (EncodeToString bs) = Ok bs.
Proof. unfold DecodeString. rewrite decode_encode. reflexivity. Qed.

Lemma DecodeString_length (s : string) (bs : list byte) :
  DecodeString s = Ok bs -> (4 * List.length bs <= 3 * String.length s)%nat.
Proof.
  unfold DecodeString. intros H.
  destruct (decode_from s 0 0) as [bs'|] eqn:E; [|discriminate].
  injection H as <-. apply decode_from_length in E. lia.
Qed.

Lemma DecodeString_not_panic (s : string) (m : string) : DecodeString s <> Panic m.
Proof. unfold DecodeString. destruct (decode_from s 0 0); discriminate. Qed.

End base64_facts.

Example base64_encode_ex :
  base64.EncodeToString (list_byte_of_string "Man is") = "TWFuIGlz"
  /\ base64.EncodeToString (list_byte_of_string "Ma") = "TWE="
  /\ base64.EncodeToString (list_byte_of_string "M") = "TQ==".
Proof. repeat split. Qed.

Example base64_decode_ex :
  base64.DecodeString "TWFuIGlz" = Ok (list_byte_of_string "Man is")
  /\ base64.DecodeString "TWE=" = Ok (list_byte_of_string "Ma")
  /\ base64.DecodeString "TQ==" = Ok (list_byte_of_string "M")
  /\ base64.DecodeString "TR==" = Ok (list_byte_of_string "M")
  /\ base64.DecodeString "TQ=" = Err (New "illegal base64 data")
  /\ base64.DecodeString "TQ" = Err (New "illegal base64 data")
  /\ base64.DecodeString "TQ==TQ==" = Err (New "illegal base64 data")
  /\ base64.DecodeString "" = Ok [].
Proof. repeat split. Qed.

(** ** Lists and the heap *)

Lemma firstn_skipn_app (A : Type) (n : nat) (l1 l2 : list A) :
  List.length l1 = n -> firstn n (l1 ++ l2) = l1 /\ skipn n (l1 ++ l2) = l2.
Proof.
  intros <-. induction l1 as [|a l1 [IH1 IH2]]; cbn.
  - split; reflexivity.
  - split; [f_equal; exact IH1 | exact IH2].
Qed.

(** ** The toy AEAD is an AEAD *)

Lemma fake_AEAD_correct : AEAD_correct fake.env.
Proof.
  intros key nonce plaintext _ _. cbn. unfold fake.Open, fake.Seal.
  assert (Hc : List.length (fake.checksum key nonce plaintext) = 16%nat)
    by apply repeat_length.
  rewrite length_app, Hc.
  replace (List.length plaintext + 16 - 16)%nat with (List.length plaintext) by lia.
  destruct (@firstn_skipn_app _ _ plaintext (fake.checksum key nonce plaintext) eq_refl)
    as [-> ->].
  replace (List.length plaintext + 16 <? 16)%nat with false
    by (symmetry; apply Nat.ltb_ge; lia).
  destruct (list_eq_dec byte_eq_dec _ _) as [_|Hne]; [reflexivity | contradiction].
Qed.

(** ** The envelope: encrypt and decrypt *)

Section Envelope.
Context {env : Env}.
Variable ss : storage.StorageService.

Lemma aes_NewCipher_256 (key : list byte) :
  List.length key = 32%nat -> storage.aes_NewCipher key = Ok tt.
Proof. intros H. unfold storage.aes_NewCipher. rewrite H. reflexivity. Qed.

Lemma rand_ReadFull_length (n : nat) (w w' : World) (bs : list byte) :
  rand_ReadFull n w = (Ok bs, w') -> List.length bs = n.
Proof.
  unfold rand_ReadFull. destruct (rand_fault (clock w)); [discriminate|].
  intros H. injection H as <- _. rewrite length_map, length_seq. reflexivity.
Qed.

(** C4: under a 256-bit key and a random source that delivers, [encrypt]
    succeeds on every byte string, the empty one included; the blob is the
    base64 text of a 12-byte nonce followed by the sealed plaintext, and
    [decrypt] of the blob gives the byte string back. *)
Theorem encrypt_decrypt_roundtrip (x : list byte) (w : World) :
  AEAD_correct env ->
  List.length (storage.encryptionKey ss) = 32%nat ->
  rand_fault (clock w) = None ->
  exists nonce w1,
    List.length nonce = storage.NonceSize
    /\ storage.encrypt ss x w
       = (Ok (base64.EncodeToString
                (nonce ++ gcm_Seal (storage.encryptionKey ss) nonce x)), w1)
    /\ fst (storage.decrypt ss
              (base64.EncodeToString
                 (nonce ++ gcm_Seal (storage.encryptionKey ss) nonce x)) w1)
       = Ok x.
Proof.
  intros Haead Hkey Hrand.
  exists (map (rand_byte (clock w)) (seq 0 storage.NonceSize)).
  exists (log EvSeal (log (EvRand storage.NonceSize) w)).
  assert (Hlen : List.length (map (rand_byte (clock w)) (seq 0 storage.NonceSize))
                 = storage.NonceSize)
    by (rewrite length_map, length_seq; reflexivity).
  split; [exact Hlen|]. split.
  - unfold storage.encrypt, bind, lift, ret, rand_ReadFull, storage.Seal.
    rewrite (aes_NewCipher_256 _ Hkey), Hrand. reflexivity.
  - unfold storage.decrypt, bind, lift, ret, fail, storage.Open.
    rewrite base64_facts.DecodeString_EncodeToString, (aes_NewCipher_256 _ Hkey).
    set (nonce := map _ _) in *.
    set (sealed := gcm_Seal _ _ _).
    replace (goint.len (nonce ++ sealed) <? Z.of_nat storage.NonceSize)%Z with false.
    + destruct (@firstn_skipn_app _ _ nonce sealed Hlen) as [-> ->].
      unfold sealed. rewrite Haead by assumption. reflexivity.
    + symmetry. apply Z.ltb_ge. unfold goint.len. rewrite length_app, Hlen. lia.
Qed.

End Envelope.

Lemma encrypt_decrypt_roundtrip_witness :
  AEAD_correct fake.env
  /\ List.length (storage.encryptionKey fake.ss) = 32%nat
  /\ @rand_fault fake.env (clock fake.empty) = None
  /\ exists nonce w1,
       List.length nonce = storage.NonceSize
       /\ @storage.encrypt fake.env fake.ss [] fake.empty
          = (Ok (base64.EncodeToString
                   (nonce ++ @gcm_Seal fake.env (storage.encryptionKey fake.ss) nonce [])), w1)
       /\ fst (@storage.decrypt fake.env fake.ss
                 (base64.EncodeToString
                    (nonce ++ @gcm_Seal fake.env (storage.encryptionKey fake.ss) nonce [])) w1)
          = Ok [].
Proof.
  split; [exact fake_AEAD_correct|].
  split; [reflexivity|].
  split; [reflexivity|].
  apply (@encrypt_decrypt_roundtrip fake.env fake.ss [] fake.empty).
  - exact fake_AEAD_correct.
  - reflexivity.
  - reflexivity.
Defined.

(** ** The request router: transaction data and pagination *)

Section RouterProps.
Context {env : Env}.

Lemma sign_request_bad_tx (data : backend.FieldData) :
  bad_tx_data (backend.get_string data "tx_data") ->
  exists msg, backend.sign_request data = inl (backend.ErrorResponse msg).
Proof.
  intros Hbad. unfold backend.sign_request.
  destruct (backend.validateWalletName _) as [err|]; [eexists; reflexivity|].
  set (tx := backend.get_string data "tx_data") in *.
  destruct (String.eqb tx ""); [eexists; reflexivity|].
  destruct (Z.gtb_spec (goint.strlen tx) (1024 * 1024)) as [Hgt|Hle];
    [eexists; reflexivity|].
  destruct (base64.DecodeString tx) as [bs|e|m] eqn:Hdec;
    [|eexists; reflexivity|eexists; reflexivity].
  destruct (Z.eqb_spec (goint.len bs) 0) as [Hz|Hnz]; [eexists; reflexivity|].
  exfalso. destruct Hbad as [[e He]|[Hlong|[Hempty|[bs' [Hbs' Hbig]]]]].
  - congruence.
  - lia.
  - apply Hnz. replace bs with (@nil byte) by congruence. reflexivity.
  - replace bs' with bs in Hbig by congruence.
    apply base64_facts.DecodeString_length in Hdec.
    unfold goint.len, goint.strlen in *. lia.
Qed.

(** C7: a sign request whose [tx_data] is not base64, is over the size cap
    or decodes to the empty byte string is answered with an error response
    and leaves the world as it was: nothing is read from the backend,
    nothing is decrypted and the signing provider is not called.  The
    lifecycle manager itself refuses an empty transaction with an
    invalid-input error before it reads anything. *)
Theorem handleWalletSign_rejects_bad_tx_data
  (b : backend.TrustVaultBackend) (data : backend.FieldData) (w : World) :
  bad_tx_data (backend.get_string data "tx_data") ->
  (exists msg, backend.handleWalletSign b data w = (Ok (backend.ErrorResponse msg), w))
  /\ (forall name,
        exists s, service.SignTransaction (backend.walletService b) name [] w
                  = (Err (Sentinel s), w)
                  /\ (s = service_ErrInvalidTxData \/ s = service_ErrInvalidWalletName)
                  /\ exists msg, backend.handleError (Sentinel s) w
                                 = (Ok (backend.ErrorResponse msg), w)).
Proof.
  intros Hbad. split.
  - destruct (sign_request_bad_tx data Hbad) as [msg Hreq].
    exists msg. unfold backend.handleWalletSign. rewrite Hreq. reflexivity.
  - intros name. unfold service.SignTransaction.
    destruct (String.eqb name "").
    + exists service_ErrInvalidWalletName.
      split; [reflexivity|]. split; [right; reflexivity|].
      eexists. reflexivity.
    + exists service_ErrInvalidTxData.
      split; [reflexivity|]. split; [left; reflexivity|].
      eexists. reflexivity.
Qed.

(** C10: the transaction a sign request hands to the lifecycle manager is
    never empty and never longer than 786432 bytes, three quarters of the
    1 MiB allowed for its base64 text. *)
Theorem sign_request_tx_at_most_786432
  (b : backend.TrustVaultBackend) (data : backend.FieldData)
  (name : string) (txData : list byte) (w : World) :
  backend.sign_request data = inr (name, txData) ->
  (0 < goint.len txData <= 786432)%Z
  /\ backend.handleWalletSign b data w =
       match service.SignTransaction (backend.walletService b) name txData w with
       | (Ok signature, w') =>
           (Ok (backend.mkResponse
                  [("signed_tx", backend.VString (base64.EncodeToString signature))]), w')
       | (Err err, w') => backend.handleError err w'
       | (Panic msg, w') => (Panic msg, w')
       end.
Proof.
  intros Hreq. split.
  - unfold backend.sign_request in Hreq.
    destruct (backend.validateWalletName _); [discriminate|].
    set (tx := backend.get_string data "tx_data") in *.
    destruct (String.eqb tx ""); [discriminate|].
    destruct (Z.gtb_spec (goint.strlen tx) (1024 * 1024)) as [Hgt|Hle]; [discriminate|].
    destruct (base64.DecodeString tx) as [bs|e|m] eqn:Hdec; try discriminate.
    destruct (Z.eqb_spec (goint.len bs) 0) as [Hz|Hnz]; [discriminate|].
    injection Hreq as _ <-.
    apply base64_facts.DecodeString_length in Hdec.
    unfold goint.len, goint.strlen in *. lia.
  - unfold backend.handleWalletSign. rewrite Hreq. reflexivity.
Qed.

(** The lifecycle manager's list is the store's list with the error
    wrapped: it has no check of its own. *)
Lemma service_ListWallets_delegates (ws : service.WalletService) (offset limit : Z)
  (w : World) :
  service.ListWallets ws offset limit w =
    match storage.ListWallets (service.storage ws) offset limit w with
    | (Ok wallets, w') => (Ok wallets, w')
    | (Err e, w') => (Err (wrapf "failed to list wallets: " e), w')
    | (Panic m, w') => (Panic m, w')
    end.
Proof. reflexivity. Qed.

(** C9, as the code has it: the router's list handler refuses a negative
    offset or limit with an error response and leaves the world as it was,
    so neither the lifecycle manager nor the store is called; the lifecycle
    manager's list has no check of its own and hands every offset and limit
    to the store's list. *)
Theorem handleWalletList_rejects_negative
  (b : backend.TrustVaultBackend) (data : backend.FieldData) (w : World) :
  (backend.get_int data "offset" 0 < 0 \/ backend.get_int data "limit" 100 < 0)%Z ->
  (exists msg, backend.handleWalletList b data w = (Ok (backend.ErrorResponse msg), w))
  /\ (forall offset limit,
        service.ListWallets (backend.walletService b) offset limit w =
          match storage.ListWallets (service.storage (backend.walletService b))
                  offset limit w with
          | (Ok wallets, w') => (Ok wallets, w')
          | (Err e, w') => (Err (wrapf "failed to list wallets: " e), w')
          | (Panic m, w') => (Panic m, w')
          end).
Proof.
  intros H. split.
  - unfold backend.handleWalletList.
    destruct (Z.ltb_spec (backend.get_int data "offset" 0) 0) as [Ho|Ho];
      [eexists; reflexivity|].
    destruct (Z.ltb_spec (backend.get_int data "limit" 100) 0) as [Hl|Hl];
      [eexists; reflexivity|].
    lia.
  - intros offset limit. apply service_ListWallets_delegates.
Qed.

(** Pagination in the store, as long as [offset + limit] fits an [int]:
    C8's three cases. *)
Lemma storage_ListWallets_page (ss : storage.StorageService) (offset limit : Z)
  (w : World) :
  backend_fault (clock w) (OpList "wallets/") = None ->
  (0 <= offset)%Z -> (0 <= limit)%Z -> (offset + limit <= goint.MaxInt)%Z ->
  let keys := kvstore.list_prefix "wallets/" (kv w) in
  let N := goint.len keys in
  fst (storage.ListWallets ss offset limit w)
  = Ok (if (offset >=? N)%Z then []
        else if (limit <=? 0)%Z then skipn (Z.to_nat offset) keys
        else firstn (Z.to_nat (Z.min (offset + limit) N - offset))
               (skipn (Z.to_nat offset) keys)).
Proof.
  intros Hfault Ho Hl Hsum keys N.
  unfold storage.ListWallets, bind, storage_List, backend_call, lift, ret.
  rewrite Hfault. cbn [kv log]. fold keys. fold N.
  destruct (Z.geb_spec offset N) as [Hge|Hlt]; [reflexivity|].
  assert (Hadd : goint.add offset limit = (offset + limit)%Z).
  { unfold goint.add, goint.wrap, goint.MaxInt in *.
    rewrite Z.mod_small by lia. lia. }
  rewrite Hadd. cbn [fst].
  assert (HN : N = Z.of_nat (List.length keys)) by reflexivity.
  unfold storage.slice. fold N.
  destruct (Z.leb_spec limit 0) as [Hl0|Hl0]; cbn [orb].
  - replace (0 <=? offset)%Z with true by (symmetry; apply Z.leb_le; lia).
    replace (offset <=? N)%Z with true by (symmetry; apply Z.leb_le; lia).
    rewrite Z.leb_refl. cbn [andb]. f_equal.
    apply firstn_all2. rewrite length_skipn. lia.
  - destruct (Z.gtb_spec (offset + limit) N) as [Hgt|Hle].
    + replace (0 <=? offset)%Z with true by (symmetry; apply Z.leb_le; lia).
      replace (offset <=? N)%Z with true by (symmetry; apply Z.leb_le; lia).
      rewrite Z.leb_refl. cbn [andb]. rewrite Z.min_r by lia. reflexivity.
    + replace (0 <=? offset)%Z with true by (symmetry; apply Z.leb_le; lia).
      replace (offset <=? offset + limit)%Z with true by (symmetry; apply Z.leb_le; lia).
      replace (offset + limit <=? N)%Z with true by (symmetry; apply Z.leb_le; lia).
      cbn [andb]. rewrite Z.min_l by lia. reflexivity.
Qed.

End RouterProps.

Lemma handleWalletSign_rejects_bad_tx_data_witness :
  bad_tx_data "!!!"
  /\ (exists msg,
        @backend.handleWalletSign fake.env fake.b
          (fake.request [("name", "w1"); ("tx_data", "!!!")] []) fake.two_wallets
        = (Ok (backend.ErrorResponse msg), fake.two_wallets)).
Proof.
  assert (Hbad : bad_tx_data "!!!") by (left; eexists; reflexivity).
  split; [exact Hbad|].
  exact (proj1 (@handleWalletSign_rejects_bad_tx_data fake.env fake.b
                  (fake.request [("name", "w1"); ("tx_data", "!!!")] [])
                  fake.two_wallets Hbad)).
Defined.

Lemma sign_request_tx_at_most_786432_witness :
  backend.sign_request (fake.request [("name", "w1"); ("tx_data", "TWFu")] [])
  = inr ("w1", list_byte_of_string "Man")
  /\ (0 < goint.len (list_byte_of_string "Man") <= 786432)%Z.
Proof.
  split; [reflexivity|].
  exact (proj1 (@sign_request_tx_at_most_786432 fake.env fake.b
                  (fake.request [("name", "w1"); ("tx_data", "TWFu")] [])
                  "w1" (list_byte_of_string "Man") fake.empty eq_refl)).
Defined.

Lemma handleWalletList_rejects_negative_witness :
  (backend.get_int (fake.request [] [("offset", 0%Z); ("limit", (-1)%Z)]) "limit" 100 < 0)%Z
  /\ exists msg,
       @backend.handleWalletList fake.env fake.b
         (fake.request [] [("offset", 0%Z); ("limit", (-1)%Z)]) fake.two_wallets
       = (Ok (backend.ErrorResponse msg), fake.two_wallets).
Proof.
  split; [reflexivity|].
  refine (proj1 (@handleWalletList_rejects_negative fake.env fake.b
                   (fake.request [] [("offset", 0%Z); ("limit", (-1)%Z)])
                   fake.two_wallets _)).
  right. reflexivity.
Defined.

(** C9 as stated fails: with a negative limit the lifecycle manager's list
    reports no error; it calls the store's list, which takes the limit as
    "no limit" and returns every name. *)
Lemma service_ListWallets_negative_limit :
  @service.ListWallets fake.env fake.ws 0 (-1) fake.two_wallets
  = (Ok ["w1"; "w2"], log (EvBackend (OpList "wallets/")) fake.two_wallets).
Proof. vm_compute. reflexivity. Qed.

(** C8 at its failing input: with two wallets stored, offset 1 and the
    largest [int] as limit, [offset + limit] wraps around to the smallest
    [int]; it is neither [<= 0] as a limit nor [> total] as an end, and the
    slice expression panics. *)
Theorem storage_ListWallets_overflow_panics :
  goint.add 1 goint.MaxInt = goint.MinInt
  /\ kvstore.list_prefix "wallets/" (kv fake.two_wallets) = ["w1"; "w2"]
  /\ fst (@storage.ListWallets fake.env fake.ss 1 goint.MaxInt fake.two_wallets)
     = Panic "runtime error: slice bounds out of range"
  /\ fst (@backend.handleWalletList fake.env fake.b
            (fake.request [] [("offset", 1%Z); ("limit", goint.MaxInt)])
            fake.two_wallets)
     = Panic "runtime error: slice bounds out of range"
  /\ fst (@storage.ListWallets fake.env fake.ss 1 1 fake.two_wallets) = Ok ["w2"].
Proof. repeat split; vm_compute; reflexivity. Qed.

(** ** Secrets in memory: sign and derive *)

Section Zeroing.
Context {env : Env}.

Lemma map_zero_repeat (l : list byte) :
  map (fun _ => x00) l = repeat x00 (List.length l).
Proof. induction l as [|b l IH]; cbn; [reflexivity | f_equal; exact IH]. Qed.

Lemma nth_error_update_nth (f : Wallet -> Wallet) (h : list Wallet) :
  forall p x, nth_error h p = Some x ->
              nth_error (mem.update_nth p f h) p = Some (f x).
Proof.
  induction h as [|y h IH]; intros [|p] x H; cbn in *; try discriminate.
  - injection H as ->. reflexivity.
  - apply IH, H.
Qed.

Lemma load_modify (p : nat) (f : Wallet -> Wallet) (w : World) (x : Wallet) :
  mem.load p w = Some x -> mem.load p (mem.modify p f w) = Some (f x).
Proof. unfold mem.load, mem.modify. cbn [heap]. apply nth_error_update_nth. Qed.

(** A wrapper call into the native library changes nothing but the trace. *)
Lemma wallet_SignTransaction_heap (pk : list byte) (coin : Z) (tx : list byte)
  (w : World) :
  heap (snd (wallet.SignTransaction pk coin tx w)) = heap w.
Proof.
  unfold wallet.SignTransaction, bind, wallet.native, fail, ret.
  destruct (Z.eqb (goint.len pk) 0); [reflexivity|].
  destruct (Z.eqb (goint.len tx) 0); [reflexivity|].
  destruct (negb (wallet.isValidCoinType coin)); [reflexivity|].
  destruct (tw_Sign (clock w) pk coin tx) as [sig|[]]; try reflexivity.
  destruct (Z.eqb (goint.len sig) 0); reflexivity.
Qed.

Lemma wallet_DeriveAddress_heap (mn : string) (coin : Z) (path : string) (w : World) :
  heap (snd (wallet.DeriveAddress mn coin path w)) = heap w.
Proof.
  unfold wallet.DeriveAddress, bind, wallet.native, fail, ret.
  destruct (String.eqb mn ""); [reflexivity|].
  destruct (negb (wallet.isValidCoinType coin)); [reflexivity|].
  destruct (tw_DeriveAddress (clock w) mn coin path) as [a|[| | | |f]]; try reflexivity.
  - destruct (String.eqb a ""); reflexivity.
  - destruct (negb (String.eqb path "")); reflexivity.
Qed.

(** What a successful [GetWallet] leaves behind: a non-empty name and a
    wallet object at the pointer it returns. *)
Lemma storage_GetWallet_ok (ss : storage.StorageService) (name : string)
  (w w1 : World) (p : nat) :
  storage.GetWallet ss name w = (Ok p, w1) ->
  String.eqb name "" = false /\ exists wal, mem.load p w1 = Some wal.
Proof.
  unfold storage.GetWallet.
  destruct (String.eqb name ""); [discriminate|].
  unfold bind, fail.
  destruct (storage_Get _ w) as [[[v|]|e|m] w0]; try discriminate.
  destruct (lift (of_lib (json_Unmarshal v)) w0) as [[enc|e|m] w0']; try discriminate.
  destruct (storage.decryptWallet ss enc w0') as [[wal|e|m] w0'']; try discriminate.
  unfold mem.alloc. intros H. injection H as <- <-.
  split; [reflexivity|]. exists wal.
  unfold mem.load. cbn [heap].
  rewrite nth_error_app2, Nat.sub_diag by lia. reflexivity.
Qed.

(** C1: once the wallet record has been retrieved and decrypted, when sign
    returns, whatever the signing provider answered, the private-key buffer
    of that record is all zero bytes and its mnemonic is the empty string;
    the same holds when deriveAddress returns. *)
Theorem secrets_zeroed_on_return (ws : service.WalletService) (name : string)
  (w w1 : World) (p : nat) :
  storage.GetWallet (service.storage ws) name w = (Ok p, w1) ->
  (forall txData, txData <> [] ->
     zeroed_after p w1 (snd (service.SignTransaction ws name txData w)))
  /\ (forall coinType derivationPath,
        zeroed_after p w1 (snd (service.GetAddress ws name coinType derivationPath w))).
Proof.
  intros Hget.
  destruct (storage_GetWallet_ok _ _ _ Hget) as [Hname [wal0 Hload]].
  split.
  - intros txData Htx. unfold service.SignTransaction.
    rewrite Hname.
    replace (goint.len txData =? 0)%Z with false
      by (destruct txData; [contradiction | reflexivity]).
    unfold bind at 1. rewrite Hget. unfold defer.
    match goal with
    | |- context [let (r, w') := ?body w1 in _] =>
        assert (Hheap : heap (snd (body w1)) = heap w1);
        [|destruct (body w1) as [r w2]]
    end.
    + unfold bind, service.deref. rewrite Hload.
      pose proof (wallet_SignTransaction_heap (PrivateKey wal0) (CoinType wal0) txData w1)
        as Hs.
      destruct (wallet.SignTransaction _ _ _ w1) as [[sig|e|m] w2]; exact Hs.
    + cbn [snd] in *.
      assert (Hload2 : mem.load p w2 = Some wal0)
        by (unfold mem.load in *; rewrite Hheap; exact Hload).
      exists wal0, (service.clearMnemonic (service.zeroPrivateKey wal0)).
      split; [exact Hload|]. split.
      * apply load_modify, load_modify, Hload2.
      * split; [apply map_zero_repeat | reflexivity].
  - intros coinType derivationPath. unfold service.GetAddress.
    rewrite Hname. unfold bind at 1. rewrite Hget. unfold defer.
    match goal with
    | |- context [let (r, w') := ?body w1 in _] =>
        assert (Hheap : heap (snd (body w1)) = heap w1);
        [|destruct (body w1) as [r w2]]
    end.
    + unfold bind, service.deref. rewrite Hload.
      pose proof (wallet_DeriveAddress_heap (Mnemonic wal0) coinType derivationPath w1)
        as Hs.
      destruct (wallet.DeriveAddress _ _ _ w1) as [[a|e|m] w2]; exact Hs.
    + cbn [snd] in *.
      assert (Hload2 : mem.load p w2 = Some wal0)
        by (unfold mem.load in *; rewrite Hheap; exact Hload).
      exists wal0, (service.zeroPrivateKey (service.clearMnemonic wal0)).
      split; [exact Hload|]. split.
      * apply load_modify, load_modify, Hload2.
      * split; [apply map_zero_repeat | reflexivity].
Qed.

End Zeroing.

Lemma secrets_zeroed_on_return_witness :
  @storage.GetWallet fake.env fake.ss "w1" fake.two_wallets
  = (Ok 0%nat, snd (@storage.GetWallet fake.env fake.ss "w1" fake.two_wallets))
  /\ zeroed_after 0 (snd (@storage.GetWallet fake.env fake.ss "w1" fake.two_wallets))
       (snd (@service.SignTransaction fake.env fake.ws "w1" [x01] fake.two_wallets))
  /\ zeroed_after 0 (snd (@storage.GetWallet fake.env fake.ss "w1" fake.two_wallets))
       (snd (@service.GetAddress fake.env fake.ws "w1" 0 "" fake.two_wallets)).
Proof.
  assert (Hget : @storage.GetWallet fake.env fake.ss "w1" fake.two_wallets
                 = (Ok 0%nat, snd (@storage.GetWallet fake.env fake.ss "w1" fake.two_wallets)))
    by (vm_compute; reflexivity).
  split; [exact Hget|].
  destruct (@secrets_zeroed_on_return fake.env fake.ws "w1" fake.two_wallets _ 0%nat Hget)
    as [Hsign Haddr].
  split.
  - apply Hsign. discriminate.
  - apply Haddr.
Defined.

(** ** Reading a record back: not found, undecryptable, or authentic *)

Section GetFull.
Context {env : Env}.
Variable ss : storage.StorageService.

Lemma aes_NewCipher_no_panic (key : list byte) (m : string) :
  storage.aes_NewCipher key <> Panic m.
Proof.
  unfold storage.aes_NewCipher. generalize (List.length key). intros n.
  do 33 (destruct n as [|n]; try discriminate).
Qed.

Lemma decrypt_ok (blob : string) (w : World) (plaintext : list byte) :
  fst (storage.decrypt ss blob w) = Ok plaintext ->
  opens_to (storage.encryptionKey ss) blob plaintext.
Proof.
  unfold storage.decrypt, bind, lift, fail, ret, storage.Open.
  destruct (base64.DecodeString blob) as [data|e|m] eqn:Hdec; try discriminate.
  destruct (storage.aes_NewCipher _) as [[]|e|m]; try discriminate.
  destruct (Z.ltb_spec (goint.len data) (Z.of_nat storage.NonceSize)) as [Hlt|Hge];
    [discriminate|].
  destruct (gcm_Open _ _ _) as [pt|] eqn:Hopen; [|discriminate].
  cbn. intros H. injection H as <-.
  exists data. split; [exact Hdec|]. split; [unfold goint.len in Hge; lia | exact Hopen].
Qed.

Lemma decrypt_rejected (blob : string) (w : World) :
  rejected (storage.encryptionKey ss) blob ->
  exists e, fst (storage.decrypt ss blob w) = Err e.
Proof.
  unfold storage.decrypt, bind, lift, fail, ret, storage.Open.
  intros [(data & Hdec & Hlen & Hopen)|[(data & Hdec & Hlen)|(e & Hdec)]]; rewrite Hdec;
    [| |eexists; reflexivity].
  - destruct (storage.aes_NewCipher _) as [[]|e|m] eqn:Hkey.
    + replace (goint.len data <? Z.of_nat storage.NonceSize)%Z with false
        by (symmetry; apply Z.ltb_ge; unfold goint.len; lia).
      rewrite Hopen. eexists. reflexivity.
    + eexists. reflexivity.
    + exfalso. exact (aes_NewCipher_no_panic _ Hkey).
  - destruct (storage.aes_NewCipher _) as [[]|e|m] eqn:Hkey.
    + replace (goint.len data <? Z.of_nat storage.NonceSize)%Z with true
        by (symmetry; apply Z.ltb_lt; unfold goint.len; lia).
      eexists. reflexivity.
    + eexists. reflexivity.
    + exfalso. exact (aes_NewCipher_no_panic _ Hkey).
Qed.

Lemma decrypt_no_panic (blob : string) (w : World) (m : string) :
  fst (storage.decrypt ss blob w) <> Panic m.
Proof.
  unfold storage.decrypt, bind, lift, fail, ret, storage.Open.
  destruct (base64.DecodeString blob) as [data|e|m'] eqn:Hdec; try discriminate.
  - destruct (storage.aes_NewCipher _) as [[]|e|m'] eqn:Hkey; try discriminate.
    + destruct (goint.len data <? Z.of_nat storage.NonceSize)%Z; [discriminate|].
      destruct (gcm_Open _ _ _); discriminate.
    + exfalso. exact (aes_NewCipher_no_panic _ Hkey).
  - exfalso. exact (base64_facts.DecodeString_not_panic _ Hdec).
Qed.

(** [decryptWallet] gives the record with both fields opened, or fails with
    [ErrDecryptionFailed]; it fails when a field is rejected. *)
Lemma decryptWallet_cases (enc : encryptedWallet) (w : World) :
  match fst (storage.decryptWallet ss enc w) with
  | Ok wal =>
      exists mn pk,
        opens_to (storage.encryptionKey ss) (MnemonicEncrypted enc) mn
        /\ opens_to (storage.encryptionKey ss) (PrivateKeyEncrypted enc) pk
        /\ wal = mkWallet (eName enc) (eCoinType enc) (string_of_list_byte mn) pk
                   (ePublicKey enc) (eAddress enc) (eCreatedAt enc)
  | Err e =>
      Is e storage_ErrDecryptionFailed = true /\ Is e storage_ErrWalletNotFound = false
  | Panic _ => False
  end
  /\ (rejected (storage.encryptionKey ss) (MnemonicEncrypted enc)
      \/ rejected (storage.encryptionKey ss) (PrivateKeyEncrypted enc) ->
      exists e, fst (storage.decryptWallet ss enc w) = Err e).
Proof.
  unfold storage.decryptWallet, bind, ret.
  pose proof (@decrypt_ok (MnemonicEncrypted enc) w) as Hok1.
  pose proof (@decrypt_no_panic (MnemonicEncrypted enc) w) as Hnp1.
  pose proof (@decrypt_rejected (MnemonicEncrypted enc) w) as Hrej1.
  destruct (storage.decrypt ss (MnemonicEncrypted enc) w) as [[mn|e|m] w1]; cbn [fst] in *.
  - pose proof (@decrypt_ok (PrivateKeyEncrypted enc) w1) as Hok2.
    pose proof (@decrypt_no_panic (PrivateKeyEncrypted enc) w1) as Hnp2.
    pose proof (@decrypt_rejected (PrivateKeyEncrypted enc) w1) as Hrej2.
    destruct (storage.decrypt ss (PrivateKeyEncrypted enc) w1) as [[pk|e|m] w2];
      cbn [fst] in *.
    + split.
      * exists mn, pk. repeat split; auto.
      * intros [Hr|Hr]; [destruct (Hrej1 Hr) | destruct (Hrej2 Hr)]; discriminate.
    + split; [split; reflexivity | intros _; eexists; reflexivity].
    + exfalso. exact (Hnp2 m eq_refl).
  - split; [split; reflexivity | intros _; eexists; reflexivity].
  - exfalso. exact (Hnp1 m eq_refl).
Qed.

(** C2, as the code has it.  For a non-empty name and a backend read that
    succeeds: [GetWallet] fails with [ErrWalletNotFound] exactly when no
    record is stored under the name; when the stored record has a sensitive
    field that fails authentication, is shorter than the nonce or is not
    base64 text, it fails with an error that is [ErrDecryptionFailed] and is not
    [ErrWalletNotFound]; and a wallet it returns carries, for both fields,
    the plaintext that [Open] authenticated.  The empty name is refused
    before anything is read, with an error of its own. *)
Theorem GetWallet_not_found_or_authentic (name : string) (w : World) :
  name <> "" ->
  backend_fault (clock w) (OpGet ("wallets/" ++ name)) = None ->
  let stored := kvstore.get ("wallets/" ++ name) (kv w) in
  let r := fst (storage.GetWallet ss name w) in
  ((exists e, r = Err e /\ Is e storage_ErrWalletNotFound = true) <-> stored = None)
  /\ (forall value enc,
        stored = Some value -> json_Unmarshal value = Done enc ->
        rejected (storage.encryptionKey ss) (MnemonicEncrypted enc)
        \/ rejected (storage.encryptionKey ss) (PrivateKeyEncrypted enc) ->
        exists e, r = Err e /\ Is e storage_ErrDecryptionFailed = true
                  /\ Is e storage_ErrWalletNotFound = false)
  /\ (forall p,
        r = Ok p ->
        exists value enc mn pk wal,
          stored = Some value /\ json_Unmarshal value = Done enc
          /\ opens_to (storage.encryptionKey ss) (MnemonicEncrypted enc) mn
          /\ opens_to (storage.encryptionKey ss) (PrivateKeyEncrypted enc) pk
          /\ mem.load p (snd (storage.GetWallet ss name w)) = Some wal
          /\ Mnemonic wal = string_of_list_byte mn /\ PrivateKey wal = pk)
  /\ storage.GetWallet ss "" w = (Err (New "wallet name cannot be empty"), w).
Proof.
  intros Hname Hfault. cbv zeta.
  rewrite <- !and_assoc. split; [|reflexivity]. rewrite !and_assoc.
  remember (storage.GetWallet ss name w) as res eqn:Hres.
  unfold storage.GetWallet in Hres.
  apply String.eqb_neq in Hname. rewrite Hname in Hres.
  unfold bind at 1 in Hres. unfold storage_Get, backend_call in Hres.
  rewrite Hfault in Hres. cbn [kv log] in Hres.
  destruct (kvstore.get ("wallets/" ++ name) (kv w)) as [value|].
  - unfold bind at 1 in Hres. unfold lift in Hres.
    destruct (json_Unmarshal value) as [enc|msg] eqn:Hjson; cbn [of_lib] in Hres.
    + unfold bind in Hres.
      destruct (decryptWallet_cases enc (log (EvBackend (OpGet ("wallets/" ++ name))) w))
        as [Hcases Hrej].
      destruct (storage.decryptWallet ss enc _) as [[wal|e|m] w2];
        cbn [fst snd] in *; subst res; cbn [fst snd mem.alloc].
      * split; [split; [intros (e & He & _); discriminate | discriminate]|].
        split.
        -- intros value' enc' Hv Henc Hr.
           injection Hv as <-. rewrite Hjson in Henc. injection Henc as <-.
           destruct (Hrej Hr) as [e He]. discriminate.
        -- intros p Hp. destruct Hcases as (mn & pk & Hmn & Hpk & ->).
           exists value, enc, mn, pk.
           eexists. split; [reflexivity|]. split; [exact Hjson|].
           split; [exact Hmn|]. split; [exact Hpk|].
           unfold mem.load. cbn [heap]. injection Hp as <-.
           rewrite nth_error_app2, Nat.sub_diag by lia.
           split; [reflexivity|]. split; reflexivity.
      * destruct Hcases as [Hd Hn].
        split; [split; [intros (e' & He & Hnf); injection He as <-; cbn in Hnf; congruence
                       | discriminate]|].
        split.
        -- intros value' enc' _ _ _. eexists. split; [reflexivity|].
           cbn. split; assumption.
        -- intros p Hp. discriminate.
      * contradiction.
    + subst res. cbn [fst snd].
      split; [split; [intros (e' & He & Hnf); injection He as <-; discriminate
                     | discriminate]|].
      split.
      * intros value' enc' Hv Henc. injection Hv as <-. congruence.
      * intros p Hp. discriminate.
  - subst res. cbn [fst snd fail].
    split; [split; [reflexivity | intros _; eexists; split; reflexivity]|].
    split.
    + intros value enc Hv. discriminate.
    + intros p Hp. discriminate.
Qed.

End GetFull.

Lemma GetWallet_not_found_or_authentic_witness :
  "w1" <> ""
  /\ @backend_fault fake.env (clock fake.two_wallets) (OpGet ("wallets/" ++ "w1")) = None
  /\ (exists p, fst (@storage.GetWallet fake.env fake.ss "w1" fake.two_wallets) = Ok p)
  /\ ((exists e, fst (@storage.GetWallet fake.env fake.ss "w1" fake.two_wallets) = Err e
                 /\ Is e storage_ErrWalletNotFound = true)
      <-> kvstore.get ("wallets/" ++ "w1") (kv fake.two_wallets) = None).
Proof.
  split; [discriminate|]. split; [reflexivity|].
  split; [exists 0%nat; vm_compute; reflexivity|].
  refine (proj1 (@GetWallet_not_found_or_authentic fake.env fake.ss "w1" fake.two_wallets
                   _ eq_refl)).
  discriminate.
Defined.

(** C2 as stated fails at the empty name: nothing is stored under it, and
    yet [GetWallet] does not answer [ErrWalletNotFound]; the empty name is
    refused up front with an error of its own. *)
Lemma GetWallet_empty_name_is_not_NotFound :
  kvstore.get ("wallets/" ++ "") (kv fake.empty) = None
  /\ fst (@storage.GetWallet fake.env fake.ss "" fake.empty)
     = Err (New "wallet name cannot be empty")
  /\ Is (New "wallet name cannot be empty") storage_ErrWalletNotFound = false.
Proof. repeat split. Qed.

(** ** Storing: duplicates and the single write *)

Section Store.
Context {env : Env}.

Lemma encrypt_run (ss : storage.StorageService) (x : list byte) (w : World) :
  List.length (storage.encryptionKey ss) = 32%nat ->
  rand_fault (clock w) = None ->
  storage.encrypt ss x w
  = (Ok (base64.EncodeToString
           (map (rand_byte (clock w)) (seq 0 storage.NonceSize)
            ++ gcm_Seal (storage.encryptionKey ss)
                 (map (rand_byte (clock w)) (seq 0 storage.NonceSize)) x)),
     log EvSeal (log (EvRand storage.NonceSize) w)).
Proof.
  intros Hkey Hrand.
  unfold storage.encrypt, bind, lift, ret, rand_ReadFull, storage.Seal.
  rewrite (aes_NewCipher_256 _ Hkey), Hrand. reflexivity.
Qed.

Lemma encryptWallet_run (ss : storage.StorageService) (wal : Wallet) (w : World) :
  List.length (storage.encryptionKey ss) = 32%nat ->
  rand_fault (clock w) = None ->
  rand_fault (S (S (clock w))) = None ->
  storage.encryptWallet ss wal w
  = (Ok (sealed_record ss wal
           (map (rand_byte (clock w)) (seq 0 storage.NonceSize))
           (map (rand_byte (S (S (clock w)))) (seq 0 storage.NonceSize))),
     log EvSeal (log (EvRand storage.NonceSize)
                   (log EvSeal (log (EvRand storage.NonceSize) w)))).
Proof.
  intros Hkey Hr0 Hr2. unfold storage.encryptWallet.
  unfold bind at 1. rewrite (encrypt_run ss _ w Hkey Hr0).
  unfold bind at 1. rewrite encrypt_run by (exact Hkey || exact Hr2).
  reflexivity.
Qed.

(** A name that is taken: [StoreWallet] never writes. *)
Lemma StoreWallet_present (ss : storage.StorageService) (wal : Wallet) (w : World)
  (value : list byte) :
  kvstore.get ("wallets/" ++ Name wal) (kv w) = Some value ->
  storage.StoreWallet ss (Some wal) w
  = (match backend_fault (clock w) (OpGet ("wallets/" ++ Name wal)) with
     | Some msg => Err (wrapf "failed to check wallet existence: " (New msg))
     | None => Err (Sentinel storage_ErrWalletExists)
     end,
     log (EvBackend (OpGet ("wallets/" ++ Name wal))) w).
Proof.
  intros Hget. unfold storage.StoreWallet, bind, storage_Get, backend_call, fail.
  destruct (backend_fault _ _); [reflexivity|].
  cbn [kv log]. rewrite Hget. reflexivity.
Qed.

(** The provider call touches neither the backend nor the heap. *)
Lemma provider_keys_kv (coinType : Z) (mnemonic : string) (w : World) :
  kv (snd (provider_keys coinType mnemonic w)) = kv w.
Proof.
  unfold provider_keys, wallet.ImportWallet, wallet.GenerateWallet, bind,
    wallet.native, fail, ret.
  destruct (negb (String.eqb mnemonic "")).
  - destruct (String.eqb mnemonic ""); [reflexivity|].
    destruct (negb (wallet.isValidCoinType coinType)); [reflexivity|].
    destruct (tw_Import _ _ _) as [k|f]; cbn [fst snd].
    + destruct (String.eqb (kAddress k) ""); reflexivity.
    + destruct f; reflexivity.
  - destruct (negb (wallet.isValidCoinType coinType)); [reflexivity|].
    destruct (tw_Generate _ _) as [k|f]; cbn [fst snd].
    + destruct (String.eqb (kAddress k) ""); reflexivity.
    + reflexivity.
Qed.

Lemma CreateWallet_unfold (ws : service.WalletService) (name : string) (coinType : Z)
  (mnemonic : string) (w : World) :
  String.eqb name "" = false ->
  service.CreateWallet ws name coinType mnemonic w =
    match provider_keys coinType mnemonic w with
    | (Ok keys, w1) =>
        let walletObj :=
          mkWallet name coinType (kMnemonic keys) (kPrivateKey keys)
            (wallet.GetPublicKeyHex (kPublicKey keys)) (kAddress keys)
            (time_Now (clock w1)) in
        match storage.StoreWallet (service.storage ws) (Some walletObj) (log EvNow w1) with
        | (Ok _, w2) =>
            (Ok (mkWallet name coinType "" [] (PublicKey walletObj) (Address walletObj)
                   (CreatedAt walletObj)), w2)
        | (Err err, w2) =>
            (Err (if Is err storage_ErrWalletExists then Sentinel service_ErrWalletExists
                  else wrapf "failed to store wallet: " err), w2)
        | (Panic m, w2) => (Panic m, w2)
        end
    | (Err err, w1) =>
        (Err (if negb (String.eqb mnemonic "") then
                if Is err wallet_ErrInvalidMnemonic then Sentinel service_ErrInvalidMnemonic
                else if Is err wallet_ErrInvalidCoinType
                     then Sentinel service_ErrInvalidCoinType
                     else wrapf "failed to import wallet: " err
              else
                if Is err wallet_ErrInvalidCoinType then Sentinel service_ErrInvalidCoinType
                else wrapf "failed to generate wallet: " err), w1)
    | (Panic m, w1) => (Panic m, w1)
    end.
Proof.
  intros Hname. unfold service.CreateWallet, provider_keys. rewrite Hname.
  unfold bind at 1.
  destruct (negb (String.eqb mnemonic "")).
  - unfold bind at 1. unfold ret at 1.
    destruct (wallet.ImportWallet mnemonic coinType w) as [[keys|err|m] w1];
      try reflexivity.
  - unfold bind at 1. unfold ret at 1.
    destruct (wallet.GenerateWallet coinType w) as [[keys|err|m] w1]; try reflexivity.
Qed.

(** C5.  A record whose name is taken: [StoreWallet] fails with
    [ErrWalletExists] and the only call it makes to the backend is the read
    that found the name, so the stored state is what it was.  A second
    [CreateWallet] under a taken name leaves the stored state unchanged and,
    when the provider has produced keys, returns [ErrWalletExists].  A record
    whose name is free is persisted, encrypted, by exactly one backend write. *)
Theorem StoreWallet_duplicate_or_single_write (ss : storage.StorageService)
  (wal : Wallet) (w : World) :
  (forall value,
     kvstore.get ("wallets/" ++ Name wal) (kv w) = Some value ->
     backend_fault (clock w) (OpGet ("wallets/" ++ Name wal)) = None ->
     storage.StoreWallet ss (Some wal) w
     = (Err (Sentinel storage_ErrWalletExists),
        log (EvBackend (OpGet ("wallets/" ++ Name wal))) w))
  /\ (forall value coinType mnemonic,
        Name wal <> "" ->
        kvstore.get ("wallets/" ++ Name wal) (kv w) = Some value ->
        let second :=
          service.CreateWallet (service.mkWalletService ss) (Name wal) coinType mnemonic w in
        kv (snd second) = kv w
        /\ (forall created, fst second <> Ok created)
        /\ ((exists keys w1, provider_keys coinType mnemonic w = (Ok keys, w1)) ->
            (forall c, backend_fault c (OpGet ("wallets/" ++ Name wal)) = None) ->
            fst second = Err (Sentinel service_ErrWalletExists)))
  /\ (kvstore.get ("wallets/" ++ Name wal) (kv w) = None ->
      List.length (storage.encryptionKey ss) = 32%nat ->
      reliable_from (clock w) -> marshal_total ->
      exists n1 n2 entry,
        List.length n1 = storage.NonceSize /\ List.length n2 = storage.NonceSize
        /\ json_Marshal (sealed_record ss wal n1 n2) = Done entry
        /\ storage.StoreWallet ss (Some wal) w
           = (Ok tt,
              mkWorld (kvstore.put ("wallets/" ++ Name wal) entry (kv w)) (heap w)
                ([EvBackend (OpPut ("wallets/" ++ Name wal)); EvSeal;
                  EvRand storage.NonceSize; EvSeal; EvRand storage.NonceSize;
                  EvBackend (OpGet ("wallets/" ++ Name wal))] ++ trace w))).
Proof.
  split; [|split].
  - intros value Hget Hfault. rewrite (@StoreWallet_present ss wal w value Hget), Hfault.
    reflexivity.
  - intros value coinType mnemonic Hname Hget second. subst second.
    apply String.eqb_neq in Hname.
    rewrite CreateWallet_unfold by exact Hname.
    pose proof (provider_keys_kv coinType mnemonic w) as Hkv.
    destruct (provider_keys coinType mnemonic w) as [[keys|err|m] w1]; cbn [snd] in Hkv.
    + cbv zeta. cbn [service.storage].
      set (walletObj := mkWallet _ _ _ _ _ _ _).
      assert (Hget1 : kvstore.get ("wallets/" ++ Name walletObj) (kv (log EvNow w1))
                      = Some value) by (cbn [kv log Name walletObj]; rewrite Hkv; exact Hget).
      rewrite (@StoreWallet_present ss walletObj (log EvNow w1) value Hget1).
      split; [|split].
      * destruct (backend_fault _ _); exact Hkv.
      * intros created. destruct (backend_fault _ _); discriminate.
      * intros _ Hfault. rewrite Hfault. reflexivity.
    + cbn [fst snd]. split; [exact Hkv|]. split; [discriminate|].
      intros (keys & w1' & H). discriminate.
    + cbn [fst snd]. split; [exact Hkv|]. split; [discriminate|].
      intros (keys & w1' & H). discriminate.
  - intros Hget Hkey Hrel Hmarshal.
    set (key := "wallets/" ++ Name wal) in *.
    set (c := clock w) in *.
    set (n1 := map (rand_byte (S c)) (seq 0 storage.NonceSize)).
    set (n2 := map (rand_byte (S (S (S c)))) (seq 0 storage.NonceSize)).
    destruct (Hmarshal (sealed_record ss wal n1 n2)) as [entry Hentry].
    exists n1, n2, entry.
    split; [unfold n1; rewrite length_map, length_seq; reflexivity|].
    split; [unfold n2; rewrite length_map, length_seq; reflexivity|].
    split; [exact Hentry|].
    destruct (Hrel c (Nat.le_refl c)) as [Hb0 _].
    destruct (Hrel (S c) ltac:(lia)) as [_ Hr1].
    destruct (Hrel (S (S (S c))) ltac:(lia)) as [_ Hr3].
    destruct (Hrel (S (S (S (S (S c))))) ltac:(lia)) as [Hb5 _].
    unfold storage.StoreWallet. fold key.
    unfold bind at 1. unfold storage_Get, backend_call. fold c. rewrite Hb0.
    cbn [kv log]. rewrite Hget.
    unfold bind at 1.
    rewrite encryptWallet_run by (exact Hkey || exact Hr1 || exact Hr3).
    change (clock (log (EvBackend (OpGet key)) w)) with (S c).
    fold n1. fold n2.
    unfold bind at 1. unfold lift. rewrite Hentry. cbn [of_lib].
    unfold bind, storage_Put, backend_call, ret.
    change (clock _) with (S (S (S (S (S c))))). rewrite Hb5.
    reflexivity.
Qed.

End Store.

Lemma fake_reliable (c : nat) : @reliable_from fake.env c.
Proof. intros c' _. split; [intros op|]; reflexivity. Qed.

Lemma fake_marshal_total : @marshal_total fake.env.
Proof. intros e. eexists. reflexivity. Qed.

Lemma StoreWallet_duplicate_or_single_write_witness :
  (@storage.StoreWallet fake.env fake.ss (Some (fake.wallet_named "w1")) fake.two_wallets
   = (Err (Sentinel storage_ErrWalletExists),
      log (EvBackend (OpGet "wallets/w1")) fake.two_wallets))
  /\ (kv (snd (@service.CreateWallet fake.env fake.ws "w1" 0 "" fake.two_wallets))
      = kv fake.two_wallets
      /\ fst (@service.CreateWallet fake.env fake.ws "w1" 0 "" fake.two_wallets)
         = Err (Sentinel service_ErrWalletExists))
  /\ (exists n1 n2 entry,
        List.length n1 = storage.NonceSize /\ List.length n2 = storage.NonceSize
        /\ @json_Marshal fake.env
             (@sealed_record fake.env fake.ss (fake.wallet_named "w3") n1 n2) = Done entry
        /\ @storage.StoreWallet fake.env fake.ss (Some (fake.wallet_named "w3"))
             fake.two_wallets
           = (Ok tt,
              mkWorld (kvstore.put "wallets/w3" entry (kv fake.two_wallets))
                (heap fake.two_wallets)
                ([EvBackend (OpPut "wallets/w3"); EvSeal; EvRand storage.NonceSize;
                  EvSeal; EvRand storage.NonceSize; EvBackend (OpGet "wallets/w3")]
                 ++ trace fake.two_wallets))).
Proof.
  destruct (@StoreWallet_duplicate_or_single_write fake.env fake.ss
              (fake.wallet_named "w1") fake.two_wallets) as (Hdup & Hsecond & _).
  destruct (@StoreWallet_duplicate_or_single_write fake.env fake.ss
              (fake.wallet_named "w3") fake.two_wallets) as (_ & _ & Hfresh).
  assert (Hpresent : exists value,
             kvstore.get "wallets/w1" (kv fake.two_wallets) = Some value)
    by (eexists; vm_compute; reflexivity).
  destruct Hpresent as [value Hvalue].
  split; [|split].
  - apply (Hdup value); [exact Hvalue | reflexivity].
  - destruct (Hsecond value 0%Z "" ltac:(discriminate) Hvalue) as (Hkv & _ & Herr).
    split; [exact Hkv|]. apply Herr.
    + eexists. eexists. vm_compute. reflexivity.
    + intros c. reflexivity.
  - apply Hfresh.
    + vm_compute. reflexivity.
    + reflexivity.
    + apply fake_reliable.
    + apply fake_marshal_total.
Defined.

(** ** Metadata without decryption *)

Section Metadata.
Context {env : Env}.

Lemma GetWalletMetadata_run (ss : storage.StorageService) (name : string) (w : World) :
  String.eqb name "" = false ->
  storage.GetWalletMetadata ss name w
  = (match backend_fault (clock w) (OpGet ("wallets/" ++ name)) with
     | Some msg => Err (wrapf "failed to retrieve wallet: " (New msg))
     | None =>
         match kvstore.get ("wallets/" ++ name) (kv w) with
         | None => Err (Sentinel storage_ErrWalletNotFound)
         | Some value =>
             match json_Unmarshal value with
             | Done e =>
                 Ok (mkWallet (eName e) (eCoinType e) "" [] (ePublicKey e) (eAddress e)
                       (eCreatedAt e))
             | Failed msg => Err (wrapf "failed to decode wallet: " (New msg))
             end
         end
     end,
     log (EvBackend (OpGet ("wallets/" ++ name))) w).
Proof.
  intros Hname. unfold storage.GetWalletMetadata. rewrite Hname.
  unfold bind, storage_Get, backend_call, lift, fail, ret.
  destruct (backend_fault _ _); [reflexivity|]. cbn [kv log].
  destruct (kvstore.get _ _) as [value|]; [|reflexivity].
  destruct (json_Unmarshal value); reflexivity.
Qed.

(** C6: [GetWalletMetadata] answers from the plaintext fields alone.  On two
    stored states that differ in the encrypted blobs at most, and under any
    two encryption keys, it returns the same result; the only call it makes
    is the backend read, so nothing is decrypted; its answer for an absent
    name is [ErrWalletNotFound].  [service.GetWallet] hands a wallet it gets
    from [GetWalletMetadata] on as it is, reports not-found exactly when
    [GetWalletMetadata] does, and is as blind to the blobs and the key. *)
Theorem GetWalletMetadata_ignores_secrets
  (ss1 ss2 : storage.StorageService) (name : string) (w1 w2 : World) :
  differ_only_in_secrets (kv w1) (kv w2) ->
  clock w1 = clock w2 ->
  fst (storage.GetWalletMetadata ss1 name w1) = fst (storage.GetWalletMetadata ss2 name w2)
  /\ (trace (snd (storage.GetWalletMetadata ss1 name w1))
      = if String.eqb name "" then trace w1
        else EvBackend (OpGet ("wallets/" ++ name)) :: trace w1)
  /\ (name <> "" ->
      backend_fault (clock w1) (OpGet ("wallets/" ++ name)) = None ->
      kvstore.get ("wallets/" ++ name) (kv w1) = None ->
      fst (storage.GetWalletMetadata ss1 name w1) = Err (Sentinel storage_ErrWalletNotFound))
  /\ (forall wal,
        fst (service.GetWallet (service.mkWalletService ss1) name w1) = Ok wal
        <-> fst (storage.GetWalletMetadata ss1 name w1) = Ok wal)
  /\ ((exists e, fst (service.GetWallet (service.mkWalletService ss1) name w1) = Err e
                 /\ Is e service_ErrWalletNotFound = true)
      <-> (exists e, fst (storage.GetWalletMetadata ss1 name w1) = Err e
                     /\ Is e storage_ErrWalletNotFound = true))
  /\ fst (service.GetWallet (service.mkWalletService ss1) name w1)
     = fst (service.GetWallet (service.mkWalletService ss2) name w2).
Proof.
  intros Hrel Hclock.
  assert (Hsame : fst (storage.GetWalletMetadata ss1 name w1)
                  = fst (storage.GetWalletMetadata ss2 name w2)).
  { destruct (String.eqb name "") eqn:Hname.
    - unfold storage.GetWalletMetadata. rewrite Hname. reflexivity.
    - rewrite !GetWalletMetadata_run by exact Hname. cbn [fst].
      rewrite Hclock. destruct (backend_fault _ _); [reflexivity|].
      specialize (Hrel ("wallets/" ++ name)). unfold entry_metadata, metadata_of in Hrel.
      destruct (kvstore.get _ (kv w1)) as [v1|], (kvstore.get _ (kv w2)) as [v2|];
        cbn [option_map] in Hrel; try discriminate; [|reflexivity].
      destruct (json_Unmarshal v1) as [e1|m1], (json_Unmarshal v2) as [e2|m2];
        try discriminate.
      + injection Hrel as -> -> -> -> ->. reflexivity.
      + injection Hrel as ->. reflexivity. }
  split; [exact Hsame|].
  split.
  { destruct (String.eqb name "") eqn:Hname.
    - unfold storage.GetWalletMetadata. rewrite Hname. reflexivity.
    - rewrite GetWalletMetadata_run by exact Hname. reflexivity. }
  split.
  { intros Hname Hfault Hget. apply String.eqb_neq in Hname.
    rewrite GetWalletMetadata_run by exact Hname. cbn [fst].
    rewrite Hfault, Hget. reflexivity. }
  assert (Hsvc : forall ss w,
             fst (service.GetWallet (service.mkWalletService ss) name w)
             = if String.eqb name "" then Err (Sentinel service_ErrInvalidWalletName)
               else match fst (storage.GetWalletMetadata ss name w) with
                    | Ok wal => Ok wal
                    | Err err =>
                        Err (if Is err storage_ErrWalletNotFound
                             then Sentinel service_ErrWalletNotFound
                             else wrapf "failed to retrieve wallet: " err)
                    | Panic m => Panic m
                    end).
  { intros ss w. unfold service.GetWallet. cbn [service.storage].
    destruct (String.eqb name ""); [reflexivity|].
    unfold bind, ret.
    destruct (storage.GetWalletMetadata ss name w) as [[wal|e|m] w']; reflexivity. }
  split; [|split].
  - intros wal. rewrite Hsvc.
    destruct (String.eqb name "") eqn:Hname.
    + unfold storage.GetWalletMetadata. rewrite Hname. cbn. split; discriminate.
    + destruct (fst (storage.GetWalletMetadata ss1 name w1)) as [wal'|e|m];
        split; intros H; try discriminate; exact H.
  - rewrite Hsvc.
    destruct (String.eqb name "") eqn:Hname.
    + unfold storage.GetWalletMetadata. rewrite Hname. cbn.
      split; intros (e & He & Hnf); injection He as <-; discriminate.
    + rewrite GetWalletMetadata_run by exact Hname. cbn [fst].
      destruct (backend_fault _ _).
      { cbn. split; intros (e & He & Hnf); injection He as <-; discriminate. }
      destruct (kvstore.get _ _) as [value|].
      * destruct (json_Unmarshal value); cbn.
        -- split; intros (e & He & _); discriminate.
        -- split; intros (e & He & Hnf); injection He as <-; discriminate.
      * cbn. split; intros _; eexists; split; reflexivity.
  - rewrite !Hsvc, Hsame. reflexivity.
Qed.

End Metadata.

Lemma GetWalletMetadata_ignores_secrets_witness :
  @differ_only_in_secrets fake.env (kv fake.two_wallets) (kv fake.two_wallets_rekeyed)
  /\ clock fake.two_wallets = clock fake.two_wallets_rekeyed
  /\ kv fake.two_wallets <> kv fake.two_wallets_rekeyed
  /\ fst (@storage.GetWalletMetadata fake.env fake.ss "w1" fake.two_wallets)
     = fst (@storage.GetWalletMetadata fake.env fake.other_ss "w1" fake.two_wallets_rekeyed).
Proof.
  assert (Hrel : @differ_only_in_secrets fake.env (kv fake.two_wallets)
                   (kv fake.two_wallets_rekeyed)).
  { intros key.
    set (kv1 := kv fake.two_wallets). vm_compute in kv1.
    set (kv2 := kv fake.two_wallets_rekeyed). vm_compute in kv2.
    subst kv1 kv2. cbn [kvstore.get].
    destruct (String.eqb "wallets/w1" key); [vm_compute; reflexivity|].
    destruct (String.eqb "wallets/w2" key); [vm_compute; reflexivity|].
    reflexivity. }
  split; [exact Hrel|].
  split; [vm_compute; reflexivity|].
  split; [vm_compute; discriminate|].
  exact (proj1 (@GetWalletMetadata_ignores_secrets fake.env fake.ss fake.other_ss "w1"
                  fake.two_wallets fake.two_wallets_rekeyed Hrel eq_refl)).
Defined.

(** ** Responses carry no secrets *)

Section Responses.
Context {env : Env}.

Ltac no_secrets := unfold no_secret_fields; cbn; intuition discriminate.

Lemma ErrorResponse_no_secrets (text : string) :
  no_secret_fields (backend.ErrorResponse text).
Proof. no_secrets. Qed.

Lemma wallet_response_no_secrets (wal : Wallet) :
  no_secret_fields (backend.wallet_response wal).
Proof. no_secrets. Qed.

Lemma ListResponse_no_secrets (keys : list string) :
  no_secret_fields (backend.ListResponse keys).
Proof. unfold backend.ListResponse. destruct (Z.eqb _ _); no_secrets. Qed.

Lemma handleError_clean (err : error) (w : World) : clean (backend.handleError err w).
Proof.
  unfold backend.handleError, clean.
  repeat (match goal with
          | |- context [if ?c then _ else _] => destruct c
          end; cbn [fst ret fail]; try no_secrets).
Qed.

Lemma ret_ErrorResponse_clean (text : string) (w : World) :
  clean (ret (backend.ErrorResponse text) w).
Proof. apply ErrorResponse_no_secrets. Qed.

(** C3: whatever the operation, the request and the state, a response that
    goes back to the caller has no [mnemonic] and no [private_key] field;
    a successful create or import answers with exactly the fields name,
    coin_type, address, public_key and created_at, and the wallet the
    lifecycle manager returns for it has an empty mnemonic and no private
    key. *)
Theorem responses_carry_no_secrets :
  (forall (op : backend.operation) (b : backend.TrustVaultBackend)
          (data : backend.FieldData) (w : World),
      match fst (backend.handle op b data w) with
      | Ok resp => no_secret_fields resp
      | Err _ | Panic _ => True
      end)
  /\ (forall (b : backend.TrustVaultBackend) (data : backend.FieldData) (w : World) resp,
        fst (backend.handleWalletCreate b data w) = Ok resp ->
        backend.fields resp = ["name"; "coin_type"; "address"; "public_key"; "created_at"]
        \/ In "error" (backend.fields resp))
  /\ (forall (ws : service.WalletService) name coinType mnemonic (w : World) wal,
        fst (service.CreateWallet ws name coinType mnemonic w) = Ok wal ->
        Mnemonic wal = "" /\ PrivateKey wal = []).
Proof.
  split; [|split].
  - intros op b data w. change (clean (backend.handle op b data w)).
    destruct op; cbn [backend.handle].
    + unfold backend.handleWalletCreate.
      destruct (backend.validateWalletName _); [apply ret_ErrorResponse_clean|].
      destruct (backend.getok_int _ _); [|apply ret_ErrorResponse_clean].
      destruct (backend.validateCoinType _); [apply ret_ErrorResponse_clean|].
      destruct (service.CreateWallet _ _ _ _ w) as [[wal|e|m] w'].
      * apply wallet_response_no_secrets.
      * apply handleError_clean.
      * exact I.
    + unfold backend.handleWalletRead.
      destruct (backend.validateWalletName _); [apply ret_ErrorResponse_clean|].
      destruct (service.GetWallet _ _ w) as [[wal|e|m] w'].
      * apply wallet_response_no_secrets.
      * apply handleError_clean.
      * exact I.
    + unfold backend.handleWalletDelete.
      destruct (backend.validateWalletName _); [apply ret_ErrorResponse_clean|].
      destruct (service.DeleteWallet _ _ w) as [[u|e|m] w'].
      * unfold clean. no_secrets.
      * apply handleError_clean.
      * exact I.
    + unfold backend.handleWalletList.
      destruct (Z.ltb _ 0); [apply ret_ErrorResponse_clean|].
      destruct (Z.ltb _ 0); [apply ret_ErrorResponse_clean|].
      destruct (service.ListWallets _ _ _ w) as [[l|e|m] w'].
      * apply ListResponse_no_secrets.
      * apply handleError_clean.
      * exact I.
    + unfold backend.handleWalletSign.
      destruct (backend.sign_request data) as [resp|[name txData]] eqn:Hreq.
      * unfold backend.sign_request in Hreq.
        destruct (backend.validateWalletName _);
          [injection Hreq as <-; apply ErrorResponse_no_secrets|].
        destruct (String.eqb _ ""); [injection Hreq as <-; apply ErrorResponse_no_secrets|].
        destruct (Z.gtb _ _); [injection Hreq as <-; apply ErrorResponse_no_secrets|].
        destruct (base64.DecodeString _) as [bs|e|m];
          [|injection Hreq as <-; apply ErrorResponse_no_secrets
           |injection Hreq as <-; apply ErrorResponse_no_secrets].
        destruct (Z.eqb _ 0); [|discriminate].
        injection Hreq as <-; apply ErrorResponse_no_secrets.
      * destruct (service.SignTransaction _ _ _ w) as [[sig|e|m] w'].
        -- unfold clean. no_secrets.
        -- apply handleError_clean.
        -- exact I.
    + unfold backend.handleWalletAddress.
      destruct (backend.validateWalletName _); [apply ret_ErrorResponse_clean|].
      destruct (String.eqb _ ""); [apply ret_ErrorResponse_clean|].
      destruct (scan_uint32 _); [|apply ret_ErrorResponse_clean].
      destruct (backend.validateCoinType _); [apply ret_ErrorResponse_clean|].
      destruct (if negb (String.eqb _ "") then _ else None);
        [apply ret_ErrorResponse_clean|].
      destruct (service.GetAddress _ _ _ _ w) as [[a|e|m] w'].
      * unfold clean. no_secrets.
      * apply handleError_clean.
      * exact I.
  - intros b data w resp. unfold backend.handleWalletCreate.
    destruct (backend.validateWalletName _);
      [intros H; injection H as <-; right; left; reflexivity|].
    destruct (backend.getok_int _ _);
      [|intros H; injection H as <-; right; left; reflexivity].
    destruct (backend.validateCoinType _);
      [intros H; injection H as <-; right; left; reflexivity|].
    destruct (service.CreateWallet _ _ _ _ w) as [[wal|e|m] w'].
    + intros H. injection H as <-. left. reflexivity.
    + unfold backend.handleError.
      repeat (match goal with
              | |- context [if ?c then _ else _] => destruct c
              end; cbn [fst ret fail];
              try (intros H; injection H as <-; right; left; reflexivity)).
      discriminate.
    + discriminate.
  - intros ws name coinType mnemonic w wal.
    destruct (String.eqb name "") eqn:Hname.
    + unfold service.CreateWallet. rewrite Hname. discriminate.
    + rewrite CreateWallet_unfold by exact Hname.
      destruct (provider_keys coinType mnemonic w) as [[keys|e|m] w1]; try discriminate.
      cbv zeta.
      destruct (storage.StoreWallet _ _ _) as [[u|e|m] w2]; try discriminate.
      cbn [fst]. intros H. injection H as <-. split; reflexivity.
Qed.

End Responses.

Lemma responses_carry_no_secrets_witness :
  exists resp,
    fst (@backend.handle fake.env backend.OpCreateImport fake.b
           (fake.request [("name", "w3")] [("coin_type", 60%Z)]) fake.two_wallets)
    = Ok resp
    /\ backend.fields resp = ["name"; "coin_type"; "address"; "public_key"; "created_at"]
    /\ no_secret_fields resp.
Proof.
  assert (Hresp : exists resp,
             fst (@backend.handle fake.env backend.OpCreateImport fake.b
                    (fake.request [("name", "w3")] [("coin_type", 60%Z)])
                    fake.two_wallets) = Ok resp
             /\ backend.fields resp
                = ["name"; "coin_type"; "address"; "public_key"; "created_at"])
    by (eexists; split; vm_compute; reflexivity).
  destruct Hresp as (resp & Hresp & Hfields).
  exists resp. split; [exact Hresp|]. split; [exact Hfields|].
  pose proof (proj1 (@responses_carry_no_secrets fake.env) backend.OpCreateImport fake.b
                (fake.request [("name", "w3")] [("coin_type", 60%Z)]) fake.two_wallets)
    as Hclean.
  rewrite Hresp in Hclean. exact Hclean.
Defined.

(** Flipping one byte of the stored mnemonic blob of "w1": reading the record
    back fails with [ErrDecryptionFailed]; its metadata is still served. *)
Example tampered_blob_fails_authentication :
  fst (@storage.GetWallet fake.env fake.ss "w1" (fake.tamper "wallets/w1" 9 fake.two_wallets))
  = Err (wrapf "failed to decrypt wallet: "
           (Wrap "" (Sentinel storage_ErrDecryptionFailed) ": failed to decrypt mnemonic"))
  /\ fst (@storage.GetWalletMetadata fake.env fake.ss "w1"
            (fake.tamper "wallets/w1" 9 fake.two_wallets))
     = fst (@storage.GetWalletMetadata fake.env fake.ss "w1" fake.two_wallets).
Proof. split; vm_compute; reflexivity. Qed.

(** Create, then read: the same address and coin type, and no secret in the
    wallet that comes back. *)
Example create_then_read :
  let created := @service.CreateWallet fake.env fake.ws "w3" 60 "" fake.two_wallets in
  fst created = fst (@service.GetWallet fake.env fake.ws "w3" (snd created))
  /\ option_map Mnemonic (match fst created with Ok wal => Some wal | _ => None end)
     = Some "".
Proof. split; vm_compute; reflexivity. Qed.

(** * Further properties of the packages *)

(** ** Package strings *)

Lemma prefix_spec (sub : string) :
  forall s, String.prefix sub s = true <-> exists post, s = sub ++ post.
Proof.
  induction sub as [|a sub IH]; intros s.
  - destruct s; cbn; split; intros _; eauto.
  - destruct s as [|b s]; cbn.
    + split; [discriminate | intros [post H]; discriminate].
    + destruct (ascii_dec a b) as [->|Hne].
      * rewrite IH. split; intros [post H]; exists post.
        -- rewrite H. reflexivity.
        -- injection H as H. exact H.
      * split; [discriminate|]. intros [post H]. injection H as H _. congruence.
Qed.

Lemma Contains_spec (s sub : string) :
  strings.Contains s sub = true <-> has_substring s sub.
Proof.
  unfold has_substring. induction s as [|c s IH].
  - cbn [strings.Contains]. rewrite orb_false_r, prefix_spec. split.
    + intros [post H]. exists "", post. exact H.
    + intros (pre & post & H). destruct pre; [|discriminate].
      exists post. exact H.
  - cbn [strings.Contains]. rewrite orb_true_iff, prefix_spec, IH. split.
    + intros [[post H]|(pre & post & H)].
      * exists "", post. exact H.
      * exists (String c pre), post. cbn. rewrite H. reflexivity.
    + intros (pre & post & H). destruct pre as [|c' pre].
      * left. exists post. exact H.
      * right. cbn in H. injection H as _ H. exists pre, post. exact H.
Qed.

Lemma Contains_false (s sub : string) :
  strings.Contains s sub = false <-> ~ has_substring s sub.
Proof.
  rewrite <- Contains_spec. destruct (strings.Contains s sub); split; congruence.
Qed.

Lemma find_char_None (p : ascii -> bool) (s : string) :
  strings.find_char p s = None <-> forall c, In c (chars s) -> p c = false.
Proof.
  unfold chars. induction s as [|a s IH]; cbn.
  - split; [intros _ c [] | reflexivity].
  - destruct (p a) eqn:Hp.
    + split; [discriminate|]. intros H. rewrite (H a) in Hp by (left; reflexivity).
      discriminate.
    + rewrite IH. split.
      * intros H c [<-|Hin]; [exact Hp | apply H, Hin].
      * intros H c Hin. apply H. right. exact Hin.
Qed.

Lemma length_take (n : nat) : forall s, String.length (strings.take n s) = Nat.min n (String.length s).
Proof.
  induction n as [|n IH]; intros [|c s]; cbn; try reflexivity.
  rewrite IH. reflexivity.
Qed.

Lemma take_all (n : nat) : forall s, (String.length s <= n)%nat -> strings.take n s = s.
Proof.
  induction n as [|n IH]; intros [|c s] H; cbn in *; try reflexivity; try lia.
  rewrite IH by lia. reflexivity.
Qed.

Lemma take_append (n : nat) :
  forall s t, (n <= String.length s)%nat -> strings.take n (s ++ t) = strings.take n s.
Proof.
  induction n as [|n IH]; intros [|c s] t H; cbn in *; try reflexivity; try lia.
  rewrite IH by lia. reflexivity.
Qed.

Lemma take_take (n : nat) : forall s, strings.take n (strings.take n s) = strings.take n s.
Proof.
  induction n as [|n IH]; intros [|c s]; cbn; try reflexivity.
  rewrite IH. reflexivity.
Qed.

Lemma length_append (s t : string) :
  String.length (s ++ t) = (String.length s + String.length t)%nat.
Proof. induction s as [|c s IH]; cbn; [reflexivity | rewrite IH; reflexivity]. Qed.

(** ** The router's validators *)

(** X1: a wallet name passes [validateWalletName] exactly when it is not
    empty, has at most 255 bytes, contains none of "..", "/" and "\", and
    has no control character (a byte below 32 or equal to 127). *)
Theorem validateWalletName_accepts (name : string) :
  backend.validateWalletName name = None <->
  name <> ""
  /\ (String.length name <= 255)%nat
  /\ ~ has_substring name ".."
  /\ ~ has_substring name "/"
  /\ ~ has_substring name "\"
  /\ (forall c, In c (chars name) -> (32 <= N_of_ascii c)%N /\ N_of_ascii c <> 127%N).
Proof.
  unfold backend.validateWalletName.
  destruct (String.eqb_spec name "") as [->|Hne].
  { split; [discriminate | intros [H _]; contradiction]. }
  destruct (Z.gtb_spec (goint.strlen name) 255) as [Hlen|Hlen].
  { split; [discriminate|]. intros (_ & H & _). unfold goint.strlen in Hlen. lia. }
  destruct (strings.Contains name "..") eqn:Hdots.
  { split; [discriminate|]. intros (_ & _ & H & _).
    apply Contains_spec in Hdots. contradiction. }
  destruct (strings.Contains name "/") eqn:Hslash.
  { split; [discriminate|]. intros (_ & _ & _ & H & _).
    apply Contains_spec in Hslash. contradiction. }
  destruct (strings.Contains name "\") eqn:Hback.
  { split; [discriminate|]. intros (_ & _ & _ & _ & H & _).
    apply Contains_spec in Hback. contradiction. }
  cbn [orb].
  apply Contains_false in Hdots, Hslash, Hback.
  destruct (strings.find_char backend.is_control name) as [c|] eqn:Hctl.
  - split; [discriminate|]. intros (_ & _ & _ & _ & _ & H).
    assert (Hnone : strings.find_char backend.is_control name = None).
    { apply find_char_None. intros c' Hin. destruct (H c' Hin) as [H32 H127].
      unfold backend.is_control.
      apply orb_false_iff. split; [apply N.ltb_ge; exact H32 | apply N.eqb_neq; exact H127]. }
    congruence.
  - split; [|reflexivity]. intros _.
    repeat (split; [assumption || (unfold goint.strlen in Hlen; lia)|]).
    intros c Hin. rewrite find_char_None in Hctl. specialize (Hctl c Hin).
    unfold backend.is_control in Hctl. apply orb_false_iff in Hctl as [H32 H127].
    split; [apply N.ltb_ge; exact H32 | apply N.eqb_neq; exact H127].
Qed.

(** X2: the router's coin whitelist and the wrapper's are the same three
    coin types, so a coin type the router lets through is never refused by
    [GenerateWallet] as an invalid coin type. *)
Theorem validateCoinType_is_wrapper_whitelist {env : Env} (coinType : Z) :
  (backend.validateCoinType coinType = None <-> wallet.isValidCoinType coinType = true)
  /\ (backend.validateCoinType coinType = None <->
      coinType = 0%Z \/ coinType = 60%Z \/ coinType = 501%Z)
  /\ (backend.validateCoinType coinType = None ->
      forall w e, fst (wallet.GenerateWallet coinType w) = Err e ->
                  Is e wallet_ErrInvalidCoinType = false).
Proof.
  assert (Hset : backend.validateCoinType coinType = None <->
                 coinType = 0%Z \/ coinType = 60%Z \/ coinType = 501%Z).
  { unfold backend.validateCoinType.
    destruct (Z.eqb_spec coinType 0), (Z.eqb_spec coinType 60), (Z.eqb_spec coinType 501);
      cbn; split; intros H; try reflexivity; try discriminate; try lia; auto. }
  assert (Hvalid : wallet.isValidCoinType coinType = true <->
                   coinType = 0%Z \/ coinType = 60%Z \/ coinType = 501%Z).
  { unfold wallet.isValidCoinType, wallet.CoinTypeBitcoin, wallet.CoinTypeEthereum,
      wallet.CoinTypeSolana.
    destruct (Z.eqb_spec coinType 0), (Z.eqb_spec coinType 60), (Z.eqb_spec coinType 501);
      cbn; split; intros H; try reflexivity; try discriminate; try lia; auto. }
  split; [rewrite Hset, Hvalid; reflexivity|]. split; [exact Hset|].
  intros Hok w e. apply Hset, Hvalid in Hok.
  unfold wallet.GenerateWallet. rewrite Hok. cbn [negb].
  unfold bind, wallet.native, fail, ret.
  destruct (tw_Generate (clock w) coinType) as [keys|f]; cbn [fst].
  - destruct (String.eqb (kAddress keys) ""); [|discriminate].
    intros H. injection H as <-. reflexivity.
  - intros H. injection H as <-. destruct f as [| | | | | | |[]]; reflexivity.
Qed.

(** X3: a derivation path passes [validateDerivationPath] exactly when it is
    empty, or has at most 100 bytes, starts with "m/" and consists of
    digits, "/", "'" and "m" only. *)
Theorem validateDerivationPath_accepts (path : string) :
  backend.validateDerivationPath path = None <->
  path = ""
  \/ ((String.length path <= 100)%nat
      /\ (exists rest, path = "m/" ++ rest)
      /\ forall c, In c (chars path) -> backend.is_path_char c = true).
Proof.
  unfold backend.validateDerivationPath.
  destruct (String.eqb_spec path "") as [->|Hne].
  { split; [left; reflexivity | reflexivity]. }
  destruct (Z.gtb_spec (goint.strlen path) 100) as [Hlen|Hlen].
  { split; [discriminate|]. intros [H|(H & _)]; [contradiction|].
    unfold goint.strlen in Hlen. lia. }
  unfold strings.HasPrefix.
  destruct (String.prefix "m/" path) eqn:Hpre; cbn [negb].
  - apply prefix_spec in Hpre.
    destruct (strings.find_char _ path) as [c|] eqn:Hbad.
    + split; [discriminate|]. intros [H|(_ & _ & H)]; [contradiction|].
      assert (Hnone : strings.find_char (fun r => negb (backend.is_path_char r)) path = None).
      { apply find_char_None. intros c' Hin. rewrite (H c' Hin). reflexivity. }
      congruence.
    + split; [|reflexivity]. intros _. right.
      split; [unfold goint.strlen in Hlen; lia|]. split; [exact Hpre|].
      intros c Hin. rewrite find_char_None in Hbad. specialize (Hbad c Hin).
      apply negb_false_iff in Hbad. exact Hbad.
  - split; [discriminate|]. intros [H|(_ & H & _)]; [contradiction|].
    apply prefix_spec in H. congruence.
Qed.

(** ** Names and errors for the log *)

Lemma sanitize_cut (n : nat) (s : string) :
  let cut := if Z.gtb (goint.strlen s) (Z.of_nat n) then strings.take n s ++ "..." else s in
  (String.length cut <= n + 3)%nat
  /\ strings.take n cut = strings.take n s
  /\ ((String.length s <= n)%nat -> cut = s).
Proof.
  cbv zeta. unfold goint.strlen.
  destruct (Z.gtb_spec (Z.of_nat (String.length s)) (Z.of_nat n)) as [Hgt|Hle].
  - split; [|split].
    + rewrite length_append, length_take. cbn. lia.
    + rewrite take_append by (rewrite length_take; lia). apply take_take.
    + intros H. lia.
  - split; [lia|]. split; reflexivity.
Qed.

(** X4: the three copies of [sanitizeName] are one function; what it
    returns has at most 53 bytes, begins with the first 50 bytes of the name,
    is the name itself when that has at most 50 bytes, and a second pass
    changes nothing (a cut name has 53 bytes and is cut again to the same
    text). *)
Theorem sanitizeName_bounded (name : string) :
  service.sanitizeName name = storage.sanitizeName name
  /\ backend.sanitizeWalletName name = storage.sanitizeName name
  /\ (String.length (storage.sanitizeName name) <= 53)%nat
  /\ strings.take 50 (storage.sanitizeName name) = strings.take 50 name
  /\ ((String.length name <= 50)%nat -> storage.sanitizeName name = name)
  /\ storage.sanitizeName (storage.sanitizeName name) = storage.sanitizeName name.
Proof.
  split; [reflexivity|]. split; [reflexivity|].
  destruct (sanitize_cut 50 name) as (Hlen & Htake & Hid).
  change (if (goint.strlen name >? Z.of_nat 50)%Z then strings.take 50 name ++ "..." else name)
    with (storage.sanitizeName name) in *.
  split; [exact Hlen|]. split; [exact Htake|]. split; [exact Hid|].
  unfold storage.sanitizeName at 1.
  destruct (Z.gtb_spec (goint.strlen (storage.sanitizeName name)) 50) as [Hgt|Hle];
    [|reflexivity].
  rewrite Htake. unfold storage.sanitizeName.
  destruct (Z.gtb_spec (goint.strlen name) 50) as [Hgt'|Hle']; [reflexivity|].
  unfold storage.sanitizeName in Hgt.
  destruct (Z.gtb_spec (goint.strlen name) 50); lia.
Qed.

(** X5: [sanitizeError] returns the empty string for a nil error; otherwise
    at most 203 bytes that begin with the first 200 bytes of the error text,
    unchanged: the text is cut, not filtered. *)
Theorem sanitizeError_cuts (err : option error) :
  (err = None -> service.sanitizeError err = "")
  /\ (String.length (service.sanitizeError err) <= 203)%nat
  /\ (forall e, err = Some e ->
        strings.take 200 (service.sanitizeError err) = strings.take 200 (Error e)
        /\ ((String.length (Error e) <= 200)%nat -> service.sanitizeError err = Error e)).
Proof.
  destruct err as [e|]; cbn [service.sanitizeError].
  - destruct (sanitize_cut 200 (Error e)) as (Hlen & Htake & Hid).
    change (Z.of_nat 200) with 200%Z in *.
    split; [discriminate|]. split; [exact Hlen|].
    intros e' H. injection H as <-. split; [exact Htake | exact Hid].
  - split; [reflexivity|]. split; [cbn; lia|]. intros e H. discriminate.
Qed.

(** ** Hexadecimal keys *)

Lemma hex_digit_inj (a b : N) :
  (a < 16)%N -> (b < 16)%N -> hex.digit a = hex.digit b -> a = b.
Proof.
  intros Ha Hb H.
  assert (Hall : forallb (fun x => forallb (fun y =>
                    implb (Ascii.eqb (hex.digit x) (hex.digit y)) (N.eqb x y))
                    (map N.of_nat (seq 0 16))) (map N.of_nat (seq 0 16)) = true)
    by (vm_compute; reflexivity).
  assert (Hin : forall n, (n < 16)%N -> In n (map N.of_nat (seq 0 16))).
  { intros n Hn. apply in_map_iff. exists (N.to_nat n).
    split; [apply N2Nat.id | apply in_seq; lia]. }
  rewrite forallb_forall in Hall. specialize (Hall a (Hin a Ha)).
  rewrite forallb_forall in Hall. specialize (Hall b (Hin b Hb)).
  rewrite H, Ascii.eqb_refl in Hall. cbn in Hall. apply N.eqb_eq, Hall.
Qed.

Lemma hex_digit_in_table (n : N) : In (hex.digit n) (chars hex.hextable).
Proof.
  destruct (N.lt_ge_cases n 16) as [Hlt|Hge].
  - assert (Hall : forallb (fun x =>
                      existsb (Ascii.eqb (hex.digit x)) (chars hex.hextable))
                      (map N.of_nat (seq 0 16)) = true) by (vm_compute; reflexivity).
    rewrite forallb_forall in Hall.
    assert (Hin : In n (map N.of_nat (seq 0 16))).
    { apply in_map_iff. exists (N.to_nat n).
      split; [apply N2Nat.id | apply in_seq; lia]. }
    specialize (Hall n Hin). apply existsb_exists in Hall as (c & Hc & Heq).
    apply Ascii.eqb_eq in Heq. rewrite Heq. exact Hc.
  - unfold hex.digit.
    assert (Hnone : String.get (N.to_nat n) hex.hextable = None).
    { assert (H16 : (16 <= N.to_nat n)%nat) by lia.
      revert H16. generalize (N.to_nat n). intros k Hk.
      do 16 (destruct k as [|k]; [lia|]). reflexivity. }
    rewrite Hnone. left. reflexivity.
Qed.

Lemma nibbles_inj (a b : N) :
  (a < 256)%N -> (b < 256)%N ->
  N.shiftr a 4 = N.shiftr b 4 -> N.land a 15 = N.land b 15 -> a = b.
Proof.
  intros Ha Hb. rewrite !N.shiftr_div_pow2.
  change 15%N with (N.ones 4). rewrite !N.land_ones.
  change (2 ^ 4)%N with 16%N. intros Hhi Hlo.
  rewrite (N.div_mod a 16), (N.div_mod b 16) by discriminate.
  rewrite Hhi, Hlo. reflexivity.
Qed.

Lemma to_N_inj (a b : byte) : Byte.to_N a = Byte.to_N b -> a = b.
Proof.
  intros H. pose proof (Byte.of_to_N a) as Ha. rewrite H, Byte.of_to_N in Ha.
  congruence.
Qed.

(** X6: the hexadecimal form of a key ([GetPublicKeyHex], [GetPrivateKeyHex])
    has two characters for every byte, all of them from "0123456789abcdef",
    and two keys with the same hexadecimal form are the same key. *)
Theorem GetPublicKeyHex_faithful (key : list byte) :
  wallet.GetPrivateKeyHex key = wallet.GetPublicKeyHex key
  /\ String.length (wallet.GetPublicKeyHex key) = (2 * List.length key)%nat
  /\ (forall c, In c (chars (wallet.GetPublicKeyHex key)) -> In c (chars hex.hextable))
  /\ (forall key', wallet.GetPublicKeyHex key = wallet.GetPublicKeyHex key' -> key = key').
Proof.
  unfold wallet.GetPrivateKeyHex, wallet.GetPublicKeyHex.
  split; [reflexivity|]. split; [|split].
  - induction key as [|b key IH]; cbn [hex.EncodeToString String.length List.length].
    + reflexivity.
    + rewrite IH. lia.
  - induction key as [|b key IH]; cbn [hex.EncodeToString chars list_ascii_of_string].
    + intros c [].
    + intros c [<-|[<-|Hin]]; [apply hex_digit_in_table | apply hex_digit_in_table|].
      apply IH, Hin.
  - induction key as [|b key IH]; intros [|b' key'] H;
      cbn [hex.EncodeToString] in H; try discriminate.
    + reflexivity.
    + injection H as Hhi Hlo Hrest.
      pose proof (base64_facts.to_N_lt b) as Hb.
      pose proof (base64_facts.to_N_lt b') as Hb'.
      assert (Hshr : forall n, (n < 256)%N -> (N.shiftr n 4 < 16)%N).
      { intros n Hn. rewrite N.shiftr_div_pow2. change (2 ^ 4)%N with 16%N.
        apply N.Div0.div_lt_upper_bound. lia. }
      assert (Hland : forall n, (N.land n 15 < 16)%N).
      { intros n. change 15%N with (N.ones 4). rewrite N.land_ones.
        apply N.mod_lt. discriminate. }
      apply hex_digit_inj in Hhi; [|apply Hshr; assumption..].
      apply hex_digit_inj in Hlo; [|apply Hland..].
      f_equal; [|apply IH, Hrest].
      apply to_N_inj, nibbles_inj; assumption.
Qed.

(** ** The wrapper around the native library *)

Section WrapperProps.
Context {env : Env}.

(** X7: [wallet.SignTransaction] returns a non-empty signature or an error
    that is [ErrSigningFailed] or [ErrInvalidCoinType], never anything else;
    a signature means the key and the transaction were not empty and the coin
    type was supported, and with an empty key, an empty transaction or an
    unsupported coin type the native library is not called at all. *)
Theorem wallet_SignTransaction_outcome (privateKey : list byte) (coinType : Z)
  (txData : list byte) (w : World) :
  match wallet.SignTransaction privateKey coinType txData w with
  | (Ok signature, w') =>
      signature <> [] /\ privateKey <> [] /\ txData <> []
      /\ wallet.isValidCoinType coinType = true
      /\ w' = log (EvSign coinType txData) w
  | (Err e, w') =>
      (Is e wallet_ErrSigningFailed = true \/ Is e wallet_ErrInvalidCoinType = true)
      /\ (privateKey = [] \/ txData = [] \/ wallet.isValidCoinType coinType = false ->
          w' = w)
  | (Panic _, _) => False
  end.
Proof.
  unfold wallet.SignTransaction, bind, wallet.native, fail, ret.
  destruct privateKey as [|k0 pk].
  { cbn. split; [left; reflexivity | reflexivity]. }
  destruct txData as [|t0 tx].
  { cbn. split; [left; reflexivity | reflexivity]. }
  change (goint.len (k0 :: pk) =? 0)%Z with false.
  change (goint.len (t0 :: tx) =? 0)%Z with false.
  destruct (wallet.isValidCoinType coinType) eqn:Hcoin; cbn [negb].
  - destruct (tw_Sign (clock w) (k0 :: pk) coinType (t0 :: tx)) as [sig|f].
    + destruct sig as [|s0 sig].
      * cbn. split; [left; reflexivity|].
        intros [H|[H|H]]; discriminate.
      * change (goint.len (s0 :: sig) =? 0)%Z with false.
        repeat split; discriminate.
    + destruct f; (split; [left; reflexivity|]); intros [H|[H|H]]; discriminate.
  - split; [right; reflexivity | reflexivity].
Qed.

(** X8: keys that [ImportWallet] returns carry the mnemonic that was passed
    in and a non-empty address, and were made for a non-empty mnemonic and a
    supported coin type; an empty mnemonic is [ErrInvalidMnemonic] and an
    unsupported coin type [ErrInvalidCoinType], both before any native call.
    An address [DeriveAddress] returns is never empty. *)
Theorem wallet_ImportWallet_outcome (mnemonic : string) (coinType : Z) (w : World) :
  (forall keys w',
     wallet.ImportWallet mnemonic coinType w = (Ok keys, w') ->
     kMnemonic keys = mnemonic /\ kAddress keys <> "" /\ mnemonic <> ""
     /\ wallet.isValidCoinType coinType = true /\ w' = log (EvImport coinType) w)
  /\ (mnemonic = "" ->
      exists e, wallet.ImportWallet mnemonic coinType w = (Err e, w)
                /\ Is e wallet_ErrInvalidMnemonic = true)
  /\ (mnemonic <> "" -> wallet.isValidCoinType coinType = false ->
      exists e, wallet.ImportWallet mnemonic coinType w = (Err e, w)
                /\ Is e wallet_ErrInvalidCoinType = true)
  /\ (forall path address w',
        wallet.DeriveAddress mnemonic coinType path w = (Ok address, w') ->
        address <> "" /\ mnemonic <> "" /\ wallet.isValidCoinType coinType = true).
Proof.
  split; [|split; [|split]].
  - intros keys w'. unfold wallet.ImportWallet, bind, wallet.native, fail, ret.
    destruct (String.eqb_spec mnemonic "") as [->|Hm]; [discriminate|].
    destruct (wallet.isValidCoinType coinType); cbn [negb]; [|discriminate].
    destruct (tw_Import (clock w) mnemonic coinType) as [k|f].
    + destruct (String.eqb_spec (kAddress k) "") as [Ha|Ha]; [discriminate|].
      intros H. injection H as <- <-. cbn. repeat split; assumption.
    + destruct f; discriminate.
  - intros ->. eexists. split; reflexivity.
  - intros Hm Hcoin. unfold wallet.ImportWallet.
    apply String.eqb_neq in Hm. rewrite Hm, Hcoin. eexists. split; reflexivity.
  - intros path address w'. unfold wallet.DeriveAddress, bind, wallet.native, fail, ret.
    destruct (String.eqb_spec mnemonic "") as [->|Hm]; [discriminate|].
    destruct (wallet.isValidCoinType coinType); cbn [negb]; [|discriminate].
    destruct (tw_DeriveAddress (clock w) mnemonic coinType path) as [a|f].
    + destruct (String.eqb_spec a "") as [Ha|Ha]; [discriminate|].
      intros H. injection H as <- _. repeat split; assumption.
    + destruct f; try discriminate.
      destruct (negb (String.eqb path "")); discriminate.
Qed.

End WrapperProps.

(** ** The backend's contract *)

Lemma kvstore_get_put (key : string) (v : list byte) (l : list (string * list byte)) :
  kvstore.get key (kvstore.put key v l) = Some v.
Proof.
  induction l as [|[k v'] l IH]; cbn.
  - rewrite String.eqb_refl. reflexivity.
  - destruct (String.eqb k key) eqn:Hk; cbn.
    + rewrite String.eqb_refl. reflexivity.
    + destruct (String.ltb key k); cbn.
      * rewrite String.eqb_refl. reflexivity.
      * rewrite Hk. exact IH.
Qed.

Lemma kvstore_get_put_other (key k' : string) (v : list byte)
  (l : list (string * list byte)) :
  k' <> key -> kvstore.get k' (kvstore.put key v l) = kvstore.get k' l.
Proof.
  intros Hne. assert (Hkey : String.eqb key k' = false) by (apply String.eqb_neq; congruence).
  induction l as [|[k v'] l IH]; cbn.
  - rewrite Hkey. reflexivity.
  - destruct (String.eqb_spec k key) as [->|Hk]; cbn.
    + rewrite Hkey. reflexivity.
    + destruct (String.ltb key k); cbn.
      * rewrite Hkey. reflexivity.
      * rewrite IH. reflexivity.
Qed.

Lemma kvstore_get_delete (key : string) (l : list (string * list byte)) :
  kvstore.get key (kvstore.delete key l) = None.
Proof.
  unfold kvstore.delete. induction l as [|[k v] l IH]; cbn; [reflexivity|].
  destruct (String.eqb k key) eqn:Hk; cbn; [exact IH|].
  rewrite Hk. exact IH.
Qed.

Lemma kvstore_get_delete_other (key k' : string) (l : list (string * list byte)) :
  k' <> key -> kvstore.get k' (kvstore.delete key l) = kvstore.get k' l.
Proof.
  intros Hne. unfold kvstore.delete. induction l as [|[k v] l IH]; cbn; [reflexivity|].
  destruct (String.eqb_spec k key) as [->|Hk]; cbn.
  - rewrite IH. destruct (String.eqb_spec key k'); [congruence | reflexivity].
  - rewrite IH. reflexivity.
Qed.

(** ** Sealing and opening a record *)

Section RecordRoundTrip.
Context {env : Env}.
Variable ss : storage.StorageService.

Lemma decrypt_sealed (nonce x : list byte) (w : World) :
  AEAD_correct env ->
  List.length (storage.encryptionKey ss) = 32%nat ->
  List.length nonce = storage.NonceSize ->
  storage.decrypt ss
    (base64.EncodeToString (nonce ++ gcm_Seal (storage.encryptionKey ss) nonce x)) w
  = (Ok x, log EvOpen w).
Proof.
  intros Haead Hkey Hlen.
  unfold storage.decrypt, bind, lift, ret, fail, storage.Open.
  rewrite base64_facts.DecodeString_EncodeToString, (aes_NewCipher_256 _ Hkey).
  set (sealed := gcm_Seal _ _ _).
  replace (goint.len (nonce ++ sealed) <? Z.of_nat storage.NonceSize)%Z with false
    by (symmetry; apply Z.ltb_ge; unfold goint.len; rewrite length_app, Hlen; lia).
  destruct (@firstn_skipn_app _ _ nonce sealed Hlen) as [-> ->].
  unfold sealed. rewrite Haead by assumption. reflexivity.
Qed.

Lemma decryptWallet_sealed_record (wal : Wallet) (n1 n2 : list byte) (w : World) :
  AEAD_correct env ->
  List.length (storage.encryptionKey ss) = 32%nat ->
  List.length n1 = storage.NonceSize -> List.length n2 = storage.NonceSize ->
  storage.decryptWallet ss (sealed_record ss wal n1 n2) w
  = (Ok wal, log EvOpen (log EvOpen w)).
Proof.
  intros Haead Hkey H1 H2.
  unfold storage.decryptWallet, sealed_record.
  cbn [MnemonicEncrypted PrivateKeyEncrypted eName eCoinType ePublicKey eAddress eCreatedAt].
  unfold bind at 1. rewrite decrypt_sealed by assumption.
  unfold bind at 1. rewrite decrypt_sealed by assumption.
  unfold ret. rewrite string_of_list_byte_of_string. destruct wal; reflexivity.
Qed.

Lemma drawn_nonce_length (c : nat) : List.length (drawn_nonce c) = storage.NonceSize.
Proof. unfold drawn_nonce. rewrite length_map, length_seq. reflexivity. Qed.

(** X9: [decryptWallet] undoes [encryptWallet].  Under a 256-bit key, the
    AEAD law and a random source that delivers both nonces, [encryptWallet]
    succeeds and [decryptWallet] of its record is the wallet it was given,
    mnemonic and private key included. *)
Theorem decryptWallet_encryptWallet (wal : Wallet) (w : World) :
  AEAD_correct env ->
  List.length (storage.encryptionKey ss) = 32%nat ->
  rand_fault (clock w) = None ->
  rand_fault (S (S (clock w))) = None ->
  exists encrypted w1,
    storage.encryptWallet ss wal w = (Ok encrypted, w1)
    /\ forall w2, fst (storage.decryptWallet ss encrypted w2) = Ok wal.
Proof.
  intros Haead Hkey Hr0 Hr2.
  eexists. eexists. split.
  - apply encryptWallet_run; assumption.
  - intros w2. rewrite decryptWallet_sealed_record; try assumption.
    + reflexivity.
    + rewrite length_map, length_seq. reflexivity.
    + rewrite length_map, length_seq. reflexivity.
Qed.

(** What [StoreWallet] does with a free name when nothing fails. *)
Lemma StoreWallet_fresh_run (wal : Wallet) (w : World) (entry : list byte) :
  kvstore.get ("wallets/" ++ Name wal) (kv w) = None ->
  List.length (storage.encryptionKey ss) = 32%nat ->
  reliable_from (clock w) ->
  json_Marshal (record_written ss wal w) = Done entry ->
  storage.StoreWallet ss (Some wal) w
  = (Ok tt,
     mkWorld (kvstore.put ("wallets/" ++ Name wal) entry (kv w)) (heap w)
       ([EvBackend (OpPut ("wallets/" ++ Name wal)); EvSeal;
         EvRand storage.NonceSize; EvSeal; EvRand storage.NonceSize;
         EvBackend (OpGet ("wallets/" ++ Name wal))] ++ trace w)).
Proof.
  intros Hget Hkey Hrel Hentry.
  set (key := "wallets/" ++ Name wal) in *.
  unfold record_written, drawn_nonce in Hentry.
  set (c := clock w) in *.
  destruct (Hrel c (Nat.le_refl c)) as [Hb0 _].
  destruct (Hrel (S c) ltac:(lia)) as [_ Hr1].
  destruct (Hrel (S (S (S c))) ltac:(lia)) as [_ Hr3].
  destruct (Hrel (S (S (S (S (S c))))) ltac:(lia)) as [Hb5 _].
  unfold storage.StoreWallet. fold key.
  unfold bind at 1. unfold storage_Get, backend_call. fold c. rewrite Hb0.
  cbn [kv log]. rewrite Hget.
  unfold bind at 1.
  rewrite encryptWallet_run by (exact Hkey || exact Hr1 || exact Hr3).
  change (clock (log (EvBackend (OpGet key)) w)) with (S c).
  unfold bind at 1. unfold lift.
  change (1 + c)%nat with (S c) in Hentry.
  change (3 + c)%nat with (S (S (S c))) in Hentry.
  rewrite Hentry. cbn [of_lib].
  unfold bind, storage_Put, backend_call, ret.
  change (clock _) with (S (S (S (S (S c))))). rewrite Hb5.
  reflexivity.
Qed.

(** X10: what is stored is read back.  After [StoreWallet] has stored a
    wallet under a free, non-empty name, [GetWallet] of that name returns a
    pointer to a wallet equal to the one stored, secrets included.  This
    holds under a 256-bit key, the AEAD law, a backend and random source that
    do not fail, and a codec that round-trips the record written. *)
Theorem StoreWallet_then_GetWallet (wal : Wallet) (w : World) :
  Name wal <> "" ->
  kvstore.get ("wallets/" ++ Name wal) (kv w) = None ->
  List.length (storage.encryptionKey ss) = 32%nat ->
  AEAD_correct env ->
  reliable_from (clock w) ->
  codec_round_trips (record_written ss wal w) ->
  exists w1 p w2,
    storage.StoreWallet ss (Some wal) w = (Ok tt, w1)
    /\ storage.GetWallet ss (Name wal) w1 = (Ok p, w2)
    /\ mem.load p w2 = Some wal.
Proof.
  intros Hname Hget Hkey Haead Hrel (entry & Hmarshal & Hunmarshal).
  eexists. eexists. eexists. split; [|split].
  - apply (StoreWallet_fresh_run wal w Hget Hkey Hrel Hmarshal).
  - unfold storage.GetWallet.
    apply String.eqb_neq in Hname. rewrite Hname.
    unfold bind at 1. unfold storage_Get, backend_call.
    destruct (Hrel (6 + clock w)%nat ltac:(lia)) as [Hb6 _].
    change (clock _) with (6 + clock w)%nat. rewrite Hb6.
    cbn [kv log]. rewrite kvstore_get_put.
    unfold bind at 1. unfold lift. rewrite Hunmarshal. cbn [of_lib].
    unfold bind at 1. unfold record_written.
    rewrite decryptWallet_sealed_record
      by (assumption || apply drawn_nonce_length).
    unfold mem.alloc. cbn [heap kv trace log]. reflexivity.
  - unfold mem.load. cbn [heap].
    rewrite nth_error_app2, Nat.sub_diag by lia. reflexivity.
Qed.

(** X11: after [StoreWallet] has stored a wallet under a free, non-empty
    name, [GetWalletMetadata] of that name returns its plaintext fields with
    an empty mnemonic and no private key; no key and no cipher law is
    needed for the read, only a codec that round-trips the record. *)
Theorem StoreWallet_then_GetWalletMetadata (wal : Wallet) (w : World) :
  Name wal <> "" ->
  kvstore.get ("wallets/" ++ Name wal) (kv w) = None ->
  List.length (storage.encryptionKey ss) = 32%nat ->
  reliable_from (clock w) ->
  codec_round_trips (record_written ss wal w) ->
  exists w1,
    storage.StoreWallet ss (Some wal) w = (Ok tt, w1)
    /\ forall ss', fst (storage.GetWalletMetadata ss' (Name wal) w1) = Ok (projection wal).
Proof.
  intros Hname Hget Hkey Hrel (entry & Hmarshal & Hunmarshal).
  eexists. split.
  - apply (StoreWallet_fresh_run wal w Hget Hkey Hrel Hmarshal).
  - intros ss'. apply String.eqb_neq in Hname.
    rewrite GetWalletMetadata_run by exact Hname.
    destruct (Hrel (6 + clock w)%nat ltac:(lia)) as [Hb6 _].
    change (clock _) with (6 + clock w)%nat. rewrite Hb6.
    cbn [kv fst]. rewrite kvstore_get_put, Hunmarshal. reflexivity.
Qed.

(** X12: [DeleteWallet] of a non-empty name.  When no record is stored it
    fails with [ErrWalletNotFound] after the existence read alone.  When a
    record is stored it removes exactly that record: the name is gone, every
    other key keeps its value, and a second [DeleteWallet] of the name fails
    with [ErrWalletNotFound]. *)
Theorem DeleteWallet_removes_once (name : string) (w : World) :
  name <> "" ->
  reliable_from (clock w) ->
  (kvstore.get ("wallets/" ++ name) (kv w) = None ->
   storage.DeleteWallet ss name w
   = (Err (Sentinel storage_ErrWalletNotFound),
      log (EvBackend (OpGet ("wallets/" ++ name))) w))
  /\ (forall value,
        kvstore.get ("wallets/" ++ name) (kv w) = Some value ->
        exists w1,
          storage.DeleteWallet ss name w = (Ok tt, w1)
          /\ kvstore.get ("wallets/" ++ name) (kv w1) = None
          /\ (forall k, k <> "wallets/" ++ name ->
                        kvstore.get k (kv w1) = kvstore.get k (kv w))
          /\ fst (storage.DeleteWallet ss name w1)
             = Err (Sentinel storage_ErrWalletNotFound)).
Proof.
  intros Hname Hrel. apply String.eqb_neq in Hname.
  destruct (Hrel (clock w) (Nat.le_refl _)) as [Hb0 _].
  destruct (Hrel (1 + clock w)%nat ltac:(lia)) as [Hb1 _].
  destruct (Hrel (2 + clock w)%nat ltac:(lia)) as [Hb2 _].
  split.
  - intros Hget. unfold storage.DeleteWallet. rewrite Hname.
    unfold bind, storage_Get, backend_call, fail. rewrite Hb0.
    cbn [kv log]. rewrite Hget. reflexivity.
  - intros value Hget.
    assert (Hrun : storage.DeleteWallet ss name w
                   = (Ok tt,
                      mkWorld (kvstore.delete ("wallets/" ++ name) (kv w)) (heap w)
                        (EvBackend (OpDelete ("wallets/" ++ name))
                         :: EvBackend (OpGet ("wallets/" ++ name)) :: trace w))).
    { unfold storage.DeleteWallet. rewrite Hname.
      unfold bind at 1. unfold storage_Get, backend_call. rewrite Hb0.
      cbn [kv log]. rewrite Hget.
      unfold bind, storage_Delete, backend_call, ret.
      change (clock _) with (1 + clock w)%nat. rewrite Hb1. reflexivity. }
    eexists. split; [exact Hrun|]. cbn [kv].
    split; [apply kvstore_get_delete|].
    split; [intros k Hk; apply kvstore_get_delete_other; exact Hk|].
    unfold storage.DeleteWallet. rewrite Hname.
    unfold bind, storage_Get, backend_call, fail.
    change (clock _) with (2 + clock w)%nat. rewrite Hb2.
    cbn [kv log]. rewrite kvstore_get_delete. reflexivity.
Qed.

End RecordRoundTrip.


Lemma decryptWallet_encryptWallet_witness :
  AEAD_correct fake.env
  /\ exists encrypted w1,
       @storage.encryptWallet fake.env fake.ss (fake.wallet_named "w1") fake.empty
       = (Ok encrypted, w1)
       /\ forall w2,
            fst (@storage.decryptWallet fake.env fake.ss encrypted w2)
            = Ok (fake.wallet_named "w1").
Proof.
  split; [exact fake_AEAD_correct|].
  apply (@decryptWallet_encryptWallet fake.env fake.ss (fake.wallet_named "w1")
           fake.empty).
  - exact fake_AEAD_correct.
  - reflexivity.
  - reflexivity.
  - reflexivity.
Defined.

Lemma fake_codec_w3 :
  @codec_round_trips fake.env
    (@record_written fake.env fake.ss (fake.wallet_named "w3") fake.two_wallets).
Proof. eexists. split; vm_compute; reflexivity. Qed.

Lemma fake_w3_free :
  kvstore.get ("wallets/" ++ Name (fake.wallet_named "w3")) (kv fake.two_wallets) = None.
Proof. vm_compute. reflexivity. Qed.

Lemma StoreWallet_then_GetWallet_witness :
  exists w1 p w2,
    @storage.StoreWallet fake.env fake.ss (Some (fake.wallet_named "w3")) fake.two_wallets
    = (Ok tt, w1)
    /\ @storage.GetWallet fake.env fake.ss (Name (fake.wallet_named "w3")) w1 = (Ok p, w2)
    /\ mem.load p w2 = Some (fake.wallet_named "w3").
Proof.
  apply (@StoreWallet_then_GetWallet fake.env fake.ss (fake.wallet_named "w3")
           fake.two_wallets).
  - discriminate.
  - exact fake_w3_free.
  - reflexivity.
  - exact fake_AEAD_correct.
  - apply fake_reliable.
  - exact fake_codec_w3.
Defined.

Lemma StoreWallet_then_GetWalletMetadata_witness :
  exists w1,
    @storage.StoreWallet fake.env fake.ss (Some (fake.wallet_named "w3")) fake.two_wallets
    = (Ok tt, w1)
    /\ forall ss',
         fst (@storage.GetWalletMetadata fake.env ss' (Name (fake.wallet_named "w3")) w1)
         = Ok (projection (fake.wallet_named "w3")).
Proof.
  apply (@StoreWallet_then_GetWalletMetadata fake.env fake.ss (fake.wallet_named "w3")
           fake.two_wallets).
  - discriminate.
  - exact fake_w3_free.
  - reflexivity.
  - apply fake_reliable.
  - exact fake_codec_w3.
Defined.

Lemma fake_w1_stored :
  exists value, kvstore.get ("wallets/" ++ "w1") (kv fake.two_wallets) = Some value.
Proof. eexists. vm_compute. reflexivity. Qed.

Lemma fake_w9_free : kvstore.get ("wallets/" ++ "w9") (kv fake.two_wallets) = None.
Proof. vm_compute. reflexivity. Qed.

Lemma DeleteWallet_removes_once_witness :
  (@storage.DeleteWallet fake.env fake.ss "w9" fake.two_wallets
   = (Err (Sentinel storage_ErrWalletNotFound),
      log (EvBackend (OpGet ("wallets/" ++ "w9"))) fake.two_wallets))
  /\ exists w1,
       @storage.DeleteWallet fake.env fake.ss "w1" fake.two_wallets = (Ok tt, w1)
       /\ kvstore.get ("wallets/" ++ "w1") (kv w1) = None
       /\ (forall k, k <> "wallets/" ++ "w1" ->
                     kvstore.get k (kv w1) = kvstore.get k (kv fake.two_wallets))
       /\ fst (@storage.DeleteWallet fake.env fake.ss "w1" w1)
          = Err (Sentinel storage_ErrWalletNotFound).
Proof.
  split.
  - apply (@DeleteWallet_removes_once fake.env fake.ss "w9" fake.two_wallets).
    + discriminate.
    + apply fake_reliable.
    + exact fake_w9_free.
  - destruct fake_w1_stored as [value Hvalue].
    apply (proj2 (@DeleteWallet_removes_once fake.env fake.ss "w1" fake.two_wallets
                    ltac:(discriminate) (@fake_reliable (clock fake.two_wallets)))
                 value Hvalue).
Defined.

(** ** Listing *)

Section Listing.
Context {env : Env}.
Variable ss : storage.StorageService.

Lemma storage_ListWallets_world (offset limit : Z) (w : World) :
  snd (storage.ListWallets ss offset limit w) = log (EvBackend (OpList "wallets/")) w.
Proof.
  unfold storage.ListWallets, bind, storage_List, backend_call, lift, ret.
  destruct (backend_fault _ _); [reflexivity|]. cbn [kv log].
  destruct (Z.geb _ _); [reflexivity|].
  destruct (storage.slice _ _ _); reflexivity.
Qed.

Lemma GetWalletMetadata_shape (name : string) (w : World) :
  kv (snd (storage.GetWalletMetadata ss name w)) = kv w
  /\ heap (snd (storage.GetWalletMetadata ss name w)) = heap w
  /\ (forall ev, In ev (trace (snd (storage.GetWalletMetadata ss name w))) ->
                 In ev (trace w) \/ exists key, ev = EvBackend (OpGet key))
  /\ match fst (storage.GetWalletMetadata ss name w) with
     | Ok wal => stored_metadata (kv w) name wal
     | Err _ => True
     | Panic _ => False
     end.
Proof.
  destruct (String.eqb name "") eqn:Hname.
  - unfold storage.GetWalletMetadata. rewrite Hname. unfold fail. cbn [fst snd].
    repeat split; auto.
  - rewrite GetWalletMetadata_run by exact Hname. cbn [fst snd kv heap trace log].
    split; [reflexivity|]. split; [reflexivity|]. split.
    + intros ev [<-|Hin]; [right; eexists; reflexivity | left; exact Hin].
    + destruct (backend_fault _ _); [exact I|].
      destruct (kvstore.get _ _) as [value|] eqn:Hget; [|exact I].
      destruct (json_Unmarshal value) as [e|msg] eqn:He; [|exact I].
      exists value, e. repeat split; assumption.
Qed.

Lemma collect_metadata_sound (names : list string) (w : World) :
  exists wallets w',
    storage.collect_metadata ss names w = (Ok wallets, w')
    /\ kv w' = kv w /\ heap w' = heap w
    /\ (List.length wallets <= List.length names)%nat
    /\ Forall (fun wal =>
                 exists name, In name names
                              /\ stored_metadata (kv w) (strings.TrimSuffix name "/") wal)
         wallets
    /\ (forall ev, In ev (trace w') ->
                   In ev (trace w) \/ exists key, ev = EvBackend (OpGet key)).
Proof.
  revert w. induction names as [|name rest IH]; intros w.
  - exists [], w. cbn. repeat split; auto.
  - cbn [storage.collect_metadata].
    destruct (GetWalletMetadata_shape (strings.TrimSuffix name "/") w)
      as (Hkv & Hheap & Htrace & Hres).
    destruct (storage.GetWalletMetadata ss (strings.TrimSuffix name "/") w)
      as [[wal|err|msg] w1]; cbn [fst snd] in *; [| |contradiction].
    + destruct (IH w1) as (wallets & w' & -> & Hkv' & Hheap' & Hlen & Hall & Htr).
      exists (wal :: wallets), w'. split; [reflexivity|].
      split; [congruence|]. split; [congruence|].
      split; [cbn; lia|]. split.
      * constructor.
        -- exists name. split; [left; reflexivity | exact Hres].
        -- eapply Forall_impl; [|exact Hall].
           intros a (n & Hn & Hst). exists n. split; [right; exact Hn|].
           rewrite <- Hkv. exact Hst.
      * intros ev Hin. destruct (Htr ev Hin) as [H|H]; [apply Htrace, H | right; exact H].
    + destruct (IH w1) as (wallets & w' & -> & Hkv' & Hheap' & Hlen & Hall & Htr).
      exists wallets, w'. split; [reflexivity|].
      split; [congruence|]. split; [congruence|].
      split; [cbn; lia|]. split.
      * eapply Forall_impl; [|exact Hall].
        intros a (n & Hn & Hst). exists n. split; [right; exact Hn|].
        rewrite <- Hkv. exact Hst.
      * intros ev Hin. destruct (Htr ev Hin) as [H|H]; [apply Htrace, H | right; exact H].
Qed.

(** X13: [ListWalletsWithMetadata] fails exactly when [ListWallets] does,
    with the same outcome.  Otherwise it returns at most one wallet per
    listed name; every wallet returned is the metadata of the record stored
    under a listed name (trailing slash removed), with an empty mnemonic and
    no private key; a name whose record cannot be read is left out and is no
    error; the store is unchanged and nothing is decrypted. *)
Theorem ListWalletsWithMetadata_sound (offset limit : Z) (w : World) :
  match storage.ListWallets ss offset limit w with
  | (Ok names, w0) =>
      exists wallets w',
        storage.ListWalletsWithMetadata ss offset limit w = (Ok wallets, w')
        /\ (List.length wallets <= List.length names)%nat
        /\ Forall (fun wal =>
                     (exists name,
                        In name names
                        /\ stored_metadata (kv w) (strings.TrimSuffix name "/") wal)
                     /\ Mnemonic wal = "" /\ PrivateKey wal = [])
             wallets
        /\ kv w' = kv w
        /\ (In EvOpen (trace w') -> In EvOpen (trace w))
  | (Err e, w0) => storage.ListWalletsWithMetadata ss offset limit w = (Err e, w0)
  | (Panic msg, w0) => storage.ListWalletsWithMetadata ss offset limit w = (Panic msg, w0)
  end.
Proof.
  unfold storage.ListWalletsWithMetadata, bind.
  pose proof (storage_ListWallets_world offset limit w) as Hworld.
  destruct (storage.ListWallets ss offset limit w) as [[names|e|msg] w0];
    cbn [snd] in Hworld; [|reflexivity|reflexivity].
  destruct (collect_metadata_sound names w0)
    as (wallets & w' & Hrun & Hkv & _ & Hlen & Hall & Htr).
  exists wallets, w'. split; [exact Hrun|]. split; [exact Hlen|].
  subst w0. cbn [kv log trace] in *. split; [|split; [exact Hkv|]].
  - eapply Forall_impl; [|exact Hall].
    intros wal (name & Hin & Hst). split; [exists name; split; assumption|].
    destruct Hst as (value & e & _ & _ & ->). split; reflexivity.
  - intros Hin. destruct (Htr _ Hin) as [[Heq|H]|[key Heq]];
      [discriminate | exact H | discriminate].
Qed.

(** X14: consecutive pages of [ListWallets] partition the listing.  With a
    non-negative offset, a positive limit whose sum with the offset fits an
    int, and a backend that answers, the page at [offset] followed by
    everything from [offset + limit] on is everything from [offset] on, and
    the page holds at most [limit] names. *)
Theorem storage_ListWallets_pages_join (offset limit : Z) (w : World) :
  backend_fault (clock w) (OpList "wallets/") = None ->
  (0 <= offset)%Z -> (0 < limit)%Z -> (offset + limit <= goint.MaxInt)%Z ->
  exists page rest,
    fst (storage.ListWallets ss offset limit w) = Ok page
    /\ fst (storage.ListWallets ss (offset + limit) 0 w) = Ok rest
    /\ fst (storage.ListWallets ss offset 0 w) = Ok (page ++ rest)%list
    /\ (Z.of_nat (List.length page) <= limit)%Z.
Proof.
  intros Hfault Ho Hl Hsum.
  rewrite (storage_ListWallets_page ss w Hfault Ho (Z.lt_le_incl _ _ Hl) Hsum).
  rewrite (@storage_ListWallets_page _ ss (offset + limit) 0 w Hfault) by lia.
  rewrite (@storage_ListWallets_page _ ss offset 0 w Hfault) by (unfold goint.MaxInt in *; lia).
  cbv zeta.
  set (keys := kvstore.list_prefix "wallets/" (kv w)).
  assert (HN : goint.len keys = Z.of_nat (List.length keys)) by reflexivity.
  set (N := goint.len keys) in *.
  replace (limit <=? 0)%Z with false by (symmetry; apply Z.leb_gt; exact Hl).
  rewrite Z.leb_refl.
  eexists. eexists. split; [reflexivity|]. split; [reflexivity|].
  destruct (Z.geb_spec offset N) as [Hge|Hlt].
  - replace (offset + limit >=? N)%Z with true by (symmetry; apply Z.geb_le; lia).
    split; [reflexivity | cbn; lia].
  - destruct (Z.geb_spec (offset + limit) N) as [Hge'|Hlt'].
    + rewrite Z.min_r by lia. rewrite app_nil_r. split.
      * f_equal. symmetry. apply firstn_all2. rewrite length_skipn. lia.
      * rewrite length_firstn, length_skipn. lia.
    + rewrite Z.min_l by lia. split.
      * f_equal.
        replace (Z.to_nat (offset + limit)) with (Z.to_nat limit + Z.to_nat offset)%nat
          by lia.
        rewrite <- skipn_skipn.
        replace (Z.to_nat (offset + limit - offset)) with (Z.to_nat limit) by lia.
        symmetry. apply firstn_skipn.
      * rewrite length_firstn. lia.
Qed.

End Listing.

Lemma storage_ListWallets_pages_join_witness :
  exists page rest,
    fst (@storage.ListWallets fake.env fake.ss 0 1 fake.two_wallets) = Ok page
    /\ fst (@storage.ListWallets fake.env fake.ss (0 + 1) 0 fake.two_wallets) = Ok rest
    /\ fst (@storage.ListWallets fake.env fake.ss 0 0 fake.two_wallets)
       = Ok (page ++ rest)%list
    /\ (Z.of_nat (List.length page) <= 1)%Z.
Proof.
  apply (@storage_ListWallets_pages_join fake.env fake.ss 0 1 fake.two_wallets).
  - reflexivity.
  - lia.
  - lia.
  - unfold goint.MaxInt. lia.
Defined.

(** ** What is written, and when *)

Section Frames.
Context {env : Env}.

Lemma keeps_ret {A} (a : A) : keeps_kv (ret a).
Proof. intros w. reflexivity. Qed.

Lemma keeps_fail {A} (e : error) : keeps_kv (@fail A e).
Proof. intros w. reflexivity. Qed.

Lemma keeps_lift {A} (r : result A) : keeps_kv (lift r).
Proof. intros w. reflexivity. Qed.

Lemma keeps_bind {A B} (m : M A) (h : error -> error) (k : A -> M B) :
  keeps_kv m -> (forall a, keeps_kv (k a)) -> keeps_kv (bind m h k).
Proof.
  intros Hm Hk w. unfold bind. specialize (Hm w).
  destruct (m w) as [[a|e|msg] w']; cbn [snd] in *; [|exact Hm|exact Hm].
  rewrite Hk. exact Hm.
Qed.

Lemma keeps_defer {A} (cleanup : World -> World) (body : M A) :
  keeps_kv body -> (forall w, kv (cleanup w) = kv w) -> keeps_kv (defer cleanup body).
Proof.
  intros Hb Hc w. unfold defer. specialize (Hb w).
  destruct (body w) as [r w']; cbn [snd] in *. rewrite Hc. exact Hb.
Qed.

Lemma keeps_storage_Get (key : string) : keeps_kv (storage_Get key).
Proof.
  intros w. unfold storage_Get, backend_call. destruct (backend_fault _ _); reflexivity.
Qed.

Lemma keeps_storage_List (prefix : string) : keeps_kv (storage_List prefix).
Proof.
  intros w. unfold storage_List, backend_call. destruct (backend_fault _ _); reflexivity.
Qed.

Lemma keeps_rand_ReadFull (n : nat) : keeps_kv (rand_ReadFull n).
Proof. intros w. unfold rand_ReadFull. destruct (rand_fault _); reflexivity. Qed.

Lemma keeps_Now : keeps_kv Now.
Proof. intros w. reflexivity. Qed.

Lemma keeps_native {A} (ev : event) (oracle : nat -> A) :
  keeps_kv (wallet.native ev oracle).
Proof. intros w. reflexivity. Qed.

Lemma keeps_Seal (key nonce plaintext : list byte) :
  keeps_kv (storage.Seal key nonce plaintext).
Proof. intros w. reflexivity. Qed.

Lemma keeps_Open (key nonce sealed : list byte) : keeps_kv (storage.Open key nonce sealed).
Proof. intros w. reflexivity. Qed.

Lemma keeps_alloc (wal : Wallet) : keeps_kv (mem.alloc wal).
Proof. intros w. reflexivity. Qed.

Lemma keeps_deref (p : nat) : keeps_kv (service.deref p).
Proof. intros w. unfold service.deref. destruct (mem.load p w); reflexivity. Qed.

Create HintDb frame.

#[local] Hint Resolve keeps_ret keeps_fail keeps_lift keeps_storage_Get
  keeps_storage_List keeps_rand_ReadFull keeps_Now keeps_native keeps_Seal keeps_Open
  keeps_alloc keeps_deref : frame.

(** Walks a function body made of sequenced calls, conditionals and
    deferred clean-ups. *)
Ltac frame :=
  repeat first
    [ solve [auto with frame]
    | progress cbv zeta
    | apply keeps_bind; [|intro]
    | apply keeps_defer; [|intro; reflexivity]
    | match goal with
      | |- keeps_kv (if ?b then _ else _) => destruct b
      | |- keeps_kv (match ?x with _ => _ end) => destruct x
      end ].

Lemma keeps_encrypt (ss : storage.StorageService) (x : list byte) :
  keeps_kv (storage.encrypt ss x).
Proof. unfold storage.encrypt. frame. Qed.

Lemma keeps_decrypt (ss : storage.StorageService) (blob : string) :
  keeps_kv (storage.decrypt ss blob).
Proof. unfold storage.decrypt. frame. Qed.

#[local] Hint Resolve keeps_encrypt keeps_decrypt : frame.

Lemma keeps_encryptWallet (ss : storage.StorageService) (wal : Wallet) :
  keeps_kv (storage.encryptWallet ss wal).
Proof. unfold storage.encryptWallet. frame. Qed.

Lemma keeps_decryptWallet (ss : storage.StorageService) (e : encryptedWallet) :
  keeps_kv (storage.decryptWallet ss e).
Proof. unfold storage.decryptWallet. frame. Qed.

#[local] Hint Resolve keeps_encryptWallet keeps_decryptWallet : frame.

Lemma keeps_storage_GetWallet (ss : storage.StorageService) (name : string) :
  keeps_kv (storage.GetWallet ss name).
Proof. unfold storage.GetWallet. frame. Qed.

Lemma keeps_GetWalletMetadata (ss : storage.StorageService) (name : string) :
  keeps_kv (storage.GetWalletMetadata ss name).
Proof. unfold storage.GetWalletMetadata. frame. Qed.

Lemma keeps_storage_ListWallets (ss : storage.StorageService) (offset limit : Z) :
  keeps_kv (storage.ListWallets ss offset limit).
Proof. unfold storage.ListWallets. frame. Qed.

Lemma keeps_wallet_GenerateWallet (coinType : Z) :
  keeps_kv (wallet.GenerateWallet coinType).
Proof. unfold wallet.GenerateWallet. frame. Qed.

Lemma keeps_wallet_ImportWallet (mnemonic : string) (coinType : Z) :
  keeps_kv (wallet.ImportWallet mnemonic coinType).
Proof. unfold wallet.ImportWallet. frame. Qed.

Lemma keeps_wallet_DeriveAddress (mnemonic : string) (coinType : Z) (path : string) :
  keeps_kv (wallet.DeriveAddress mnemonic coinType path).
Proof. unfold wallet.DeriveAddress. frame. Qed.

Lemma keeps_wallet_SignTransaction (key : list byte) (coinType : Z) (tx : list byte) :
  keeps_kv (wallet.SignTransaction key coinType tx).
Proof. unfold wallet.SignTransaction. frame. Qed.

#[local] Hint Resolve keeps_storage_GetWallet keeps_GetWalletMetadata
  keeps_storage_ListWallets keeps_wallet_GenerateWallet keeps_wallet_ImportWallet
  keeps_wallet_DeriveAddress keeps_wallet_SignTransaction : frame.

Lemma keeps_service_GetWallet (ws : service.WalletService) (name : string) :
  keeps_kv (service.GetWallet ws name).
Proof. unfold service.GetWallet. frame. Qed.

Lemma keeps_service_ListWallets (ws : service.WalletService) (offset limit : Z) :
  keeps_kv (service.ListWallets ws offset limit).
Proof. unfold service.ListWallets. frame. Qed.

Lemma keeps_service_SignTransaction (ws : service.WalletService) (name : string)
  (tx : list byte) :
  keeps_kv (service.SignTransaction ws name tx).
Proof. unfold service.SignTransaction. frame. Qed.

Lemma keeps_service_GetAddress (ws : service.WalletService) (name : string)
  (coinType : Z) (path : string) :
  keeps_kv (service.GetAddress ws name coinType path).
Proof. unfold service.GetAddress. frame. Qed.

Lemma keeps_handleError (err : error) : keeps_kv (backend.handleError err).
Proof. unfold backend.handleError. frame. Qed.

#[local] Hint Resolve keeps_service_GetWallet keeps_service_ListWallets
  keeps_service_SignTransaction keeps_service_GetAddress keeps_handleError : frame.

(** A handler's last step: the lifecycle manager's answer becomes a
    response, an error goes through [handleError]. *)
Lemma keeps_respond {A} (m : M A) (answer : A -> backend.Response) :
  keeps_kv m ->
  keeps_kv (fun w =>
              match m w with
              | (Ok a, w') => (Ok (answer a), w')
              | (Err err, w') => backend.handleError err w'
              | (Panic msg, w') => (Panic msg, w')
              end).
Proof.
  intros Hm w. specialize (Hm w).
  destruct (m w) as [[a|err|msg] w']; cbn [snd] in *; try exact Hm.
  rewrite keeps_handleError. exact Hm.
Qed.

(** A failed [StoreWallet] has written nothing. *)
Lemma StoreWallet_failure_writes_nothing (ss : storage.StorageService)
  (wal : option Wallet) (w : World) :
  match fst (storage.StoreWallet ss wal w) with
  | Ok _ => True
  | Err _ | Panic _ => kv (snd (storage.StoreWallet ss wal w)) = kv w
  end.
Proof.
  remember (storage.StoreWallet ss wal w) as out eqn:Hout.
  destruct wal as [wal|]; [|subst out; reflexivity].
  unfold storage.StoreWallet in Hout.
  unfold bind at 1 in Hout.
  pose proof (keeps_storage_Get ("wallets/" ++ Name wal) w) as H0.
  destruct (storage_Get _ w) as [[[v|]|e|m] w0]; cbn [fst snd] in *;
    [subst out; exact H0| |subst out; exact H0|subst out; exact H0].
  unfold bind at 1 in Hout.
  pose proof (keeps_encryptWallet ss wal w0) as H1.
  destruct (storage.encryptWallet ss wal w0) as [[enc|e|m] w1]; cbn [fst snd] in *;
    [|subst out; cbn; congruence|subst out; cbn; congruence].
  unfold bind at 1 in Hout. unfold lift in Hout.
  destruct (of_lib (json_Marshal enc)) as [entry|e|m];
    [|subst out; cbn; congruence|subst out; cbn; congruence].
  unfold bind, storage_Put, backend_call, ret in Hout.
  destruct (backend_fault _ _); subst out; cbn [fst snd kv log]; [congruence | exact I].
Qed.

(** A failed [DeleteWallet] has removed nothing. *)
Lemma DeleteWallet_failure_removes_nothing (ss : storage.StorageService)
  (name : string) (w : World) :
  match fst (storage.DeleteWallet ss name w) with
  | Ok _ => True
  | Err _ | Panic _ => kv (snd (storage.DeleteWallet ss name w)) = kv w
  end.
Proof.
  remember (storage.DeleteWallet ss name w) as out eqn:Hout.
  unfold storage.DeleteWallet in Hout.
  destruct (String.eqb name ""); [subst out; reflexivity|].
  unfold bind at 1 in Hout.
  pose proof (keeps_storage_Get ("wallets/" ++ name) w) as H0.
  destruct (storage_Get _ w) as [[[v|]|e|m] w0]; cbn [fst snd] in *;
    [|subst out; exact H0|subst out; exact H0|subst out; exact H0].
  unfold bind, storage_Delete, backend_call, ret in Hout.
  destruct (backend_fault _ _); subst out; cbn [fst snd kv log]; [congruence | exact I].
Qed.

Lemma keeps_collect_metadata (ss : storage.StorageService) (names : list string) :
  keeps_kv (storage.collect_metadata ss names).
Proof.
  intros w. destruct (collect_metadata_sound ss names w) as (wallets & w' & -> & Hkv & _).
  exact Hkv.
Qed.

Lemma keeps_ListWalletsWithMetadata (ss : storage.StorageService) (offset limit : Z) :
  keeps_kv (storage.ListWalletsWithMetadata ss offset limit).
Proof.
  unfold storage.ListWalletsWithMetadata. apply keeps_bind; [auto with frame|].
  intros names. apply keeps_collect_metadata.
Qed.

(** The handlers of the four operations that only read. *)
Lemma keeps_read_handlers (op : backend.operation) (b : backend.TrustVaultBackend)
  (data : backend.FieldData) :
  op <> backend.OpCreateImport -> op <> backend.OpDeleteWallet ->
  keeps_kv (backend.handle op b data).
Proof.
  intros Hc Hd. destruct op; try congruence; cbn [backend.handle].
  - unfold backend.handleWalletRead. cbv zeta.
    destruct (backend.validateWalletName _); [apply keeps_ret|].
    apply (@keeps_respond _ (service.GetWallet _ _) _). auto with frame.
  - unfold backend.handleWalletList. cbv zeta.
    destruct (Z.ltb _ 0); [apply keeps_ret|].
    destruct (Z.ltb _ 0); [apply keeps_ret|].
    apply (@keeps_respond _ (service.ListWallets _ _ _) _). auto with frame.
  - unfold backend.handleWalletSign.
    destruct (backend.sign_request data) as [resp|[name tx]]; [apply keeps_ret|].
    apply (@keeps_respond _ (service.SignTransaction _ _ _) _). auto with frame.
  - unfold backend.handleWalletAddress. cbv zeta.
    destruct (backend.validateWalletName _); [apply keeps_ret|].
    destruct (String.eqb _ ""); [apply keeps_ret|].
    destruct (scan_uint32 _) as [coinType|]; [|apply keeps_ret].
    destruct (backend.validateCoinType _); [apply keeps_ret|].
    destruct (if negb _ then _ else _); [apply keeps_ret|].
    apply (@keeps_respond _ (service.GetAddress _ _ _ _) _). auto with frame.
Qed.

(** X15: the reading functions never write.  In the credential store
    [GetWallet], [GetWalletMetadata], [ListWallets] and
    [ListWalletsWithMetadata], in the lifecycle manager [GetWallet],
    [ListWallets], [SignTransaction] and [GetAddress], and the four calls of
    the signing wrapper leave the backend's contents exactly as they were,
    whatever their arguments and whatever the collaborators answer. *)
Theorem reading_functions_keep_the_store :
  (forall ss name, keeps_kv (storage.GetWallet ss name))
  /\ (forall ss name, keeps_kv (storage.GetWalletMetadata ss name))
  /\ (forall ss offset limit, keeps_kv (storage.ListWallets ss offset limit))
  /\ (forall ss offset limit, keeps_kv (storage.ListWalletsWithMetadata ss offset limit))
  /\ (forall ws name, keeps_kv (service.GetWallet ws name))
  /\ (forall ws offset limit, keeps_kv (service.ListWallets ws offset limit))
  /\ (forall ws name tx, keeps_kv (service.SignTransaction ws name tx))
  /\ (forall ws name coinType path, keeps_kv (service.GetAddress ws name coinType path))
  /\ (forall coinType, keeps_kv (wallet.GenerateWallet coinType))
  /\ (forall mnemonic coinType, keeps_kv (wallet.ImportWallet mnemonic coinType))
  /\ (forall mnemonic coinType path,
        keeps_kv (wallet.DeriveAddress mnemonic coinType path))
  /\ (forall key coinType tx, keeps_kv (wallet.SignTransaction key coinType tx)).
Proof.
  repeat split; intros;
    first [ apply keeps_ListWalletsWithMetadata | auto with frame ].
Qed.

(** X16: a request changes the store only when it succeeds.  Whatever the
    operation, the request and the collaborators' answers, either the
    backend's contents are what they were before the request, or the
    operation is create/import or delete and the response is a success (it
    has no [error] field). *)
Theorem store_changes_only_on_success (op : backend.operation)
  (b : backend.TrustVaultBackend) (data : backend.FieldData) (w : World) :
  kv (snd (backend.handle op b data w)) = kv w
  \/ ((op = backend.OpCreateImport \/ op = backend.OpDeleteWallet)
      /\ exists resp,
           fst (backend.handle op b data w) = Ok resp
           /\ ~ In "error" (backend.fields resp)).
Proof.
  destruct op.
  - cbn [backend.handle]. unfold backend.handleWalletCreate. cbv zeta.
    destruct (backend.validateWalletName _) eqn:Hname; [left; reflexivity|].
    destruct (backend.getok_int _ _); [|left; reflexivity].
    destruct (backend.validateCoinType _); [left; reflexivity|].
    assert (Hne : String.eqb (backend.get_string data "name") "" = false).
    { unfold backend.validateWalletName in Hname.
      destruct (String.eqb _ ""); [discriminate | reflexivity]. }
    rewrite CreateWallet_unfold by exact Hne.
    pose proof (provider_keys_kv (goint.to_uint32 z) (backend.get_string data "mnemonic") w)
      as Hp.
    destruct (provider_keys _ _ w) as [[keys|err|m] w1]; cbn [snd] in Hp.
    + cbv zeta.
      match goal with
      | |- context [storage.StoreWallet ?s ?o ?x] =>
          pose proof (StoreWallet_failure_writes_nothing s o x) as Hs;
          destruct (storage.StoreWallet s o x) as [[u|err|m] w2]
      end; cbn [fst snd kv log] in *.
      * right. split; [left; reflexivity|]. eexists. split; [reflexivity|].
        cbn. intuition discriminate.
      * left. rewrite keeps_handleError. congruence.
      * left. congruence.
    + left. rewrite keeps_handleError. exact Hp.
    + left. exact Hp.
  - left. apply keeps_read_handlers; discriminate.
  - cbn [backend.handle]. unfold backend.handleWalletDelete. cbv zeta.
    destruct (backend.validateWalletName _); [left; reflexivity|].
    unfold service.DeleteWallet.
    destruct (String.eqb _ ""); [left; reflexivity|].
    unfold bind, ret.
    match goal with
    | |- context [storage.DeleteWallet ?s ?n ?x] =>
        pose proof (DeleteWallet_failure_removes_nothing s n x) as Hs;
        destruct (storage.DeleteWallet s n x) as [[u|err|m] w2]
    end; cbn [fst snd] in *.
    + right. split; [right; reflexivity|]. eexists. split; [reflexivity|].
      cbn. intuition discriminate.
    + left. rewrite keeps_handleError. exact Hs.
    + left. exact Hs.
  - left. apply keeps_read_handlers; discriminate.
  - left. apply keeps_read_handlers; discriminate.
  - left. apply keeps_read_handlers; discriminate.
Qed.

End Frames.

(** ** Requests, end to end *)

Section Requests.
Context {env : Env}.
Variable b : backend.TrustVaultBackend.

Lemma validateWalletName_nonempty (name : string) :
  backend.validateWalletName name = None -> String.eqb name "" = false.
Proof.
  unfold backend.validateWalletName. destruct (String.eqb name ""); [discriminate|].
  reflexivity.
Qed.

Lemma sign_request_inr (data : backend.FieldData) (name : string) (tx : list byte) :
  backend.sign_request data = inr (name, tx) ->
  String.eqb name "" = false /\ (goint.len tx =? 0)%Z = false.
Proof.
  unfold backend.sign_request. cbv zeta.
  destruct (backend.validateWalletName _) eqn:Hname; [discriminate|].
  destruct (String.eqb (backend.get_string data "tx_data") ""); [discriminate|].
  destruct (Z.gtb _ _); [discriminate|].
  destruct (base64.DecodeString _) as [txData|e|m]; try discriminate.
  destruct (Z.eqb (goint.len txData) 0) eqn:Hlen; [discriminate|].
  intros H. injection H as <- <-.
  split; [apply validateWalletName_nonempty, Hname | exact Hlen].
Qed.

Lemma reliable_from_later (c c' : nat) :
  reliable_from c -> (c <= c')%nat -> reliable_from c'.
Proof. intros H Hle c'' Hc. apply H. lia. Qed.

Lemma storage_DeleteWallet_run (ss : storage.StorageService) (name : string)
  (w : World) :
  String.eqb name "" = false ->
  storage.DeleteWallet ss name w
  = match backend_fault (clock w) (OpGet ("wallets/" ++ name)) with
    | Some msg =>
        (Err (wrapf "failed to check wallet existence: " (New msg)),
         log (EvBackend (OpGet ("wallets/" ++ name))) w)
    | None =>
        match kvstore.get ("wallets/" ++ name) (kv w) with
        | None =>
            (Err (Sentinel storage_ErrWalletNotFound),
             log (EvBackend (OpGet ("wallets/" ++ name))) w)
        | Some _ =>
            match backend_fault (S (clock w)) (OpDelete ("wallets/" ++ name)) with
            | Some msg =>
                (Err (wrapf "failed to delete wallet: " (New msg)),
                 log (EvBackend (OpDelete ("wallets/" ++ name)))
                   (log (EvBackend (OpGet ("wallets/" ++ name))) w))
            | None =>
                (Ok tt,
                 mkWorld (kvstore.delete ("wallets/" ++ name) (kv w)) (heap w)
                   (EvBackend (OpDelete ("wallets/" ++ name))
                    :: EvBackend (OpGet ("wallets/" ++ name)) :: trace w))
            end
        end
    end.
Proof.
  intros Hname. unfold storage.DeleteWallet. rewrite Hname.
  unfold bind at 1. unfold storage_Get, backend_call.
  destruct (backend_fault (clock w) _); [reflexivity|].
  cbn [kv log]. destruct (kvstore.get _ _); [|reflexivity].
  unfold bind, storage_Delete, backend_call, ret.
  change (clock (log _ w)) with (S (clock w)).
  destruct (backend_fault (S (clock w)) _); reflexivity.
Qed.

Lemma storage_GetWallet_missing (ss : storage.StorageService) (name : string)
  (w : World) :
  String.eqb name "" = false ->
  backend_fault (clock w) (OpGet ("wallets/" ++ name)) = None ->
  kvstore.get ("wallets/" ++ name) (kv w) = None ->
  storage.GetWallet ss name w
  = (Err (Sentinel storage_ErrWalletNotFound),
     log (EvBackend (OpGet ("wallets/" ++ name))) w).
Proof.
  intros Hname Hfault Hget. unfold storage.GetWallet. rewrite Hname.
  unfold bind, storage_Get, backend_call, fail. rewrite Hfault.
  cbn [kv log]. rewrite Hget. reflexivity.
Qed.

(** [GetWallet] of a record that was sealed under the service's key. *)
Lemma storage_GetWallet_sealed_run (ss : storage.StorageService) (name : string)
  (w : World) (value : list byte) (wal : Wallet) (n1 n2 : list byte) :
  String.eqb name "" = false ->
  backend_fault (clock w) (OpGet ("wallets/" ++ name)) = None ->
  kvstore.get ("wallets/" ++ name) (kv w) = Some value ->
  json_Unmarshal value = Done (sealed_record ss wal n1 n2) ->
  List.length n1 = storage.NonceSize -> List.length n2 = storage.NonceSize ->
  AEAD_correct env ->
  List.length (storage.encryptionKey ss) = 32%nat ->
  storage.GetWallet ss name w
  = (Ok (List.length (heap w)),
     mkWorld (kv w) (heap w ++ [wal])
       (EvOpen :: EvOpen :: EvBackend (OpGet ("wallets/" ++ name)) :: trace w)).
Proof.
  intros Hname Hfault Hget Hjson H1 H2 Haead Hkey.
  unfold storage.GetWallet. rewrite Hname.
  unfold bind at 1. unfold storage_Get, backend_call. rewrite Hfault.
  cbn [kv log]. rewrite Hget.
  unfold bind at 1. unfold lift. rewrite Hjson. cbn [of_lib].
  unfold bind at 1. rewrite decryptWallet_sealed_record by assumption.
  reflexivity.
Qed.

Lemma load_fresh (w : World) (wal : Wallet) (t : list event) :
  mem.load (List.length (heap w)) (mkWorld (kv w) (heap w ++ [wal]) t) = Some wal.
Proof.
  unfold mem.load. cbn [heap]. rewrite nth_error_app2, Nat.sub_diag by lia. reflexivity.
Qed.

Lemma wallet_SignTransaction_run (key : list byte) (coinType : Z) (tx sig : list byte)
  (w : World) :
  key <> [] -> (goint.len tx =? 0)%Z = false ->
  wallet.isValidCoinType coinType = true ->
  tw_Sign (clock w) key coinType tx = inl sig -> sig <> [] ->
  wallet.SignTransaction key coinType tx w = (Ok sig, log (EvSign coinType tx) w).
Proof.
  intros Hkey Htx Hcoin Hsign Hsig.
  unfold wallet.SignTransaction, bind, wallet.native, fail, ret.
  replace (goint.len key =? 0)%Z with false
    by (destruct key; [contradiction | reflexivity]).
  rewrite Htx, Hcoin. cbn [negb]. rewrite Hsign.
  replace (goint.len sig =? 0)%Z with false
    by (destruct sig; [contradiction | reflexivity]).
  reflexivity.
Qed.

Lemma wallet_DeriveAddress_run (mnemonic : string) (coinType : Z) (path address : string)
  (w : World) :
  mnemonic <> "" -> wallet.isValidCoinType coinType = true ->
  tw_DeriveAddress (clock w) mnemonic coinType path = inl address -> address <> "" ->
  wallet.DeriveAddress mnemonic coinType path w
  = (Ok address, log (EvDerive coinType path) w).
Proof.
  intros Hm Hcoin Hderive Ha.
  unfold wallet.DeriveAddress, bind, wallet.native, fail, ret.
  apply String.eqb_neq in Hm. apply String.eqb_neq in Ha.
  rewrite Hm, Hcoin. cbn [negb]. rewrite Hderive, Ha. reflexivity.
Qed.

Lemma handleError_err (err e : error) (w w' : World) :
  backend.handleError err w = (Err e, w') ->
  e = Wrap "internal error: " err "" /\ w' = w
  /\ forall s, In s answered -> Is err s = false.
Proof.
  unfold backend.handleError, ret, fail.
  destruct (Is err service_ErrWalletNotFound) eqn:H1; [discriminate|].
  destruct (Is err storage_ErrWalletNotFound) eqn:H2; [discriminate|].
  destruct (Is err service_ErrWalletExists) eqn:H3; [discriminate|].
  destruct (Is err storage_ErrWalletExists) eqn:H4; [discriminate|].
  destruct (Is err service_ErrInvalidCoinType) eqn:H5; [discriminate|].
  destruct (Is err service_ErrInvalidMnemonic) eqn:H6; [discriminate|].
  destruct (Is err service_ErrInvalidTxData) eqn:H7; [discriminate|].
  destruct (Is err service_ErrSigningFailed) eqn:H8; [discriminate|].
  destruct (Is err service_ErrInvalidWalletName) eqn:H9; [discriminate|].
  cbn [orb]. intros H. injection H as <- <-.
  split; [reflexivity|]. split; [reflexivity|].
  intros s Hin. unfold answered in Hin. cbn [In] in Hin.
  repeat (destruct Hin as [<-|Hin]; [assumption|]). contradiction.
Qed.

(** X17: a wallet name that fails validation ends the request at once.  For
    the five operations that take a name, the answer is an error response
    with the validation message and the world is untouched: no backend
    call, no provider call, nothing logged. *)
Theorem invalid_name_answered_at_once (op : backend.operation)
  (data : backend.FieldData) (w : World) (err : error) :
  op <> backend.OpListWallets ->
  backend.validateWalletName (backend.get_string data "name") = Some err ->
  backend.handle op b data w = (Ok (backend.ErrorResponse (Error err)), w).
Proof.
  intros Hop Hname. destruct op; try congruence; cbn [backend.handle].
  - unfold backend.handleWalletCreate. cbv zeta. rewrite Hname. reflexivity.
  - unfold backend.handleWalletRead. cbv zeta. rewrite Hname. reflexivity.
  - unfold backend.handleWalletDelete. cbv zeta. rewrite Hname. reflexivity.
  - unfold backend.handleWalletSign, backend.sign_request. cbv zeta.
    rewrite Hname. reflexivity.
  - unfold backend.handleWalletAddress. cbv zeta. rewrite Hname. reflexivity.
Qed.

(** X18: a handler returns a Go error only for what [handleError] does not
    recognise.  Whatever the operation and the request, an error result is
    ["internal error: "] wrapped around an error that is none of the nine
    sentinels [handleError] answers with a response; every validation
    failure and every recognised failure is a response instead. *)
Theorem handler_errors_are_internal (op : backend.operation)
  (data : backend.FieldData) (w w' : World) (e : error) :
  backend.handle op b data w = (Err e, w') ->
  exists inner,
    e = Wrap "internal error: " inner ""
    /\ forall s, In s answered -> Is inner s = false.
Proof.
  assert (Hrespond :
            forall A (m : M A) (answer : A -> backend.Response),
              (match m w with
               | (Ok a, w1) => (Ok (answer a), w1)
               | (Err err, w1) => backend.handleError err w1
               | (Panic msg, w1) => (Panic msg, w1)
               end) = (Err e, w') ->
              exists inner,
                e = Wrap "internal error: " inner ""
                /\ forall s, In s answered -> Is inner s = false).
  { intros A m answer H.
    destruct (m w) as [[a|err|msg] w1]; try discriminate.
    destruct (handleError_err _ _ H) as (-> & _ & Hs).
    exists err. split; [reflexivity | exact Hs]. }
  destruct op; cbn [backend.handle].
  - unfold backend.handleWalletCreate. cbv zeta.
    destruct (backend.validateWalletName _); [discriminate|].
    destruct (backend.getok_int _ _); [|discriminate].
    destruct (backend.validateCoinType _); [discriminate|].
    apply Hrespond.
  - unfold backend.handleWalletRead. cbv zeta.
    destruct (backend.validateWalletName _); [discriminate|].
    apply Hrespond.
  - unfold backend.handleWalletDelete. cbv zeta.
    destruct (backend.validateWalletName _); [discriminate|].
    apply (Hrespond _ _ (fun _ => backend.mkResponse [("deleted", backend.VBool true)])).
  - unfold backend.handleWalletList. cbv zeta.
    destruct (Z.ltb _ 0); [discriminate|].
    destruct (Z.ltb _ 0); [discriminate|].
    apply Hrespond.
  - unfold backend.handleWalletSign.
    destruct (backend.sign_request data) as [resp|[name tx]]; [discriminate|].
    apply Hrespond.
  - unfold backend.handleWalletAddress. cbv zeta.
    destruct (backend.validateWalletName _); [discriminate|].
    destruct (String.eqb _ ""); [discriminate|].
    destruct (scan_uint32 _) as [coinType|]; [|discriminate].
    destruct (backend.validateCoinType _); [discriminate|].
    destruct (if negb _ then _ else _); [discriminate|].
    apply Hrespond.
Qed.

(** X19: a wallet that is not stored is "not found" everywhere.  With a
    non-empty name under which nothing is stored and a backend that answers
    the read, the lifecycle manager's read, delete, sign and derive-address
    all fail with [ErrWalletNotFound] after that one read, so without any
    provider call and without any write; [handleError] turns the error into
    the 404 response, and so the read and delete handlers answer 404 for a
    valid name. *)
Theorem missing_wallet_is_not_found (name : string) (w : World) :
  name <> "" ->
  kvstore.get ("wallets/" ++ name) (kv w) = None ->
  backend_fault (clock w) (OpGet ("wallets/" ++ name)) = None ->
  let ws := backend.walletService b in
  let w1 := log (EvBackend (OpGet ("wallets/" ++ name))) w in
  service.GetWallet ws name w = (Err (Sentinel service_ErrWalletNotFound), w1)
  /\ service.DeleteWallet ws name w = (Err (Sentinel service_ErrWalletNotFound), w1)
  /\ (forall tx, tx <> [] ->
        service.SignTransaction ws name tx w
        = (Err (Sentinel service_ErrWalletNotFound), w1))
  /\ (forall coinType path,
        service.GetAddress ws name coinType path w
        = (Err (Sentinel service_ErrWalletNotFound), w1))
  /\ backend.handleError (Sentinel service_ErrWalletNotFound) w1
     = (Ok not_found_response, w1)
  /\ (forall data,
        backend.get_string data "name" = name ->
        backend.validateWalletName name = None ->
        backend.handle backend.OpRead b data w = (Ok not_found_response, w1)
        /\ backend.handle backend.OpDeleteWallet b data w = (Ok not_found_response, w1)).
Proof.
  intros Hne Hget Hfault ws w1. apply String.eqb_neq in Hne.
  assert (Hread : service.GetWallet ws name w
                  = (Err (Sentinel service_ErrWalletNotFound), w1)).
  { unfold service.GetWallet. rewrite Hne. unfold bind.
    rewrite GetWalletMetadata_run by exact Hne. rewrite Hfault, Hget. reflexivity. }
  assert (Hdelete : service.DeleteWallet ws name w
                    = (Err (Sentinel service_ErrWalletNotFound), w1)).
  { unfold service.DeleteWallet. rewrite Hne. unfold bind.
    rewrite storage_DeleteWallet_run by exact Hne. rewrite Hfault, Hget. reflexivity. }
  split; [exact Hread|]. split; [exact Hdelete|]. split; [|split; [|split]].
  - intros tx Htx. unfold service.SignTransaction. rewrite Hne.
    replace (goint.len tx =? 0)%Z with false
      by (destruct tx; [contradiction | reflexivity]).
    unfold bind at 1.
    rewrite storage_GetWallet_missing by assumption. reflexivity.
  - intros coinType path. unfold service.GetAddress. rewrite Hne.
    unfold bind at 1.
    rewrite storage_GetWallet_missing by assumption. reflexivity.
  - reflexivity.
  - intros data Hdata Hvalid. cbn [backend.handle].
    unfold backend.handleWalletRead, backend.handleWalletDelete. cbv zeta.
    rewrite Hdata, Hvalid. fold ws. rewrite Hread, Hdelete. split; reflexivity.
Qed.

(** X20: deleting through the router.  For a valid name with a stored
    record and a backend that does not fail, the delete handler answers
    [deleted: true], afterwards nothing is stored under the name while every
    other key keeps its value, and a read of the same name is then answered
    with the 404 response. *)
Theorem handleWalletDelete_then_read (data : backend.FieldData) (w : World)
  (value : list byte) :
  let name := backend.get_string data "name" in
  backend.validateWalletName name = None ->
  kvstore.get ("wallets/" ++ name) (kv w) = Some value ->
  reliable_from (clock w) ->
  exists w1,
    backend.handle backend.OpDeleteWallet b data w
    = (Ok (backend.mkResponse [("deleted", backend.VBool true)]), w1)
    /\ kvstore.get ("wallets/" ++ name) (kv w1) = None
    /\ (forall k, k <> "wallets/" ++ name -> kvstore.get k (kv w1) = kvstore.get k (kv w))
    /\ fst (backend.handle backend.OpRead b data w1) = Ok not_found_response.
Proof.
  intros name Hvalid Hget Hrel.
  pose proof (validateWalletName_nonempty _ Hvalid) as Hne.
  destruct (Hrel (clock w) (Nat.le_refl _)) as [Hb0 _].
  destruct (Hrel (1 + clock w)%nat ltac:(lia)) as [Hb1 _].
  destruct (Hrel (2 + clock w)%nat ltac:(lia)) as [Hb2 _].
  eexists. split; [|split; [|split]].
  - cbn [backend.handle]. unfold backend.handleWalletDelete. cbv zeta.
    fold name. rewrite Hvalid.
    unfold service.DeleteWallet. rewrite Hne. unfold bind, ret.
    rewrite storage_DeleteWallet_run by exact Hne.
    rewrite Hb0, Hget. change (S (clock w)) with (1 + clock w)%nat. rewrite Hb1.
    reflexivity.
  - cbn [kv]. apply kvstore_get_delete.
  - intros k Hk. cbn [kv]. apply kvstore_get_delete_other, Hk.
  - cbn [backend.handle]. unfold backend.handleWalletRead. cbv zeta.
    fold name. rewrite Hvalid.
    unfold service.GetWallet. rewrite Hne. unfold bind.
    rewrite GetWalletMetadata_run by exact Hne.
    change (clock _) with (2 + clock w)%nat. rewrite Hb2.
    cbn [kv]. rewrite kvstore_get_delete. reflexivity.
Qed.

(** X21: signing through the router.  For a request that passes the
    handler's checks, naming a wallet whose stored record is the wallet
    sealed under the service's key, the response's [signed_tx] is the
    base64 text of exactly what the provider signed with the stored private
    key and coin type over the decoded transaction; the store is unchanged,
    and the decrypted copy left in memory has its key zeroed and its
    mnemonic cleared. *)
Theorem handleWalletSign_signs_with_stored_key (data : backend.FieldData) (w : World)
  (name : string) (tx value : list byte) (wal : Wallet) (n1 n2 sig : list byte) :
  let ss := service.storage (backend.walletService b) in
  backend.sign_request data = inr (name, tx) ->
  backend_fault (clock w) (OpGet ("wallets/" ++ name)) = None ->
  kvstore.get ("wallets/" ++ name) (kv w) = Some value ->
  json_Unmarshal value = Done (sealed_record ss wal n1 n2) ->
  List.length n1 = storage.NonceSize -> List.length n2 = storage.NonceSize ->
  AEAD_correct env ->
  List.length (storage.encryptionKey ss) = 32%nat ->
  PrivateKey wal <> [] ->
  wallet.isValidCoinType (CoinType wal) = true ->
  tw_Sign (3 + clock w) (PrivateKey wal) (CoinType wal) tx = inl sig ->
  sig <> [] ->
  exists signed w',
    backend.handleWalletSign b data w
    = (Ok (backend.mkResponse [("signed_tx", backend.VString signed)]), w')
    /\ base64.DecodeString signed = Ok sig
    /\ kv w' = kv w
    /\ mem.load (List.length (heap w)) w'
       = Some (service.clearMnemonic (service.zeroPrivateKey wal)).
Proof.
  intros ss Hreq Hfault Hget Hjson H1 H2 Haead Hkey Hpk Hcoin Hsign Hsig.
  destruct (sign_request_inr _ Hreq) as [Hne Htx].
  exists (base64.EncodeToString sig). eexists.
  split; [|split; [apply base64_facts.DecodeString_EncodeToString|]].
  - unfold backend.handleWalletSign. rewrite Hreq.
    unfold service.SignTransaction. rewrite Hne, Htx.
    unfold bind at 1. fold ss.
    rewrite (@storage_GetWallet_sealed_run ss name w value wal n1 n2 Hne Hfault Hget Hjson
               H1 H2 Haead Hkey).
    unfold defer, bind at 1. unfold service.deref. rewrite load_fresh.
    unfold bind, ret.
    match goal with
    | |- context [wallet.SignTransaction ?k ?c ?t ?x] =>
        rewrite (@wallet_SignTransaction_run k c t sig x Hpk Htx Hcoin Hsign Hsig)
    end.
    reflexivity.
  - split; [reflexivity|].
    apply load_modify, load_modify. unfold log. cbn [kv heap trace].
    apply load_fresh.
Qed.

(** X22: deriving an address through the router.  For a request that passes
    the handler's checks, naming a wallet whose stored record is the wallet
    sealed under the service's key, the response carries the address the
    provider derived from the stored mnemonic for the requested coin type
    and path, together with that coin type; the store is unchanged and the
    decrypted copy left in memory has its key zeroed and its mnemonic
    cleared. *)
Theorem handleWalletAddress_derives_from_stored_mnemonic (data : backend.FieldData)
  (w : World) (coinType : Z) (value : list byte) (wal : Wallet) (n1 n2 : list byte)
  (address : string) :
  let ss := service.storage (backend.walletService b) in
  let name := backend.get_string data "name" in
  let path := backend.get_string data "derivation_path" in
  backend.validateWalletName name = None ->
  backend.get_string data "coin" <> "" ->
  scan_uint32 (backend.get_string data "coin") = Some coinType ->
  backend.validateCoinType coinType = None ->
  backend.validateDerivationPath path = None ->
  backend_fault (clock w) (OpGet ("wallets/" ++ name)) = None ->
  kvstore.get ("wallets/" ++ name) (kv w) = Some value ->
  json_Unmarshal value = Done (sealed_record ss wal n1 n2) ->
  List.length n1 = storage.NonceSize -> List.length n2 = storage.NonceSize ->
  AEAD_correct env ->
  List.length (storage.encryptionKey ss) = 32%nat ->
  Mnemonic wal <> "" ->
  tw_DeriveAddress (3 + clock w) (Mnemonic wal) coinType path = inl address ->
  address <> "" ->
  exists w',
    backend.handleWalletAddress b data w
    = (Ok (backend.mkResponse [("address", backend.VString address);
                               ("coin_type", backend.VUint32 coinType)]), w')
    /\ kv w' = kv w
    /\ mem.load (List.length (heap w)) w'
       = Some (service.zeroPrivateKey (service.clearMnemonic wal)).
Proof.
  intros ss name path Hvalid Hcoinstr Hscan Hcoin Hpath Hfault Hget Hjson H1 H2 Haead
    Hkey Hmn Hderive Haddr.
  pose proof (validateWalletName_nonempty _ Hvalid) as Hne.
  assert (Hvalidcoin : wallet.isValidCoinType coinType = true).
  { unfold backend.validateCoinType in Hcoin. unfold wallet.isValidCoinType,
      wallet.CoinTypeBitcoin, wallet.CoinTypeEthereum, wallet.CoinTypeSolana.
    destruct (_ || _ || _); [reflexivity | discriminate]. }
  eexists. split.
  - unfold backend.handleWalletAddress. cbv zeta. fold name. rewrite Hvalid.
    apply String.eqb_neq in Hcoinstr. rewrite Hcoinstr, Hscan, Hcoin.
    fold path.
    replace (if negb (String.eqb path "") then backend.validateDerivationPath path
             else None) with (@None error)
      by (destruct (negb (String.eqb path "")); [symmetry; exact Hpath | reflexivity]).
    unfold service.GetAddress. rewrite Hne.
    unfold bind at 1. fold ss.
    rewrite (@storage_GetWallet_sealed_run ss name w value wal n1 n2 Hne Hfault Hget Hjson
               H1 H2 Haead Hkey).
    unfold defer, bind at 1. unfold service.deref. rewrite load_fresh.
    unfold bind, ret.
    match goal with
    | |- context [wallet.DeriveAddress ?m ?c ?p ?x] =>
        rewrite (@wallet_DeriveAddress_run m c p address x Hmn Hvalidcoin Hderive Haddr)
    end.
    reflexivity.
  - split; [reflexivity|].
    apply load_modify, load_modify. unfold log. cbn [kv heap trace].
    apply load_fresh.
Qed.

(** X23: create, then read.  When the provider returns keys, nothing is
    stored under the name yet, the backend and the random source do not
    fail and the codec round-trips the record written, [CreateWallet]
    returns the plaintext projection of the wallet it assembled and a
    following [GetWallet] of the name returns exactly the same value, so the
    create and the read responses carry the same fields. *)
Theorem CreateWallet_then_GetWallet (name : string) (coinType : Z) (mnemonic : string)
  (w w1 : World) (keys : WalletKeys) :
  let ws := backend.walletService b in
  let walletObj := assembled name coinType keys (time_Now (clock w1)) in
  name <> "" ->
  provider_keys coinType mnemonic w = (Ok keys, w1) ->
  kvstore.get ("wallets/" ++ name) (kv w) = None ->
  List.length (storage.encryptionKey (service.storage ws)) = 32%nat ->
  reliable_from (clock w1) ->
  codec_round_trips (record_written (service.storage ws) walletObj (log EvNow w1)) ->
  exists w2,
    service.CreateWallet ws name coinType mnemonic w = (Ok (projection walletObj), w2)
    /\ fst (service.GetWallet ws name w2) = Ok (projection walletObj)
    /\ backend.wallet_response (projection walletObj)
       = backend.mkResponse
           [("name", backend.VString name);
            ("coin_type", backend.VUint32 coinType);
            ("address", backend.VString (kAddress keys));
            ("public_key", backend.VString (wallet.GetPublicKeyHex (kPublicKey keys)));
            ("created_at", backend.VString (backend.RFC3339 (time_Now (clock w1))))].
Proof.
  intros ws walletObj Hname Hprov Hget Hkey Hrel (entry & Hmarshal & Hunmarshal).
  apply String.eqb_neq in Hname.
  pose proof (provider_keys_kv coinType mnemonic w) as Hkv.
  rewrite Hprov in Hkv. cbn [snd] in Hkv.
  assert (Hget1 : kvstore.get ("wallets/" ++ Name walletObj) (kv (log EvNow w1)) = None)
    by (cbn [kv log]; rewrite Hkv; exact Hget).
  assert (Hrel1 : reliable_from (clock (log EvNow w1))).
  { apply (reliable_from_later Hrel). unfold clock, log. cbn. lia. }
  pose proof (@StoreWallet_fresh_run _ (service.storage ws) walletObj (log EvNow w1)
                entry Hget1 Hkey Hrel1 Hmarshal) as Hstore.
  eexists. split; [|split].
  - rewrite CreateWallet_unfold by exact Hname. rewrite Hprov. cbv zeta.
    fold ws. change (mkWallet name coinType (kMnemonic keys) (kPrivateKey keys)
                       (wallet.GetPublicKeyHex (kPublicKey keys)) (kAddress keys)
                       (time_Now (clock w1))) with walletObj.
    rewrite Hstore. reflexivity.
  - unfold service.GetWallet. rewrite Hname. unfold bind.
    rewrite GetWalletMetadata_run by exact Hname.
    destruct (Hrel1 (6 + clock (log EvNow w1))%nat ltac:(lia)) as [Hb6 _].
    change (clock (mkWorld _ _ _)) with (6 + clock (log EvNow w1))%nat.
    rewrite Hb6. cbn [kv].
    change ("wallets/" ++ Name walletObj) with ("wallets/" ++ name) at 1.
    rewrite kvstore_get_put, Hunmarshal. reflexivity.
  - reflexivity.
Qed.

(** X24: the list handler's defaults.  A request without [offset] and
    [limit] is answered, when the backend's listing succeeds, with the
    first hundred stored names, after one listing call and nothing else. *)
Theorem handleWalletList_defaults (data : backend.FieldData) (w : World) :
  backend.raw_int data "offset" = None ->
  backend.raw_int data "limit" = None ->
  backend_fault (clock w) (OpList "wallets/") = None ->
  backend.handleWalletList b data w
  = (Ok (backend.ListResponse (firstn 100 (kvstore.list_prefix "wallets/" (kv w)))),
     log (EvBackend (OpList "wallets/")) w).
Proof.
  intros Ho Hl Hfault.
  unfold backend.handleWalletList, backend.get_int. rewrite Ho, Hl. cbv zeta.
  change (0 <? 0)%Z with false. change (100 <? 0)%Z with false. cbv iota.
  unfold service.ListWallets, bind, ret.
  pose proof (@storage_ListWallets_page _ (service.storage (backend.walletService b))
                0 100 w Hfault ltac:(lia) ltac:(lia)
                ltac:(unfold goint.MaxInt; lia)) as Hpage.
  pose proof (storage_ListWallets_world (service.storage (backend.walletService b))
                0 100 w) as Hworld.
  destruct (storage.ListWallets _ 0 100 w) as [r w0]. cbn [fst snd] in *.
  subst r w0. cbv zeta. f_equal. f_equal. f_equal.
  set (keys := kvstore.list_prefix "wallets/" (kv w)).
  assert (HN : goint.len keys = Z.of_nat (List.length keys)) by reflexivity.
  clearbody keys.
  destruct (Z.geb_spec 0 (goint.len keys)) as [Hge|Hlt].
  - destruct keys; [reflexivity|]. cbn [List.length] in HN. lia.
  - change (100 <=? 0)%Z with false. cbv iota. cbn [skipn Z.to_nat].
    destruct (Z.le_ge_cases 100 (goint.len keys)) as [Hle|Hle].
    + rewrite Z.min_l by lia. reflexivity.
    + rewrite Z.min_r by lia.
      rewrite !firstn_all2 by lia. reflexivity.
Qed.

End Requests.

Lemma invalid_name_answered_at_once_witness :
  @backend.handle fake.env backend.OpRead fake.b (fake.request [("name", "a/b")] [])
    fake.empty
  = (Ok (backend.ErrorResponse (Error (New "wallet name contains invalid characters"))),
     fake.empty).
Proof.
  apply (@invalid_name_answered_at_once fake.env fake.b backend.OpRead
           (fake.request [("name", "a/b")] []) fake.empty
           (New "wallet name contains invalid characters")).
  - discriminate.
  - vm_compute. reflexivity.
Defined.

Lemma fake_broken_record_read :
  @backend.handle fake.env backend.OpRead fake.b (fake.request [("name", "x")] [])
    fake.broken_record
  = (Err (Wrap "internal error: "
            (Wrap "failed to retrieve wallet: "
               (Wrap "failed to decode wallet: " (New "invalid record") "") "") ""),
     log (EvBackend (OpGet "wallets/x")) fake.broken_record).
Proof. vm_compute. reflexivity. Qed.

Lemma handler_errors_are_internal_witness :
  exists inner,
    Wrap "internal error: "
      (Wrap "failed to retrieve wallet: "
         (Wrap "failed to decode wallet: " (New "invalid record") "") "") ""
    = Wrap "internal error: " inner ""
    /\ forall s, In s answered -> Is inner s = false.
Proof.
  exact (@handler_errors_are_internal fake.env fake.b backend.OpRead
           (fake.request [("name", "x")] []) fake.broken_record
           (log (EvBackend (OpGet "wallets/x")) fake.broken_record) _
           fake_broken_record_read).
Defined.

Lemma missing_wallet_is_not_found_witness :
  @service.GetWallet fake.env (backend.walletService fake.b) "w9" fake.two_wallets
  = (Err (Sentinel service_ErrWalletNotFound),
     log (EvBackend (OpGet ("wallets/" ++ "w9"))) fake.two_wallets).
Proof.
  exact (proj1 (@missing_wallet_is_not_found fake.env fake.b "w9" fake.two_wallets
                  ltac:(discriminate) fake_w9_free eq_refl)).
Defined.

Lemma fake_w1_valid :
  backend.validateWalletName (backend.get_string (fake.request [("name", "w1")] []) "name")
  = None.
Proof. vm_compute. reflexivity. Qed.

Lemma fake_w1_stored_request :
  exists value,
    kvstore.get ("wallets/" ++ backend.get_string (fake.request [("name", "w1")] []) "name")
      (kv fake.two_wallets) = Some value.
Proof. eexists. vm_compute. reflexivity. Qed.

Lemma handleWalletDelete_then_read_witness :
  exists w1,
    @backend.handle fake.env backend.OpDeleteWallet fake.b
      (fake.request [("name", "w1")] []) fake.two_wallets
    = (Ok (backend.mkResponse [("deleted", backend.VBool true)]), w1)
    /\ kvstore.get
         ("wallets/" ++ backend.get_string (fake.request [("name", "w1")] []) "name")
         (kv w1) = None
    /\ (forall k,
          k <> "wallets/" ++ backend.get_string (fake.request [("name", "w1")] []) "name" ->
          kvstore.get k (kv w1) = kvstore.get k (kv fake.two_wallets))
    /\ fst (@backend.handle fake.env backend.OpRead fake.b
              (fake.request [("name", "w1")] []) w1)
       = Ok not_found_response.
Proof.
  destruct fake_w1_stored_request as [value Hvalue].
  exact (@handleWalletDelete_then_read fake.env fake.b (fake.request [("name", "w1")] [])
           fake.two_wallets value fake_w1_valid Hvalue
           (@fake_reliable (clock fake.two_wallets))).
Defined.

Lemma fake_one_wallet_record :
  exists value,
    kvstore.get ("wallets/" ++ "w3") (kv fake.one_wallet) = Some value
    /\ @json_Unmarshal fake.env value
       = Done (@sealed_record fake.env (service.storage (backend.walletService fake.b))
                 (fake.wallet_named "w3") (@drawn_nonce fake.env 1)
                 (@drawn_nonce fake.env 3)).
Proof. eexists. split; vm_compute; reflexivity. Qed.

Lemma fake_sign_request :
  backend.sign_request (fake.request [("name", "w3"); ("tx_data", "AQID")] [])
  = inr ("w3", [x01; x02; x03]).
Proof. vm_compute. reflexivity. Qed.

Lemma fake_private_key_present : PrivateKey (fake.wallet_named "w3") <> [].
Proof. discriminate. Qed.

Lemma fake_mnemonic_present : Mnemonic (fake.wallet_named "w3") <> "".
Proof. discriminate. Qed.

Lemma handleWalletSign_signs_with_stored_key_witness :
  exists signed w',
    @backend.handleWalletSign fake.env fake.b
      (fake.request [("name", "w3"); ("tx_data", "AQID")] []) fake.one_wallet
    = (Ok (backend.mkResponse [("signed_tx", backend.VString signed)]), w')
    /\ base64.DecodeString signed = Ok [x30; x01; x02; x03]
    /\ kv w' = kv fake.one_wallet
    /\ mem.load (List.length (heap fake.one_wallet)) w'
       = Some (service.clearMnemonic (service.zeroPrivateKey (fake.wallet_named "w3"))).
Proof.
  destruct fake_one_wallet_record as (value & Hvalue & Hjson).
  exact (@handleWalletSign_signs_with_stored_key fake.env fake.b
           (fake.request [("name", "w3"); ("tx_data", "AQID")] []) fake.one_wallet
           "w3" [x01; x02; x03] value (fake.wallet_named "w3")
           (@drawn_nonce fake.env 1) (@drawn_nonce fake.env 3) [x30; x01; x02; x03]
           fake_sign_request eq_refl Hvalue Hjson eq_refl eq_refl fake_AEAD_correct
           eq_refl fake_private_key_present eq_refl eq_refl ltac:(discriminate)).
Defined.

Lemma fake_address_request_valid :
  backend.validateWalletName
    (backend.get_string (fake.request [("name", "w3"); ("coin", "60")] []) "name") = None
  /\ backend.get_string (fake.request [("name", "w3"); ("coin", "60")] []) "coin" <> ""
  /\ @scan_uint32 fake.env
       (backend.get_string (fake.request [("name", "w3"); ("coin", "60")] []) "coin")
     = Some 60%Z
  /\ backend.validateDerivationPath
       (backend.get_string (fake.request [("name", "w3"); ("coin", "60")] [])
          "derivation_path") = None.
Proof.
  split; [vm_compute; reflexivity|]. split; [discriminate|].
  split; vm_compute; reflexivity.
Qed.

Lemma fake_one_wallet_record_request :
  exists value,
    kvstore.get
      ("wallets/"
       ++ backend.get_string (fake.request [("name", "w3"); ("coin", "60")] []) "name")
      (kv fake.one_wallet) = Some value
    /\ @json_Unmarshal fake.env value
       = Done (@sealed_record fake.env (service.storage (backend.walletService fake.b))
                 (fake.wallet_named "w3") (@drawn_nonce fake.env 1)
                 (@drawn_nonce fake.env 3)).
Proof. eexists. split; vm_compute; reflexivity. Qed.

Lemma handleWalletAddress_derives_from_stored_mnemonic_witness :
  exists w',
    @backend.handleWalletAddress fake.env fake.b
      (fake.request [("name", "w3"); ("coin", "60")] []) fake.one_wallet
    = (Ok (backend.mkResponse [("address", backend.VString "bc1qfakeaddress");
                               ("coin_type", backend.VUint32 60)]), w')
    /\ kv w' = kv fake.one_wallet
    /\ mem.load (List.length (heap fake.one_wallet)) w'
       = Some (service.zeroPrivateKey (service.clearMnemonic (fake.wallet_named "w3"))).
Proof.
  destruct fake_one_wallet_record_request as (value & Hvalue & Hjson).
  destruct fake_address_request_valid as (Hname & Hcoin & Hscan & Hpath).
  exact (@handleWalletAddress_derives_from_stored_mnemonic fake.env fake.b
           (fake.request [("name", "w3"); ("coin", "60")] []) fake.one_wallet 60%Z value
           (fake.wallet_named "w3") (@drawn_nonce fake.env 1) (@drawn_nonce fake.env 3)
           "bc1qfakeaddress" Hname Hcoin Hscan eq_refl Hpath eq_refl Hvalue Hjson
           eq_refl eq_refl fake_AEAD_correct eq_refl fake_mnemonic_present eq_refl
           ltac:(discriminate)).
Defined.

Lemma fake_provider_generates :
  @provider_keys fake.env 60 "" fake.two_wallets
  = (Ok fake.keys, log (EvGenerate 60) fake.two_wallets).
Proof. reflexivity. Qed.

Lemma fake_codec_created :
  @codec_round_trips fake.env
    (@record_written fake.env (service.storage (backend.walletService fake.b))
       (assembled "w3" 60 fake.keys
          (@time_Now fake.env (clock (log (EvGenerate 60) fake.two_wallets))))
       (log EvNow (log (EvGenerate 60) fake.two_wallets))).
Proof. eexists. split; vm_compute; reflexivity. Qed.

Lemma CreateWallet_then_GetWallet_witness :
  exists w2,
    @service.CreateWallet fake.env (backend.walletService fake.b) "w3" 60 ""
      fake.two_wallets
    = (Ok (projection
             (assembled "w3" 60 fake.keys
                (@time_Now fake.env (clock (log (EvGenerate 60) fake.two_wallets))))), w2)
    /\ fst (@service.GetWallet fake.env (backend.walletService fake.b) "w3" w2)
       = Ok (projection
               (assembled "w3" 60 fake.keys
                  (@time_Now fake.env (clock (log (EvGenerate 60) fake.two_wallets)))))
    /\ @backend.wallet_response fake.env
         (projection
            (assembled "w3" 60 fake.keys
               (@time_Now fake.env (clock (log (EvGenerate 60) fake.two_wallets)))))
       = backend.mkResponse
           [("name", backend.VString "w3");
            ("coin_type", backend.VUint32 60);
            ("address", backend.VString (kAddress fake.keys));
            ("public_key",
             backend.VString (wallet.GetPublicKeyHex (kPublicKey fake.keys)));
            ("created_at",
             backend.VString
               (@backend.RFC3339 fake.env
                  (@time_Now fake.env (clock (log (EvGenerate 60) fake.two_wallets)))))].
Proof.
  exact (@CreateWallet_then_GetWallet fake.env fake.b "w3" 60%Z "" fake.two_wallets
           (log (EvGenerate 60) fake.two_wallets) fake.keys ltac:(discriminate)
           fake_provider_generates fake_w3_free eq_refl
           (@fake_reliable (clock (log (EvGenerate 60) fake.two_wallets)))
           fake_codec_created).
Defined.

Lemma handleWalletList_defaults_witness :
  @backend.handleWalletList fake.env fake.b (fake.request [] []) fake.two_wallets
  = (Ok (backend.ListResponse
           (firstn 100 (kvstore.list_prefix "wallets/" (kv fake.two_wallets)))),
     log (EvBackend (OpList "wallets/")) fake.two_wallets).
Proof.
  exact (@handleWalletList_defaults fake.env fake.b (fake.request [] []) fake.two_wallets
           eq_refl eq_refl eq_refl).
Defined.
